(** * AdaPay payment reconciliation

    A shallow embedding of [ada-payment-module/models/payment.py]: the
    methods of [TransactionAdapay] that keep a payment transaction in step
    with the AdaPay gateway ([_adapay_webhook_feedback],
    [_adapay_webhook_transaction_feedback], [_process_payment_data] and
    [_get_processing_info]), and the properties the specification states
    about them; then the methods that work on the whole table of
    transactions ([_adapay_form_get_tx_from_data], [_handle_adapay_webhook],
    [_adapay_update_payment_schedule]) and
    [_adapay_form_get_invalid_parameters], with further properties of all
    of them.

    Layout: Python values and the operators the methods use on them; the
    collaborators that live outside the file (the [json] module, the unit
    conversion, the host platform); the record and the effects of a
    transaction; the four methods; the vocabulary of the statements and the
    sample data; the table of transactions and its methods; then the lemmas
    and theorems, method by method. *)

From Stdlib Require Import ZArith List String Ascii Bool Lia DecimalString.
Import ListNotations.
Local Open Scope string_scope.
Local Open Scope Z_scope.

(** ** Python values *)

(** A Python [float], kept as the decimal number [digits * 10 ^ exp10].
    The amounts handled here are integers divided by a power of ten, which
    this representation holds exactly; binary rounding is not modelled. *)
Inductive pyfloat : Type :=
| Float (digits exp10 : Z).

#[local] Set Warnings "-register-all".

(** The values a decoded JSON document is made of.  A [dict] keeps its
    insertion order, as Python's does; every dict of the module has [str]
    keys (they come from JSON objects and from literals). *)
Inductive value : Type :=
| VNone
| VBool (b : bool)
| VInt (n : Z)
| VFloat (x : pyfloat)
| VStr (s : string)
| VList (items : list value)
| VDict (entries : list (string * value)).

Definition dict : Type := list (string * value).

(** The exceptions that can travel through the methods.  [OutsideModel] is
    not a Python exception: it marks the one place (a transaction hash that
    is not a [str]) where the embedding stops rather than guess. *)
Inductive exn : Type :=
| KeyError
| TypeError
| AttributeError
| JSONDecodeError
| ValueError
| GatewayError
| OutsideModel.

(** [except Exception] catches every Python exception. *)
Definition is_Exception (e : exn) : bool :=
  match e with
  | OutsideModel => false
  | _ => true
  end.

(** [LookupError] is the base class of [KeyError]. *)
Definition is_LookupError (e : exn) : bool :=
  match e with
  | KeyError => true
  | _ => false
  end.

(** *** Floats *)

Fixpoint strip_zeros (fuel : nat) (m e : Z) : pyfloat :=
  match fuel with
  | O => Float m e
  | S fuel' =>
      if (m mod 10 =? 0) then strip_zeros fuel' (m / 10) (e + 1)
      else Float m e
  end.

(** The canonical form of [m * 10 ^ e]: no trailing zero in the digits, and
    zero written [Float 0 0]. *)
Definition float_norm (m e : Z) : pyfloat :=
  if m =? 0 then Float 0 0
  else strip_zeros (Z.to_nat (Z.log2 (Z.abs m))) m e.

(** *** Dicts *)

Fixpoint dict_get (k : string) (d : dict) : option value :=
  match d with
  | [] => None
  | (k', v) :: rest => if String.eqb k k' then Some v else dict_get k rest
  end.

Definition dict_mem (k : string) (d : dict) : bool :=
  match dict_get k d with
  | Some _ => true
  | None => false
  end.

(** [d[k] = v]: an existing key keeps its place, a new one goes last. *)
Fixpoint dict_set (k : string) (v : value) (d : dict) : dict :=
  match d with
  | [] => [(k, v)]
  | (k', v') :: rest =>
      if String.eqb k k' then (k', v) :: rest
      else (k', v') :: dict_set k v rest
  end.

(** [d.update(other)] *)
Definition dict_update (d other : dict) : dict :=
  fold_left (fun acc kv => dict_set (fst kv) (snd kv) acc) other d.

Definition dict_values (d : dict) : list value := map snd d.

(** *** Equality and membership *)

(** The number a numeric value stands for, as [digits * 10 ^ exp10]. *)
Definition as_number (v : value) : option (Z * Z) :=
  match v with
  | VBool b => Some (if b then 1 else 0, 0)
  | VInt n => Some (n, 0)
  | VFloat (Float m e) => Some (m, e)
  | _ => None
  end.

Definition number_eq (a b : Z * Z) : bool :=
  let '(m1, e1) := a in
  let '(m2, e2) := b in
  if e1 <=? e2 then m1 =? m2 * 10 ^ (e2 - e1)
  else m1 * 10 ^ (e1 - e2) =? m2.

(** Python's [==] on values: numbers compare by value across [bool], [int]
    and [float]; lists compare item by item; dicts compare as mappings,
    whatever the order of their entries. *)
Fixpoint py_eq (a b : value) {struct a} : bool :=
  match a, b with
  | VNone, VNone => true
  | VStr s, VStr t => String.eqb s t
  | VList xs, VList ys =>
      (fix items (xs ys : list value) {struct xs} : bool :=
         match xs, ys with
         | [], [] => true
         | x :: xs', y :: ys' => py_eq x y && items xs' ys'
         | _, _ => false
         end) xs ys
  | VDict d1, VDict d2 =>
      Nat.eqb (List.length d1) (List.length d2) &&
      (fix entries (d : list (string * value)) {struct d} : bool :=
         match d with
         | [] => true
         | (k, v) :: rest =>
             match dict_get k d2 with
             | Some w => py_eq v w && entries rest
             | None => false
             end
         end) d1
  | (VBool _ | VInt _ | VFloat _), (VBool _ | VInt _ | VFloat _) =>
      match as_number a, as_number b with
      | Some x, Some y => number_eq x y
      | _, _ => false
      end
  | _, _ => false
  end.

(** [a != b] *)
Definition py_ne (a b : value) : bool := negb (py_eq a b).

(** [v in [s1, s2, ...]] for a list of [str] literals. *)
Definition py_in_strs (v : value) (l : list string) : bool :=
  existsb (fun s => py_eq v (VStr s)) l.

Fixpoint is_substring (t s : string) : bool :=
  String.prefix t s ||
  match s with
  | EmptyString => false
  | String _ s' => is_substring t s'
  end.

(** [k in c] for a [str] key [k]. *)
Definition contains (c : value) (k : string) : exn + bool :=
  match c with
  | VDict d => inr (dict_mem k d)
  | VList l => inr (existsb (py_eq (VStr k)) l)
  | VStr s => inr (is_substring k s)
  | _ => inl TypeError
  end.

(** [c[k]] for a [str] key [k]: only a dict can be subscripted by a [str]. *)
Definition subscript (c : value) (k : string) : exn + value :=
  match c with
  | VDict d =>
      match dict_get k d with
      | Some v => inr v
      | None => inl KeyError
      end
  | _ => inl TypeError
  end.

(** [c[k] = v] for a [str] key [k]. *)
Definition store (c : value) (k : string) (v : value) : exn + value :=
  match c with
  | VDict d => inr (VDict (dict_set k v d))
  | _ => inl TypeError
  end.

(** [d[key]] for a dict literal [d] and any value as the key: a key that
    is a list or a dict cannot be hashed; any other key that is not a
    [str] is simply not there. *)
Definition lookup (d : dict) (key : value) : exn + value :=
  match key with
  | VStr k =>
      match dict_get k d with
      | Some v => inr v
      | None => inl KeyError
      end
  | VList _ | VDict _ => inl TypeError
  | _ => inl KeyError
  end.

Definition hashable (v : value) : bool :=
  match v with
  | VList _ | VDict _ => false
  | _ => true
  end.

(** [for x in c]: the items a loop over [c] visits. *)
Definition py_iter (c : value) : exn + list value :=
  match c with
  | VList l => inr l
  | VDict d => inr (map (fun kv => VStr (fst kv)) d)
  | VStr s => inr (map (fun ch => VStr (String ch EmptyString)) (list_ascii_of_string s))
  | _ => inl TypeError
  end.

(** [c.values()] *)
Definition py_values (c : value) : exn + list value :=
  match c with
  | VDict d => inr (dict_values d)
  | _ => inl AttributeError
  end.

(** ** Collaborators outside the file *)

(** *** The [json] module

    [json.loads] and [json.dumps] belong to Python's library, not to the
    module.  The methods are written against this interface and every
    theorem holds for any implementation of it; [PyJson] below is one,
    used to run the model on concrete texts. *)
Module json.

Class codec : Type := {
  loads : string -> exn + value;
  dumps : value -> exn + string
}.

End json.

(** A reader and a writer of JSON text in the manner of Python's [json]:
    [dumps] writes [", "] and [": "] between items and escapes every
    character outside printable ASCII; [loads] accepts the JSON grammar
    (without [NaN] and [Infinity], and with escapes up to [u00ff], the
    characters a [string] here can hold). *)
Module PyJson.

Definition code (c : ascii) : Z := Z.of_N (N_of_ascii c).
Definition chr (n : Z) : ascii := ascii_of_N (Z.to_N n).
Definition char (n : Z) : string := String (chr n) EmptyString.

Definition dquote : string := char 34.
Definition backslash : string := char 92.

Definition hex_digit (n : Z) : string :=
  if n <? 10 then char (48 + n) else char (87 + n).

Definition escape_char (c : ascii) : string :=
  let n := code c in
  if n =? 34 then backslash ++ dquote
  else if n =? 92 then backslash ++ backslash
  else if n =? 10 then backslash ++ "n"
  else if n =? 13 then backslash ++ "r"
  else if n =? 9 then backslash ++ "t"
  else if n =? 8 then backslash ++ "b"
  else if n =? 12 then backslash ++ "f"
  else if (n <? 32) || (126 <? n)
       then backslash ++ "u00" ++ hex_digit (n / 16) ++ hex_digit (n mod 16)
  else String c EmptyString.

Fixpoint escape (s : string) : string :=
  match s with
  | EmptyString => EmptyString
  | String c rest => escape_char c ++ escape rest
  end.

Definition encode_str (s : string) : string := dquote ++ escape s ++ dquote.

Definition encode_int (n : Z) : string := NilZero.string_of_int (Z.to_int n).

Fixpoint zeros (n : nat) : string :=
  match n with
  | O => EmptyString
  | S n' => String "0" (zeros n')
  end.

(** [repr] of a float: positional notation while the decimal point lies
    within sixteen digits to the right and four to the left of the first
    digit, exponent notation beyond. *)
Definition float_repr (x : pyfloat) : string :=
  let 'Float m e := x in
  if m =? 0 then "0.0"
  else
    let d := encode_int (Z.abs m) in
    let k := Z.of_nat (String.length d) in
    let decpt := k + e in
    let sign := if m <? 0 then "-" else "" in
    if (16 <? decpt) || (decpt <? -3) then
      let x10 := decpt - 1 in
      let ex := encode_int (Z.abs x10) in
      sign ++ substring 0 1 d
           ++ (if 1 <? k then "." ++ substring 1 (String.length d - 1) d else "")
           ++ "e" ++ (if x10 <? 0 then "-" else "+")
           ++ (if Z.abs x10 <? 10 then "0" else "") ++ ex
    else if decpt <=? 0 then
      sign ++ "0." ++ zeros (Z.to_nat (- decpt)) ++ d
    else if decpt <? k then
      sign ++ substring 0 (Z.to_nat decpt) d ++ "."
           ++ substring (Z.to_nat decpt) (Z.to_nat (k - decpt)) d
    else
      sign ++ d ++ zeros (Z.to_nat (decpt - k)) ++ ".0".

Fixpoint encode (v : value) : string :=
  match v with
  | VNone => "null"
  | VBool true => "true"
  | VBool false => "false"
  | VInt n => encode_int n
  | VFloat x => float_repr x
  | VStr s => encode_str s
  | VList l =>
      "[" ++
      (fix items (l : list value) : string :=
         match l with
         | [] => ""
         | x :: rest =>
             match rest with
             | [] => encode x
             | _ => encode x ++ ", " ++ items rest
             end
         end) l ++ "]"
  | VDict d =>
      "{" ++
      (fix members (d : list (string * value)) : string :=
         match d with
         | [] => ""
         | (k, x) :: rest =>
             match rest with
             | [] => encode_str k ++ ": " ++ encode x
             | _ => encode_str k ++ ": " ++ encode x ++ ", " ++ members rest
             end
         end) d ++ "}"
  end.

Definition is_ws (c : ascii) : bool :=
  let n := code c in (n =? 32) || (n =? 9) || (n =? 10) || (n =? 13).

Fixpoint skip_ws (s : string) : string :=
  match s with
  | String c rest => if is_ws c then skip_ws rest else s
  | EmptyString => s
  end.

Definition is_digit (c : ascii) : bool :=
  let n := code c in (48 <=? n) && (n <=? 57).

(** The leading digits of [s], and what follows them. *)
Fixpoint take_digits (s : string) : list Z * string :=
  match s with
  | String c rest =>
      if is_digit c
      then let '(ds, s') := take_digits rest in (code c - 48 :: ds, s')
      else ([], s)
  | EmptyString => ([], s)
  end.

Definition number_of (ds : list Z) : Z :=
  fold_left (fun acc d => acc * 10 + d) ds 0.

Definition hex_value (c : ascii) : option Z :=
  let n := code c in
  if (48 <=? n) && (n <=? 57) then Some (n - 48)
  else if (97 <=? n) && (n <=? 102) then Some (n - 87)
  else if (65 <=? n) && (n <=? 70) then Some (n - 55)
  else None.

Definition unescape (c : ascii) : option ascii :=
  let n := code c in
  if (n =? 34) || (n =? 92) || (n =? 47) then Some c
  else if n =? 110 then Some (chr 10)
  else if n =? 114 then Some (chr 13)
  else if n =? 116 then Some (chr 9)
  else if n =? 98 then Some (chr 8)
  else if n =? 102 then Some (chr 12)
  else None.

Definition cons_char (c : ascii) (r : option (string * string))
  : option (string * string) :=
  match r with
  | Some (body, rest) => Some (String c body, rest)
  | None => None
  end.

(** The body of a string literal, read from just after its opening
    quote, and the text after its closing quote. *)
Fixpoint read_string (s : string) : option (string * string) :=
  match s with
  | EmptyString => None
  | String c r =>
      let n := code c in
      if n =? 34 then Some (EmptyString, r)
      else if n =? 92 then
        match r with
        | EmptyString => None
        | String e r' =>
            if code e =? 117 then
              match r' with
              | String h1 (String h2 (String h3 (String h4 r''))) =>
                  match hex_value h1, hex_value h2, hex_value h3, hex_value h4 with
                  | Some a, Some b, Some c', Some d =>
                      if (a =? 0) && (b =? 0)
                      then cons_char (chr (16 * c' + d)) (read_string r'')
                      else None
                  | _, _, _, _ => None
                  end
              | _ => None
              end
            else
              match unescape e with
              | Some ch => cons_char ch (read_string r')
              | None => None
              end
        end
      else if n <? 32 then None
      else cons_char c (read_string r)
  end.

Definition read_number (s : string) : option (value * string) :=
  let '(neg, s1) :=
    match s with
    | String "-" r => (true, r)
    | _ => (false, s)
    end in
  let sign := fun n : Z => if neg then - n else n in
  let '(ip, s2) := take_digits s1 in
  match ip with
  | [] => None
  | d0 :: more =>
      if (d0 =? 0) && negb (Nat.eqb (List.length more) 0) then None
      else
        let '(frac, s3, has_frac) :=
          match s2 with
          | String "." r => let '(fs, r') := take_digits r in (fs, r', true)
          | _ => ([], s2, false)
          end in
        if has_frac && Nat.eqb (List.length frac) 0 then None
        else
          let '(ex, s4, has_exp, bad_exp) :=
            match s3 with
            | String c r =>
                if (code c =? 101) || (code c =? 69) then
                  let '(eneg, r1) :=
                    match r with
                    | String "-" r0 => (true, r0)
                    | String "+" r0 => (false, r0)
                    | _ => (false, r)
                    end in
                  let '(es, r2) := take_digits r1 in
                  ((if eneg then - number_of es else number_of es), r2, true,
                   Nat.eqb (List.length es) 0)
                else (0, s3, false, false)
            | EmptyString => (0, s3, false, false)
            end in
          if bad_exp then None
          else if has_frac || has_exp then
            let m := number_of ip * 10 ^ Z.of_nat (List.length frac) + number_of frac in
            Some (VFloat (float_norm (sign m) (ex - Z.of_nat (List.length frac))), s4)
          else Some (VInt (sign (number_of ip)), s4)
  end.

Definition strip_prefix (p s : string) : option string :=
  if String.prefix p s
  then Some (substring (String.length p) (String.length s - String.length p) s)
  else None.

Fixpoint read_value (fuel : nat) (s : string) : option (value * string) :=
  match fuel with
  | O => None
  | S fuel' =>
      match skip_ws s with
      | EmptyString => None
      | String c r as s0 =>
          let n := code c in
          if n =? 123 then
            match skip_ws r with
            | EmptyString => None
            | String c2 r2 =>
                if code c2 =? 125 then Some (VDict [], r2)
                else read_members fuel' r []
            end
          else if n =? 91 then
            match skip_ws r with
            | EmptyString => None
            | String c2 r2 =>
                if code c2 =? 93 then Some (VList [], r2)
                else read_items fuel' r []
            end
          else if n =? 34 then
            match read_string r with
            | Some (body, rest) => Some (VStr body, rest)
            | None => None
            end
          else
            match strip_prefix "null" s0, strip_prefix "true" s0,
                  strip_prefix "false" s0 with
            | Some rest, _, _ => Some (VNone, rest)
            | _, Some rest, _ => Some (VBool true, rest)
            | _, _, Some rest => Some (VBool false, rest)
            | _, _, _ => read_number s0
            end
      end
  end
with read_members (fuel : nat) (s : string) (acc : dict) : option (value * string) :=
  match fuel with
  | O => None
  | S fuel' =>
      match skip_ws s with
      | EmptyString => None
      | String c r =>
          if code c =? 34 then
            match read_string r with
            | None => None
            | Some (k, rest) =>
                match skip_ws rest with
                | EmptyString => None
                | String c2 r2 =>
                    if code c2 =? 58 then
                      match read_value fuel' r2 with
                      | None => None
                      | Some (v, rest2) =>
                          match skip_ws rest2 with
                          | EmptyString => None
                          | String c3 r3 =>
                              if code c3 =? 44
                              then read_members fuel' r3 (dict_set k v acc)
                              else if code c3 =? 125
                              then Some (VDict (dict_set k v acc), r3)
                              else None
                          end
                      end
                    else None
                end
            end
          else None
      end
  end
with read_items (fuel : nat) (s : string) (acc : list value) : option (value * string) :=
  match fuel with
  | O => None
  | S fuel' =>
      match read_value fuel' s with
      | None => None
      | Some (v, rest) =>
          match skip_ws rest with
          | EmptyString => None
          | String c r =>
              if code c =? 44 then read_items fuel' r (acc ++ [v])
              else if code c =? 93 then Some (VList (acc ++ [v]), r)
              else None
          end
      end
  end.

Definition decode (s : string) : exn + value :=
  match read_value (S (String.length s)) s with
  | Some (v, rest) =>
      match skip_ws rest with
      | EmptyString => inr v
      | _ => inl JSONDecodeError
      end
  | None => inl JSONDecodeError
  end.

Definition python : json.codec :=
  {| json.loads := decode; json.dumps := fun v => inr (encode v) |}.

End PyJson.

(** *** Unit conversion *)

(** [connectors/adapay.py] is not among the sources; the methods use one
    function of it, taken here as an interface. *)
Class Connector : Type := {
  lovelace_to_ada : value -> exn + value
}.

(** Modelled from the spec: [lovelace_to_ada] of [connectors/adapay.py],
    which is missing.  The spec gives the rate, "1 ADA = 1,000,000
    lovelace", and the result on an example, [5000000] becoming [5.0]: a
    number of lovelace is divided by a million and the result is a float.
    What is not a number cannot be divided. *)
Definition divide_by_million (lovelace : value) : exn + value :=
  match lovelace with
  | VInt n => inr (VFloat (float_norm n (-6)))
  | VFloat (Float m e) => inr (VFloat (float_norm m (e - 6)))
  | _ => inl TypeError
  end.

Definition spec_connector : Connector :=
  {| lovelace_to_ada := divide_by_million |}.

(** *** Dates *)

(** [datetime] and [timedelta], both counted in microseconds: a date from
    the epoch, a duration from zero. *)
Module datetime.

Definition datetime : Type := Z.
Definition timedelta : Type := Z.

Definition microseconds_per_second : Z := 1000000.
Definition microseconds_per_day : Z := 86400 * microseconds_per_second.

(** [timedelta(minutes=n)] *)
Definition minutes (n : Z) : timedelta := n * 60 * microseconds_per_second.

(** A [timedelta] is stored as days, seconds within the day and
    microseconds within the second; [.days] and [.seconds] read the
    first two. *)
Definition days (d : timedelta) : Z := d / microseconds_per_day.
Definition seconds (d : timedelta) : Z :=
  (d mod microseconds_per_day) / microseconds_per_second.

(** The whole seconds in a duration, days included. *)
Definition whole_seconds (d : timedelta) : Z := d / microseconds_per_second.

End datetime.

(** ** Transactions *)

(** The fields of [payment.acquirer] the methods read. *)
Record Acquirer : Type := {
  provider : string;
  adapay_use_webhook : bool
}.

(** A [payment.transaction] record: the fields of the host model the
    methods read, and the [adapay_] fields the module adds, in the order it
    declares them.  A [Char] or [Float] field holds the value last written
    to it. *)
Record Transaction : Type := {
  reference : string;
  state : string;
  create_date : datetime.datetime;
  sale_order_ids : list nat;
  acquirer_id : Acquirer;
  adapay_uuid : value;
  adapay_amount : value;
  adapay_total_amount_sent : value;
  adapay_total_amount_left : value;
  adapay_expiration_minutes : Z;
  adapay_expiration_date : value;
  adapay_update_time : value;
  adapay_last_updated : value;
  adapay_status : value;
  adapay_substatus : value;
  adapay_address : value;
  adapay_transaction_history : string
}.

Definition set_state (s : string) (t : Transaction) : Transaction :=
  {| reference := reference t; state := s; create_date := create_date t;
     sale_order_ids := sale_order_ids t; acquirer_id := acquirer_id t;
     adapay_uuid := adapay_uuid t; adapay_amount := adapay_amount t;
     adapay_total_amount_sent := adapay_total_amount_sent t;
     adapay_total_amount_left := adapay_total_amount_left t;
     adapay_expiration_minutes := adapay_expiration_minutes t;
     adapay_expiration_date := adapay_expiration_date t;
     adapay_update_time := adapay_update_time t;
     adapay_last_updated := adapay_last_updated t;
     adapay_status := adapay_status t; adapay_substatus := adapay_substatus t;
     adapay_address := adapay_address t;
     adapay_transaction_history := adapay_transaction_history t |}.

Definition set_adapay_status (v : value) (t : Transaction) : Transaction :=
  {| reference := reference t; state := state t; create_date := create_date t;
     sale_order_ids := sale_order_ids t; acquirer_id := acquirer_id t;
     adapay_uuid := adapay_uuid t; adapay_amount := adapay_amount t;
     adapay_total_amount_sent := adapay_total_amount_sent t;
     adapay_total_amount_left := adapay_total_amount_left t;
     adapay_expiration_minutes := adapay_expiration_minutes t;
     adapay_expiration_date := adapay_expiration_date t;
     adapay_update_time := adapay_update_time t;
     adapay_last_updated := adapay_last_updated t;
     adapay_status := v; adapay_substatus := adapay_substatus t;
     adapay_address := adapay_address t;
     adapay_transaction_history := adapay_transaction_history t |}.

Definition set_adapay_transaction_history (s : string) (t : Transaction)
  : Transaction :=
  {| reference := reference t; state := state t; create_date := create_date t;
     sale_order_ids := sale_order_ids t; acquirer_id := acquirer_id t;
     adapay_uuid := adapay_uuid t; adapay_amount := adapay_amount t;
     adapay_total_amount_sent := adapay_total_amount_sent t;
     adapay_total_amount_left := adapay_total_amount_left t;
     adapay_expiration_minutes := adapay_expiration_minutes t;
     adapay_expiration_date := adapay_expiration_date t;
     adapay_update_time := adapay_update_time t;
     adapay_last_updated := adapay_last_updated t;
     adapay_status := adapay_status t; adapay_substatus := adapay_substatus t;
     adapay_address := adapay_address t;
     adapay_transaction_history := s |}.

(** The five fields [_adapay_webhook_feedback] writes in one [write]. *)
Definition write_feedback (sent owed last_updated status substatus : value)
  (t : Transaction) : Transaction :=
  {| reference := reference t; state := state t; create_date := create_date t;
     sale_order_ids := sale_order_ids t; acquirer_id := acquirer_id t;
     adapay_uuid := adapay_uuid t; adapay_amount := adapay_amount t;
     adapay_total_amount_sent := sent;
     adapay_total_amount_left := owed;
     adapay_expiration_minutes := adapay_expiration_minutes t;
     adapay_expiration_date := adapay_expiration_date t;
     adapay_update_time := adapay_update_time t;
     adapay_last_updated := last_updated;
     adapay_status := status; adapay_substatus := substatus;
     adapay_address := adapay_address t;
     adapay_transaction_history := adapay_transaction_history t |}.

(** [{field: getattr(self, field) for field in self._fields.keys()
      if field.startswith("adapay")}] *)
Definition adapay_fields (t : Transaction) : dict :=
  [ ("adapay_uuid", adapay_uuid t);
    ("adapay_amount", adapay_amount t);
    ("adapay_total_amount_sent", adapay_total_amount_sent t);
    ("adapay_total_amount_left", adapay_total_amount_left t);
    ("adapay_expiration_minutes", VInt (adapay_expiration_minutes t));
    ("adapay_expiration_date", adapay_expiration_date t);
    ("adapay_update_time", adapay_update_time t);
    ("adapay_last_updated", adapay_last_updated t);
    ("adapay_status", adapay_status t);
    ("adapay_substatus", adapay_substatus t);
    ("adapay_address", adapay_address t);
    ("adapay_transaction_history", VStr (adapay_transaction_history t)) ].

(** *** The host platform

    What the methods ask of code that is neither in the file nor in
    Python's library and that no property below depends on: the QR image of
    an address, the processing information of the inherited method, and
    the rendering of the payment page from its values. *)
Class Host : Type := {
  generate_b64_qr_image : value -> string;
  super_get_processing_info : Transaction -> dict;
  render_payment_page : dict -> string
}.

(** ** Effects *)

(** The audit notes posted on sales orders; a note carries the data its
    text is formatted from. *)
Inductive Note : Type :=
| PaymentUpdate (data : value)
| TransactionUpdate (data : value).

(** The transitions of the local status. *)
Inductive Transition : Type :=
| ToDone
| ToPending
| ToCancel.

(** What a method can change: the transaction it is called on, the notes
    on the sales orders (oldest first, each with the order it went to), and
    the transitions performed so far (oldest first). *)
Record World : Type := {
  self : Transaction;
  chatter : list (nat * Note);
  transitions : list Transition
}.

Inductive outcome (A : Type) : Type :=
| Returned (a : A)
| Raised (e : exn).
Arguments Returned {A} a.
Arguments Raised {A} e.

(** A method body: it returns or raises, and leaves a world behind either
    way (what was written before an exception stays written). *)
Definition M (A : Type) : Type := World -> outcome A * World.

Definition ret {A : Type} (a : A) : M A := fun w => (Returned a, w).

Definition raise {A : Type} (e : exn) : M A := fun w => (Raised e, w).

Definition bind {A B : Type} (c : M A) (k : A -> M B) : M B :=
  fun w =>
    match c w with
    | (Returned a, w') => k a w'
    | (Raised e, w') => (Raised e, w')
    end.

Declare Scope method_scope.
Delimit Scope method_scope with method.
Notation "x <- c ;; k" := (bind c (fun x => k))
  (at level 61, c at next level, right associativity) : method_scope.
Notation "c ;; k" := (bind c (fun _ => k))
  (at level 61, right associativity) : method_scope.
Local Open Scope method_scope.

(** An expression that evaluates or raises. *)
Definition eval {A : Type} (r : exn + A) : M A :=
  match r with
  | inr a => ret a
  | inl e => raise e
  end.

(** [self.field] *)
Definition get {A : Type} (field : Transaction -> A) : M A :=
  fun w => (Returned (field (self w)), w).

(** [self.field = v] and [self.write({...})] *)
Definition update (f : Transaction -> Transaction) : M unit :=
  fun w => (Returned tt,
            {| self := f (self w); chatter := chatter w;
               transitions := transitions w |}).

(** [try: body  except <caught>: handler] *)
Definition try_except {A : Type} (body : M A) (caught : exn -> bool)
  (handler : M A) : M A :=
  fun w =>
    match body w with
    | (Raised e, w') => if caught e then handler w' else (Raised e, w')
    | r => r
    end.

(** [for x in l: body(x)] *)
Fixpoint for_each {A B : Type} (l : list A) (body : A -> M B) : M unit :=
  match l with
  | [] => ret tt
  | x :: rest => body x ;; for_each rest body
  end.

(** [sale.message_post(body=...)] *)
Definition message_post (sale : nat) (body : Note) : M unit :=
  fun w => (Returned tt,
            {| self := self w; chatter := chatter w ++ [(sale, body)];
               transitions := transitions w |}).

(** Modelled from the spec: [_set_transaction_done], [_set_transaction_pending]
    and [_set_transaction_cancel] are methods of the host platform's
    [payment.transaction], not of the module.  The spec has them take the
    local status to [done], [pending] and [cancel]; each call is also
    recorded, so that a transition performed twice shows. *)
Definition transition (t : Transition) (target : string) : M unit :=
  fun w => (Returned tt,
            {| self := set_state target (self w); chatter := chatter w;
               transitions := transitions w ++ [t] |}).

Definition _set_transaction_done : M unit := transition ToDone "done".
Definition _set_transaction_pending : M unit := transition ToPending "pending".
Definition _set_transaction_cancel : M unit := transition ToCancel "cancel".

(** ** The methods of [TransactionAdapay] *)

(** The text shown for each status, [title] in [_get_processing_info]. *)
Definition title : dict :=
  [ ("new", VStr "To complete your payment, please send ADA to the address below.");
    ("payment-sent", VStr "Your payment was received! You payment is pending for confirmation.");
    ("pending", VStr "The transaction is in the process of being confirmed.");
    ("confirmed", VStr "The transaction is confirmed!");
    ("expired", VStr "The payment request is expired. Please back to payment selection.") ].

Section Methods.

Context {JSON : json.codec} {HOST : Host} {ADAPAY : Connector}.

(** Lines 226-247: mirror the payload in the [adapay_] fields, post a
    note on every linked sales order, then map the external status to the
    local one.  (The values of the dict given to [write] are evaluated in
    the order they are written.) *)
Definition _adapay_webhook_feedback (data : value) : M bool :=
  status <- eval (subscript data "status") ;;
  confirmedAmount <- eval (subscript data "confirmedAmount") ;;
  sent <- eval (lovelace_to_ada confirmedAmount) ;;
  pendingAmount <- eval (subscript data "pendingAmount") ;;
  owed <- eval (lovelace_to_ada pendingAmount) ;;
  updateTime <- eval (subscript data "updateTime") ;;
  subStatus <- eval (subscript data "subStatus") ;;
  update (write_feedback sent owed updateTime status subStatus) ;;
  sales <- get sale_order_ids ;;
  for_each sales (fun sale => message_post sale (PaymentUpdate data)) ;;
  (if py_eq status (VStr "confirmed") then
     st <- get state ;;
     if negb (String.eqb st "done") then _set_transaction_done else ret tt
   else if py_in_strs status ["new"; "payment-sent"; "pending"] then
     st <- get state ;;
     if negb (String.eqb st "pending") then _set_transaction_pending else ret tt
   else
     st <- get state ;;
     if negb (String.eqb st "cancel") then _set_transaction_cancel else ret tt) ;;
  ret true.

(** Lines 249-264: merge one per-hash update into the ledger kept as text.
    The amount is converted in [data] itself, and [data] is what goes into
    the ledger and into the notes; the caller's dict changes with it, which
    no caller reads again.  A hash that is not a [str] is outside the
    embedding. *)
Definition _adapay_webhook_transaction_feedback (data : value) : M bool :=
  text <- get adapay_transaction_history ;;
  transaction_history <-
    try_except (eval (json.loads text))
      (fun e => match e with JSONDecodeError => true | _ => false end)
      (ret (VDict [])) ;;
  hash <- eval (subscript data "hash") ;;
  match hash with
  | VStr transaction_hash =>
      present <- eval (contains transaction_history transaction_hash) ;;
      changed <-
        (if negb present then ret true
         else
           updateTime <- eval (subscript data "updateTime") ;;
           record <- eval (subscript transaction_history transaction_hash) ;;
           stored <- eval (subscript record "updateTime") ;;
           ret (py_ne updateTime stored)) ;;
      (if changed : bool then
         amount <- eval (subscript data "amount") ;;
         ada <- eval (lovelace_to_ada amount) ;;
         data' <- eval (store data "amount" ada) ;;
         transaction_history' <-
           eval (store transaction_history transaction_hash data') ;;
         text' <- eval (json.dumps transaction_history') ;;
         update (set_adapay_transaction_history text') ;;
         sales <- get sale_order_ids ;;
         for_each sales
           (fun sale => message_post sale (TransactionUpdate data'))
       else ret tt) ;;
      ret true
  | _ => raise OutsideModel
  end.

(** Lines 148-154. *)
Definition _process_payment_data (payment_data : value) : M unit :=
  update_date <- eval (subscript payment_data "updateTime") ;;
  last_updated <- get adapay_last_updated ;;
  (if py_ne update_date last_updated
   then _adapay_webhook_feedback payment_data ;; ret tt
   else ret tt) ;;
  transactions <- eval (subscript payment_data "transactions") ;;
  items <- eval (py_iter transactions) ;;
  for_each items _adapay_webhook_transaction_feedback.

(** Lines 168-176, the block under "Update status": with polling on, ask
    the gateway and process its answer, whatever goes wrong on the way
    being logged and dropped.  [gateway] is what
    [conn.get_payment_by_uuid(self.adapay_uuid)] answers (the connector
    itself included). *)
Definition update_status (gateway : exn + value) : M unit :=
  acquirer <- get acquirer_id ;;
  if negb (adapay_use_webhook acquirer) then
    try_except
      (payment_data <- eval gateway ;;
       _process_payment_data payment_data)
      is_Exception
      (ret tt)
  else ret tt.

(** Lines 186-189: the values handed to the payment page. *)
Definition page_values (qr_encoded : string) (t : Transaction)
  (records : list value) (heading : value) : dict :=
  dict_set "title" heading
    (dict_set "adapay_transaction_history" (VList records)
       (dict_set "qr_code" (VStr ("data:image/png;base64," ++ qr_encoded))
          (adapay_fields t))).

(** Lines 156-198.  [now] is what [datetime.now()] reads.  The world the
    method leaves when it raises is the one in memory at that point; what
    the platform does with it afterwards is not part of the method. *)
Definition _get_processing_info (now : datetime.datetime)
  (gateway : exn + value) : M dict :=
  address <- get adapay_address ;;
  let qr_encoded := generate_b64_qr_image address in
  res <- get super_get_processing_info ;;
  acquirer <- get acquirer_id ;;
  if String.eqb (provider acquirer) "adapay" then
    (* Update status *)
    update_status gateway ;;
    (* Render AdaPay payment pages *)
    status <- get adapay_status ;;
    exp_time <-
      (if py_eq status (VStr "new") then
         created <- get create_date ;;
         minutes <- get adapay_expiration_minutes ;;
         let expiration := created + datetime.minutes minutes in
         if expiration <? now then
           update (set_adapay_status (VStr "expired")) ;; ret 0
         else ret (datetime.seconds (expiration - now))
       else ret 0) ;;
    t <- get (fun t => t) ;;
    text <- get adapay_transaction_history ;;
    history <- eval (json.loads text) ;;
    records <- eval (py_values history) ;;
    status <- get adapay_status ;;
    heading <- eval (lookup title status) ;;
    let transaction_adapay_data := page_values qr_encoded t records heading in
    let payment_frame := render_payment_page transaction_adapay_data in
    let adapay_info :=
      [ ("message_to_display", VStr payment_frame);
        ("adapay_expiration_seconds", VInt exp_time) ] in
    let adapay_info :=
      if py_ne status (VStr "confirmed")
      then dict_set "return_url" (VStr "") adapay_info
      else adapay_info in
    ret (dict_update res adapay_info)
  else ret res.

End Methods.

(** ** Payloads, outcomes and what the methods leave behind *)

Section Readings.

Context {ADAPAY : Connector}.

(** An inbound status payload, [{status, confirmedAmount, pendingAmount,
    updateTime, subStatus}] with amounts that convert: its status, the
    two converted amounts, its update time and its sub-status. *)
Definition status_payload (data : value)
  : option (value * value * value * value * value) :=
  match data with
  | VDict d =>
      match dict_get "status" d, dict_get "confirmedAmount" d,
            dict_get "pendingAmount" d, dict_get "updateTime" d,
            dict_get "subStatus" d with
      | Some status, Some confirmed, Some pending, Some updateTime,
        Some subStatus =>
          match lovelace_to_ada confirmed, lovelace_to_ada pending with
          | inr sent, inr owed =>
              Some (status, sent, owed, updateTime, subStatus)
          | _, _ => None
          end
      | _, _, _, _, _ => None
      end
  | _ => None
  end.

(** An inbound per-hash update, [{hash, amount, updateTime, ...}] with a
    [str] hash and an amount that converts: its entries, its hash and its
    amount in ADA. *)
Definition transaction_update (data : value)
  : option (dict * string * value) :=
  match data with
  | VDict d =>
      match dict_get "hash" d, dict_get "amount" d with
      | Some (VStr h), Some amount =>
          match lovelace_to_ada amount with
          | inr ada => Some (d, h, ada)
          | inl _ => None
          end
      | _, _ => None
      end
  | _ => None
  end.

End Readings.

(** The local status an external status maps to, and the transition that
    leads there: [confirmed] to [done]; [new], [payment-sent] and [pending]
    to [pending]; anything else to [cancel]. *)
Definition local_status (status : value) : Transition * string :=
  if py_eq status (VStr "confirmed") then (ToDone, "done")
  else if py_in_strs status ["new"; "payment-sent"; "pending"]
       then (ToPending, "pending")
  else (ToCancel, "cancel").

(** The world with one more note on each of the given sales orders. *)
Definition noted (sales : list nat) (note : Note) (w : World) : World :=
  {| self := self w;
     chatter := chatter w ++ map (fun sale => (sale, note)) sales;
     transitions := transitions w |}.

(** The world with the local status brought to [target] by [t], unless it
    is there already. *)
Definition settled (t : Transition) (target : string) (w : World) : World :=
  if String.eqb (state (self w)) target then w
  else {| self := set_state target (self w); chatter := chatter w;
          transitions := transitions w ++ [t] |}.

Definition with_self (t : Transaction) (w : World) : World :=
  {| self := t; chatter := chatter w; transitions := transitions w |}.

(** How many times [t] occurs among the transitions. *)
Definition count_transition (t : Transition) (l : list Transition) : nat :=
  List.length
    (filter (fun t' =>
               match t, t' with
               | ToDone, ToDone | ToPending, ToPending | ToCancel, ToCancel => true
               | _, _ => false
               end) l).

Section Ledger.

Context {JSON : json.codec}.

(** The ledger [_adapay_webhook_transaction_feedback] works on: what the
    stored text decodes to, and an empty mapping when it does not decode. *)
Definition ledger_of (text : string) : exn + value :=
  match json.loads text with
  | inl JSONDecodeError => inr (VDict [])
  | r => r
  end.

End Ledger.

(** The world after a merge: the ledger text replaced and a note on every
    linked sales order. *)
Definition merged (text : string) (data : value) (w : World) : World :=
  noted (sale_order_ids (self w)) (TransactionUpdate data)
    (with_self (set_adapay_transaction_history text (self w)) w).

Section Steps.

Context {JSON : json.codec} {ADAPAY : Connector}.

(** The per-hash updates of a list merged one after the other, each into
    the world the one before left, each returning. *)
Inductive merged_in_turn : list value -> World -> World -> Prop :=
| merged_none w : merged_in_turn [] w w
| merged_next transaction rest b w w1 w2 :
    _adapay_webhook_transaction_feedback transaction w = (Returned b, w1) ->
    merged_in_turn rest w1 w2 ->
    merged_in_turn (transaction :: rest) w w2.

End Steps.

(** A method body that leaves a view of the world as it is, whether it
    returns or raises. *)
Definition keeps {V A : Type} (view : World -> V) (c : M A) : Prop :=
  forall w, view (snd (c w)) = view w.

(** The fields of the transaction that none of the four methods writes. *)
Definition frame (w : World) :=
  (reference (self w), create_date (self w), sale_order_ids (self w),
   acquirer_id (self w),
   (adapay_uuid (self w), adapay_amount (self w),
    adapay_expiration_minutes (self w), adapay_expiration_date (self w),
    adapay_update_time (self w), adapay_address (self w))).

Definition is_payment_update (n : nat * Note) : bool :=
  match snd n with
  | PaymentUpdate _ => true
  | TransactionUpdate _ => false
  end.

(** The notes of status reconciliation among those posted. *)
Definition payment_notes (w : World) : list (nat * Note) :=
  filter is_payment_update (chatter w).

(** What status reconciliation works on: the local status, the mirrored
    fields, the transitions and its own notes. *)
Definition reconciled (w : World) :=
  (state (self w),
   (adapay_total_amount_sent (self w), adapay_total_amount_left (self w),
    adapay_last_updated (self w), adapay_status (self w),
    adapay_substatus (self w)),
   transitions w, payment_notes w).

(** [self.create_date + timedelta(minutes=self.adapay_expiration_minutes)] *)
Definition expiration (t : Transaction) : datetime.datetime :=
  create_date t + datetime.minutes (adapay_expiration_minutes t).

(** The timer of [_get_processing_info] on a transaction: the seconds it
    exposes and the transaction it leaves. *)
Definition timer (now : datetime.datetime) (t : Transaction) : Z * Transaction :=
  if py_eq (adapay_status t) (VStr "new") then
    if expiration t <? now then (0, set_adapay_status (VStr "expired") t)
    else (datetime.seconds (expiration t - now), t)
  else (0, t).

Section Rendering.

Context {JSON : json.codec} {HOST : Host}.

(** What [_get_processing_info] answers for an AdaPay transaction once the
    status has been brought up to date: [before] is the transaction the
    method was called on, [t] the one the timer left. *)
Definition rendered (before t : Transaction) (exp_time : Z) : exn + dict :=
  match json.loads (adapay_transaction_history t) with
  | inl e => inl e
  | inr history =>
      match py_values history with
      | inl e => inl e
      | inr records =>
          match lookup title (adapay_status t) with
          | inl e => inl e
          | inr heading =>
              let values :=
                page_values (generate_b64_qr_image (adapay_address before))
                  t records heading in
              let info :=
                [ ("message_to_display", VStr (render_payment_page values));
                  ("adapay_expiration_seconds", VInt exp_time) ] in
              inr (dict_update (super_get_processing_info before)
                     (if py_ne (adapay_status t) (VStr "confirmed")
                      then dict_set "return_url" (VStr "") info
                      else info))
          end
      end
  end.

End Rendering.

(** The seconds an answer of [_get_processing_info] exposes, if it is an
    answer and exposes any. *)
Definition answer_seconds (r : outcome dict * World) : option value :=
  match fst r with
  | Returned res => dict_get "adapay_expiration_seconds" res
  | Raised _ => None
  end.

Definition returns {A : Type} (r : outcome A * World) : bool :=
  match fst r with
  | Returned _ => true
  | Raised _ => false
  end.

(** ** Sample data

    A transaction of an AdaPay acquirer created at time zero with the
    default window of fifteen minutes, one linked sales order, and a host
    that answers with fixed texts: the inputs the examples below run on. *)
Module Sample.

Definition host : Host :=
  {| generate_b64_qr_image := fun _ => "QR";
     super_get_processing_info := fun _ => [("return_url", VStr "/payment/process")];
     render_payment_page := fun _ => "<page>" |}.

Definition polling : Acquirer :=
  {| provider := "adapay"; adapay_use_webhook := false |}.

Definition webhook : Acquirer :=
  {| provider := "adapay"; adapay_use_webhook := true |}.

Definition transaction (acquirer : Acquirer) (local : string)
  (status : string) (minutes : Z) (history : string) : Transaction :=
  {| reference := "S00001"; state := local; create_date := 0;
     sale_order_ids := [1%nat]; acquirer_id := acquirer;
     adapay_uuid := VStr "uuid-1"; adapay_amount := VFloat (Float 5 0);
     adapay_total_amount_sent := VFloat (Float 0 0);
     adapay_total_amount_left := VFloat (Float 5 0);
     adapay_expiration_minutes := minutes;
     adapay_expiration_date := VStr "";
     adapay_update_time := VStr "T0";
     adapay_last_updated := VStr "T0";
     adapay_status := VStr status; adapay_substatus := VStr "";
     adapay_address := VStr "addr1";
     adapay_transaction_history := history |}.

Definition world (t : Transaction) : World :=
  {| self := t; chatter := []; transitions := [] |}.

(** The inbound per-hash update of the spec's example. *)
Definition update_h1 : value :=
  VDict [("hash", VStr "h1"); ("amount", VInt 5000000); ("updateTime", VStr "T1")].

(** The record the example stores for it. *)
Definition record_h1 : value :=
  VDict [("hash", VStr "h1"); ("amount", VFloat (Float 5 0)); ("updateTime", VStr "T1")].

Definition update_h2 : value :=
  VDict [("hash", VStr "h2"); ("amount", VInt 1500000); ("updateTime", VStr "T2")].

(** A payment as the gateway reports it. *)
Definition payment (status updateTime : string) (transactions : list value)
  : value :=
  VDict [("status", VStr status); ("confirmedAmount", VInt 0);
         ("pendingAmount", VInt 5000000); ("updateTime", VStr updateTime);
         ("subStatus", VStr ""); ("transactions", VList transactions)].

Definition minute : Z := 60 * datetime.microseconds_per_second.

End Sample.

(** ** The table of transactions

    [_adapay_form_get_tx_from_data], [_handle_adapay_webhook] and
    [_adapay_update_payment_schedule] do not work on one transaction: they
    search the table of [payment.transaction] and call the methods above
    on the records they find. *)

(** [d.get(k)] and [d.get(k, default)]: only a dict has [get]. *)
Definition py_get (c : value) (k : string) (default : value) : exn + value :=
  match c with
  | VDict d =>
      match dict_get k d with
      | Some v => inr v
      | None => inr default
      end
  | _ => inl AttributeError
  end.

(** The table: its records, a record's id being its position, with the
    notes and the transitions of the whole database. *)
Record Table : Type := {
  records : list Transaction;
  posted : list (nat * Note);
  performed : list Transition
}.

(** What the lookup complains of: [; no order found] and
    [; multiple order found]. *)
Inductive Complaint : Type :=
| NoOrderFound
| MultipleOrderFound.

(** What travels out of a method on the table: an exception of the
    methods above, or the [ValidationError] of the lookup, with the
    reference its message is formatted from. *)
Inductive failure : Type :=
| Python (e : exn)
| ValidationError (reference : value) (complaint : Complaint).

Definition is_ValidationError (f : failure) : bool :=
  match f with
  | ValidationError _ _ => true
  | Python _ => false
  end.

Inductive result (A : Type) : Type :=
| Done (a : A)
| Failed (f : failure).
Arguments Done {A} a.
Arguments Failed {A} f.

(** Method bodies on the table, with the same reading as [M]. *)
Module table.

Definition T (A : Type) : Type := Table -> result A * Table.

Definition ret {A : Type} (a : A) : T A := fun db => (Done a, db).

Definition raise {A : Type} (f : failure) : T A := fun db => (Failed f, db).

Definition bind {A B : Type} (c : T A) (k : A -> T B) : T B :=
  fun db =>
    match c db with
    | (Done a, db') => k a db'
    | (Failed f, db') => (Failed f, db')
    end.

Definition eval {A : Type} (r : exn + A) : T A :=
  match r with
  | inr a => ret a
  | inl e => raise (Python e)
  end.

(** [try: body  except <caught>: handler] *)
Definition try_except {A : Type} (body : T A) (caught : failure -> bool)
  (handler : T A) : T A :=
  fun db =>
    match body db with
    | (Failed f, db') => if caught f then handler db' else (Failed f, db')
    | r => r
    end.

Fixpoint for_each {A B : Type} (l : list A) (body : A -> T B) : T unit :=
  match l with
  | [] => ret tt
  | x :: rest => bind (body x) (fun _ => for_each rest body)
  end.

End table.

Declare Scope table_scope.
Delimit Scope table_scope with table.
Notation "x <- c ;; k" := (table.bind c (fun x => k))
  (at level 61, c at next level, right associativity) : table_scope.
Notation "c ;; k" := (table.bind c (fun _ => k))
  (at level 61, right associativity) : table_scope.

(** [l[i] = x], for an [i] in range. *)
Fixpoint set_nth {A : Type} (i : nat) (x : A) (l : list A) : list A :=
  match l, i with
  | [], _ => []
  | _ :: rest, O => x :: rest
  | y :: rest, S i' => y :: set_nth i' x rest
  end.

(** [record.method(...)] for the record with id [i]: the method runs on
    that record, with the notes and transitions of the database, and what
    it leaves is the record's new content.  An id that is not in the table
    comes from no search; the embedding stops there. *)
Definition on_record {A : Type} (i : nat) (method : M A) : table.T A :=
  fun db =>
    match nth_error (records db) i with
    | Some t =>
        match method {| self := t; chatter := posted db;
                        transitions := performed db |} with
        | (outcome, w) =>
            (match outcome with
             | Returned a => Done a
             | Raised e => Failed (Python e)
             end,
             {| records := set_nth i (self w) (records db);
                posted := chatter w; performed := transitions w |})
        end
    | None => (Failed (Python OutsideModel), db)
    end.

(** [record.field] for the record with id [i]. *)
Definition read {A : Type} (i : nat) (field : Transaction -> A) : table.T A :=
  fun db =>
    match nth_error (records db) i with
    | Some t => (Done (field t), db)
    | None => (Failed (Python OutsideModel), db)
    end.

(** *** The ORM

    [search] belongs to the host platform.  What a domain
    [[(field, '=', value)]] selects is decided by the database; the
    methods are written against the comparison and the theorems hold for
    any. *)
Class ORM : Type := {
  field_equals : value -> value -> bool
}.

(** The columns the module searches on.  A search on any other field is
    outside the embedding. *)
Definition column (field : string) : option (Transaction -> value) :=
  if String.eqb field "reference" then Some (fun t => VStr (reference t))
  else if String.eqb field "adapay_uuid" then Some adapay_uuid
  else None.

(** The ids, from [i] on, of the records that satisfy [holds]. *)
Fixpoint ids_from (i : nat) (holds : Transaction -> bool)
  (rows : list Transaction) : list nat :=
  match rows with
  | [] => []
  | t :: rest =>
      if holds t then i :: ids_from (S i) holds rest
      else ids_from (S i) holds rest
  end.

Section TableMethods.

Context {JSON : json.codec} {ADAPAY : Connector} {DB : ORM}.

(** [self.search([(field, '=', sought)])]: the recordset, as the ids of
    its records.  (The methods look at how many records it has and, when
    it has one, at that record; its order plays no part.) *)
Definition search (field : string) (sought : value) : table.T (list nat) :=
  match column field with
  | Some col =>
      fun db =>
        (Done (ids_from 0 (fun t => field_equals (col t) sought) (records db)), db)
  | None => table.raise (Python OutsideModel)
  end.

(** Lines 114-126.  The recordset returned has one record; it is returned
    as that record's id. *)
Definition _adapay_form_get_tx_from_data (data : value) (field : string)
  : table.T nat :=
  (reference <- table.eval (py_get data "reference" VNone) ;;
   tx <- search field reference ;;
   match tx with
   | [] => table.raise (ValidationError reference NoOrderFound)
   | [odoo_tx] => table.ret odoo_tx
   | _ :: _ :: _ => table.raise (ValidationError reference MultipleOrderFound)
   end)%table.

(** [try: odoo_tx = ...  except ValidationError: return False], then the
    call on the record found: [None] stands for the early return. *)
Definition found_or_refused (lookup : table.T nat) : table.T (option nat) :=
  table.try_except (odoo_tx <- lookup ;; table.ret (Some odoo_tx))%table
    is_ValidationError (table.ret None).

(** Lines 200-224.  The two log lines read their keys with [data[...]]
    before the lookups read them with [data.get(...)]. *)
Definition _handle_adapay_webhook (data : value) : table.T bool :=
  (event_type <- table.eval (py_get data "event" VNone) ;;
   data <- table.eval (py_get data "data" (VDict [])) ;;
   if py_eq event_type (VStr "paymentRequestUpdate") then
     table.eval (subscript data "orderId") ;;
     tx_reference <- table.eval (py_get data "orderId" VNone) ;;
     let data_tx := VDict [("reference", tx_reference)] in
     found <- found_or_refused
                (_adapay_form_get_tx_from_data data_tx "reference") ;;
     match found with
     | None => table.ret false
     | Some odoo_tx =>
         on_record odoo_tx (_adapay_webhook_feedback data) ;;
         table.ret true
     end
   else if py_eq event_type (VStr "paymentRequestTransactionsUpdate") then
     table.eval (subscript data "paymentRequestUuid") ;;
     table.eval (subscript data "hash") ;;
     tx_reference <- table.eval (py_get data "paymentRequestUuid" VNone) ;;
     let data_tx := VDict [("reference", tx_reference)] in
     found <- found_or_refused
                (_adapay_form_get_tx_from_data data_tx "adapay_uuid") ;;
     match found with
     | None => table.ret false
     | Some odoo_tx =>
         on_record odoo_tx (_adapay_webhook_transaction_feedback data) ;;
         table.ret true
     end
   else table.ret true)%table.

(** Lines 266-276.  [adapay_acquirer] is the acquirer
    [self.env.ref("ada-payment-module.payment_acquirer_adapay")] gives,
    [gateway] what [adapay_conn.get_payment()] answers (the connector
    itself included).  A recordset of
    several records has no [state]: reading it raises [ValueError]. *)
Definition _adapay_update_payment_schedule (adapay_acquirer : Acquirer)
  (gateway : exn + value) : table.T unit :=
  (if negb (adapay_use_webhook adapay_acquirer) then
     payments_data <- table.eval gateway ;;
     payments <- table.eval (subscript payments_data "data") ;;
     items <- table.eval (py_iter payments) ;;
     table.for_each items
       (fun payment =>
          uuid <- table.eval (subscript payment "uuid") ;;
          transaction <- search "adapay_uuid" uuid ;;
          match transaction with
          | [] => table.ret tt
          | [odoo_tx] =>
              st <- read odoo_tx state ;;
              if negb (String.eqb st "done")
              then on_record odoo_tx (_process_payment_data payment)
              else table.ret tt
          | _ :: _ :: _ => table.raise (Python ValueError)
          end)
   else table.ret tt)%table.

End TableMethods.

(** Lines 128-135.  [currency_name] is [self.currency_id.name], the one
    thing the method reads of the transaction.  The comparison of the
    amount is commented out in the source. *)
Definition _adapay_form_get_invalid_parameters (currency_name : value)
  (data : value) : exn + list (string * value * value) :=
  match py_get data "currency" VNone with
  | inl e => inl e
  | inr currency =>
      if py_ne currency currency_name
      then inr [("currency", currency, currency_name)]
      else inr []
  end.

(** For the sample runs: a database that compares as Python's [==] does,
    and a table of the given records with nothing posted or performed
    yet. *)
Module SampleTable.

Definition orm : ORM := {| field_equals := py_eq |}.

Definition holding (rows : list Transaction) : Table :=
  {| records := rows; posted := []; performed := [] |}.

(** A second transaction, of another order and another payment. *)
Definition other : Transaction :=
  {| reference := "S00002"; state := "done"; create_date := 0;
     sale_order_ids := [2%nat]; acquirer_id := Sample.polling;
     adapay_uuid := VStr "uuid-2"; adapay_amount := VFloat (Float 7 0);
     adapay_total_amount_sent := VFloat (Float 7 0);
     adapay_total_amount_left := VFloat (Float 0 0);
     adapay_expiration_minutes := 15;
     adapay_expiration_date := VStr "";
     adapay_update_time := VStr "T0";
     adapay_last_updated := VStr "T0";
     adapay_status := VStr "confirmed"; adapay_substatus := VStr "";
     adapay_address := VStr "addr2";
     adapay_transaction_history := "{}" |}.

End SampleTable.

(** ** Running a method body *)

Lemma bind_returned {A B : Type} (c : M A) (k : A -> M B) w a w' :
  c w = (Returned a, w') -> bind c k w = k a w'.
Proof. intros H. unfold bind. rewrite H. reflexivity. Qed.

Lemma bind_raised {A B : Type} (c : M A) (k : A -> M B) w e w' :
  c w = (Raised e, w') -> bind c k w = (Raised e, w').
Proof. intros H. unfold bind. rewrite H. reflexivity. Qed.

Lemma for_each_notes (sales : list nat) (note : Note) :
  forall w,
    for_each sales (fun sale => message_post sale note) w
    = (Returned tt, noted sales note w).
Proof.
  induction sales as [| sale rest IH]; intros w.
  - unfold noted. simpl. rewrite app_nil_r. destruct w; reflexivity.
  - simpl. unfold bind. simpl. rewrite IH. unfold noted. simpl.
    rewrite <- app_assoc. reflexivity.
Qed.

Lemma py_eq_str (v : value) (s : string) :
  py_eq v (VStr s) = true <-> v = VStr s.
Proof.
  split.
  - destruct v as [| b | n | x | t | l | d]; simpl; try discriminate.
    intros H. apply String.eqb_eq in H. now subst.
  - intros ->. simpl. apply String.eqb_refl.
Qed.

Lemma py_in_strs_In (v : value) (l : list string) :
  py_in_strs v l = true <-> exists s, In s l /\ v = VStr s.
Proof.
  unfold py_in_strs. rewrite existsb_exists. split.
  - intros (s & Hin & Heq). exists s. split; [assumption |]. now apply py_eq_str.
  - intros (s & Hin & ->). exists s. split; [assumption |]. now apply py_eq_str.
Qed.

(** *** Views a method body leaves alone *)

Lemma keeps_eval {V A : Type} (view : World -> V) (r : exn + A) :
  keeps view (eval r).
Proof. destruct r; intros w; reflexivity. Qed.

Lemma keeps_bind {V A B : Type} (view : World -> V) (c : M A) (k : A -> M B) :
  keeps view c -> (forall a, keeps view (k a)) -> keeps view (bind c k).
Proof.
  intros Hc Hk w. unfold bind. specialize (Hc w).
  destruct (c w) as [[a | e] w1]; simpl in *.
  - rewrite <- Hc. apply Hk.
  - exact Hc.
Qed.

Lemma keeps_try {V A : Type} (view : World -> V) (body handler : M A) caught :
  keeps view body -> keeps view handler ->
  keeps view (try_except body caught handler).
Proof.
  intros Hb Hh w. unfold try_except. specialize (Hb w).
  destruct (body w) as [[a | e] w1]; simpl in *.
  - exact Hb.
  - destruct (caught e); simpl.
    + rewrite <- Hb. apply Hh.
    + exact Hb.
Qed.

Lemma keeps_for_each {V A B : Type} (view : World -> V) (l : list A)
  (body : A -> M B) :
  (forall x, keeps view (body x)) -> keeps view (for_each l body).
Proof.
  intros H. induction l as [| x rest IH]; simpl.
  - intros w. reflexivity.
  - apply keeps_bind; [apply H | intros _; exact IH].
Qed.

(** A note of the merge is none of status reconciliation's. *)
Lemma keeps_transaction_note sale data :
  keeps reconciled (message_post sale (TransactionUpdate data)).
Proof.
  intros w. unfold reconciled, payment_notes. simpl.
  rewrite filter_app. simpl. now rewrite app_nil_r.
Qed.

Ltac keep :=
  repeat first
    [ match goal with
      | |- keeps _ (bind _ _) => apply keeps_bind; [| intros ?]
      end
    | apply keeps_eval
    | apply keeps_try
    | apply keeps_for_each; intros ?
    | apply keeps_transaction_note
    | solve [intros ?; reflexivity]
    | match goal with
      | |- keeps _ (if ?b then _ else _) => destruct b
      | |- keeps _ (match ?x with _ => _ end) => destruct x
      end ].

(** *** Amounts and durations *)

Lemma strip_zeros_value fuel :
  forall m e m' e',
    strip_zeros fuel m e = Float m' e' ->
    e <= e' /\ m = m' * 10 ^ (e' - e).
Proof.
  induction fuel as [| fuel IH]; intros m e m' e' H; simpl in H.
  - injection H as <- <-. rewrite Z.sub_diag. simpl. lia.
  - destruct (m mod 10 =? 0) eqn:E.
    + apply Z.eqb_eq in E. destruct (IH _ _ _ _ H) as (Hle & Hm).
      split; [lia |].
      replace (e' - e) with (Z.succ (e' - (e + 1))) by lia.
      rewrite Z.pow_succ_r by lia.
      rewrite (Z.div_mod m 10) by lia. rewrite E, Hm. ring.
    + injection H as <- <-. rewrite Z.sub_diag. simpl. lia.
Qed.

Lemma float_norm_value m e m' e' :
  float_norm m e = Float m' e' ->
  (m = 0 /\ m' = 0) \/ (e <= e' /\ m = m' * 10 ^ (e' - e)).
Proof.
  unfold float_norm. destruct (m =? 0) eqn:E.
  - apply Z.eqb_eq in E. intros H. injection H as <- <-. now left.
  - intros H. right. now apply strip_zeros_value in H.
Qed.

(** A million times the amount in ADA is the amount in lovelace. *)
Lemma divide_by_million_exact n m e :
  divide_by_million (VInt n) = inr (VFloat (Float m e)) ->
  (n = 0 /\ m = 0) \/ (-6 <= e /\ n = m * 10 ^ (e + 6)).
Proof.
  simpl. intros H. injection H as H.
  destruct (float_norm_value _ _ _ _ H) as [Hz | (Hle & Hm)]; [now left | right].
  split; [exact Hle |]. now replace (e + 6) with (e - -6) by lia.
Qed.

Lemma seconds_within_a_day d :
  0 <= d < datetime.microseconds_per_day ->
  datetime.seconds d = datetime.whole_seconds d.
Proof.
  intros H. unfold datetime.seconds, datetime.whole_seconds.
  now rewrite Z.mod_small.
Qed.

(** The whole seconds of a duration are those of its days and its
    [.seconds] together. *)
Lemma whole_seconds_days_seconds d :
  datetime.whole_seconds d = 86400 * datetime.days d + datetime.seconds d.
Proof.
  unfold datetime.whole_seconds, datetime.days, datetime.seconds,
    datetime.microseconds_per_day.
  set (us := datetime.microseconds_per_second).
  assert (Hus : us = 1000000) by reflexivity.
  rewrite (Z.div_mod d (86400 * us)) at 1 by lia.
  replace (86400 * us * (d / (86400 * us)))
    with (86400 * (d / (86400 * us)) * us) by ring.
  rewrite Z.div_add_l by lia. reflexivity.
Qed.

(** *** Status reconciliation *)

Section Feedback.

Context {ADAPAY : Connector}.

(** What [_adapay_webhook_feedback] does with a well-formed payload: it
    mirrors the five fields, posts a note on every linked sales order and
    settles the local status. *)
Lemma feedback_run data status sent owed updateTime subStatus w :
  status_payload data = Some (status, sent, owed, updateTime, subStatus) ->
  _adapay_webhook_feedback data w
  = (Returned true,
     settled (fst (local_status status)) (snd (local_status status))
       (noted (sale_order_ids (self w)) (PaymentUpdate data)
          (with_self (write_feedback sent owed updateTime status subStatus (self w)) w))).
Proof.
  intros H. destruct data as [| | | | | | d]; try discriminate. simpl in H.
  destruct (dict_get "status" d) as [st |] eqn:Hst; [| discriminate].
  destruct (dict_get "confirmedAmount" d) as [c |] eqn:Hc; [| discriminate].
  destruct (dict_get "pendingAmount" d) as [p |] eqn:Hp; [| discriminate].
  destruct (dict_get "updateTime" d) as [u |] eqn:Hu; [| discriminate].
  destruct (dict_get "subStatus" d) as [sb |] eqn:Hsb; [| discriminate].
  destruct (lovelace_to_ada c) as [? | sent'] eqn:Hsent; [discriminate |].
  destruct (lovelace_to_ada p) as [? | owed'] eqn:Howed; [discriminate |].
  injection H as -> -> -> -> ->.
  unfold _adapay_webhook_feedback, subscript.
  rewrite Hst, Hc, Hp, Hu, Hsb. cbn [eval].
  unfold bind at 1. cbn [ret].
  unfold bind at 1. cbn [ret]. rewrite Hsent. cbn [eval].
  unfold bind at 1. cbn [ret].
  unfold bind at 1. cbn [ret]. rewrite Howed. cbn [eval].
  unfold bind at 1. cbn [ret].
  unfold bind at 1. cbn [ret].
  unfold bind at 1. cbn [ret].
  unfold bind at 1. cbn [update].
  unfold bind at 1. cbn [get self].
  unfold bind at 1. rewrite for_each_notes.
  unfold local_status, settled, noted, with_self.
  destruct (py_eq status (VStr "confirmed")).
  - unfold bind, get, _set_transaction_done, transition, ret. cbn.
    destruct (String.eqb (state (self w)) "done"); reflexivity.
  - destruct (py_in_strs status ["new"; "payment-sent"; "pending"]).
    + unfold bind, get, _set_transaction_pending, transition, ret. cbn.
      destruct (String.eqb (state (self w)) "pending"); reflexivity.
    + unfold bind, get, _set_transaction_cancel, transition, ret. cbn.
      destruct (String.eqb (state (self w)) "cancel"); reflexivity.
Qed.

Lemma status_payload_update_time d status sent owed updateTime subStatus :
  status_payload (VDict d) = Some (status, sent, owed, updateTime, subStatus) ->
  dict_get "updateTime" d = Some updateTime.
Proof.
  simpl.
  destruct (dict_get "status" d) as [st |]; [| discriminate].
  destruct (dict_get "confirmedAmount" d) as [c |]; [| discriminate].
  destruct (dict_get "pendingAmount" d) as [p |]; [| discriminate].
  destruct (dict_get "updateTime" d) as [u |]; [| discriminate].
  destruct (dict_get "subStatus" d) as [sb |]; [| discriminate].
  destruct (lovelace_to_ada c); [discriminate |].
  destruct (lovelace_to_ada p); [discriminate |].
  intros H. now injection H as _ _ _ <- _.
Qed.

Lemma settled_state t target w : state (self (settled t target w)) = target.
Proof.
  unfold settled. destruct (String.eqb (state (self w)) target) eqn:E.
  - now apply String.eqb_eq.
  - reflexivity.
Qed.

Lemma settled_transitions t target w :
  transitions (settled t target w)
  = (transitions w ++ (if String.eqb (state (self w)) target then [] else [t]))%list.
Proof.
  unfold settled. destruct (String.eqb (state (self w)) target).
  - now rewrite app_nil_r.
  - reflexivity.
Qed.

Lemma local_status_confirmed : local_status (VStr "confirmed") = (ToDone, "done").
Proof. reflexivity. Qed.

Lemma local_status_in_progress s :
  In s ["new"; "payment-sent"; "pending"] ->
  local_status (VStr s) = (ToPending, "pending").
Proof.
  intros [<- | [<- | [<- | []]]]; reflexivity.
Qed.

Lemma local_status_other status :
  status <> VStr "confirmed" ->
  (forall s, In s ["new"; "payment-sent"; "pending"] -> status <> VStr s) ->
  local_status status = (ToCancel, "cancel").
Proof.
  intros Hc Hp. unfold local_status.
  destruct (py_eq status (VStr "confirmed")) eqn:E.
  - apply py_eq_str in E. contradiction.
  - destruct (py_in_strs status ["new"; "payment-sent"; "pending"]) eqn:E'.
    + apply py_in_strs_In in E'. destruct E' as (s & Hin & ->).
      exfalso. now apply (Hp s).
    + reflexivity.
Qed.

(** C1.  A status payload whose status is [new], [payment-sent] or
    [pending] leaves the local status at [pending]; the transition to
    [pending] is performed when the local status was not [pending]
    before, and only then. *)
Theorem feedback_in_progress_sets_pending
  data s sent owed updateTime subStatus w :
  status_payload data = Some (VStr s, sent, owed, updateTime, subStatus) ->
  In s ["new"; "payment-sent"; "pending"] ->
  exists w',
    _adapay_webhook_feedback data w = (Returned true, w') /\
    state (self w') = "pending" /\
    transitions w'
    = (transitions w
       ++ (if String.eqb (state (self w)) "pending" then [] else [ToPending]))%list.
Proof.
  intros Hdata Hin. eexists. split; [| split].
  - apply (feedback_run _ _ _ _ _ _ _ Hdata).
  - rewrite (local_status_in_progress s Hin). apply settled_state.
  - rewrite (local_status_in_progress s Hin). cbn [fst snd].
    rewrite settled_transitions. reflexivity.
Qed.

(** C2.  A payload whose status is [confirmed] takes the local status to
    [done], with one transition to [done] unless it was [done] already;
    the same payload delivered again leaves it at [done] and performs no
    transition. *)
Theorem feedback_confirmed_done_once
  data sent owed updateTime subStatus w :
  status_payload data
  = Some (VStr "confirmed", sent, owed, updateTime, subStatus) ->
  exists w1 w2,
    _adapay_webhook_feedback data w = (Returned true, w1) /\
    state (self w1) = "done" /\
    transitions w1
    = (transitions w
       ++ (if String.eqb (state (self w)) "done" then [] else [ToDone]))%list /\
    _adapay_webhook_feedback data w1 = (Returned true, w2) /\
    state (self w2) = "done" /\
    transitions w2 = transitions w1 /\
    count_transition ToDone (transitions w2)
    = (count_transition ToDone (transitions w)
       + (if String.eqb (state (self w)) "done" then 0 else 1))%nat.
Proof.
  intros Hdata.
  pose proof (feedback_run _ _ _ _ _ _ w Hdata) as H1.
  rewrite local_status_confirmed in H1. cbn [fst snd] in H1.
  remember (settled ToDone "done" _) as w1 eqn:Ew1 in H1.
  assert (Hdone : state (self w1) = "done") by (subst w1; apply settled_state).
  pose proof (feedback_run _ _ _ _ _ _ w1 Hdata) as H2.
  rewrite local_status_confirmed in H2. cbn [fst snd] in H2.
  assert (Hfirst : transitions w1
                   = (transitions w
                      ++ (if String.eqb (state (self w)) "done" then [] else [ToDone]))%list)
    by (subst w1; rewrite settled_transitions; reflexivity).
  assert (Hsecond : transitions
                      (settled ToDone "done"
                         (noted (sale_order_ids (self w1)) (PaymentUpdate data)
                            (with_self
                               (write_feedback sent owed updateTime
                                  (VStr "confirmed") subStatus (self w1)) w1)))
                    = transitions w1).
  { rewrite settled_transitions. cbn [noted with_self self write_feedback state].
    rewrite Hdone. cbn. apply app_nil_r. }
  exists w1. eexists. split; [| split; [| split; [| split; [| split; [| split]]]]].
  - exact H1.
  - exact Hdone.
  - exact Hfirst.
  - exact H2.
  - apply settled_state.
  - exact Hsecond.
  - rewrite Hsecond, Hfirst. unfold count_transition.
    rewrite filter_app, length_app.
    destruct (String.eqb (state (self w)) "done"); reflexivity.
Qed.

(** C3.  A payload whose status is neither [confirmed] nor one of [new],
    [payment-sent] and [pending] ([expired] for one) leaves the local
    status at [cancel]; the transition to [cancel] is performed when the
    local status was not [cancel] before, and only then. *)
Theorem feedback_other_status_cancels
  data status sent owed updateTime subStatus w :
  status_payload data = Some (status, sent, owed, updateTime, subStatus) ->
  status <> VStr "confirmed" ->
  (forall s, In s ["new"; "payment-sent"; "pending"] -> status <> VStr s) ->
  exists w',
    _adapay_webhook_feedback data w = (Returned true, w') /\
    state (self w') = "cancel" /\
    transitions w'
    = (transitions w
       ++ (if String.eqb (state (self w)) "cancel" then [] else [ToCancel]))%list.
Proof.
  intros Hdata Hc Hp. eexists. split; [| split].
  - apply (feedback_run _ _ _ _ _ _ _ Hdata).
  - rewrite (local_status_other status Hc Hp). apply settled_state.
  - rewrite (local_status_other status Hc Hp). cbn [fst snd].
    rewrite settled_transitions. reflexivity.
Qed.

End Feedback.

(** C1 on a payment the gateway reports as [payment-sent], for a
    transaction still in [draft]: one transition to [pending]. *)
Lemma feedback_in_progress_sets_pending_witness :
  exists w',
    @_adapay_webhook_feedback spec_connector
      (Sample.payment "payment-sent" "T1" [])
      (Sample.world (Sample.transaction Sample.polling "draft" "new" 15 "{}"))
    = (Returned true, w') /\
    state (self w') = "pending" /\
    transitions w' = [ToPending].
Proof.
  exact (@feedback_in_progress_sets_pending spec_connector
           (Sample.payment "payment-sent" "T1" []) "payment-sent"
           (VFloat (Float 0 0)) (VFloat (Float 5 0)) (VStr "T1") (VStr "")
           (Sample.world (Sample.transaction Sample.polling "draft" "new" 15 "{}"))
           eq_refl (or_intror (or_introl eq_refl))).
Defined.

(** C2 on a confirmed payment, for a transaction in [pending]: the first
    delivery performs the transition, the second none. *)
Lemma feedback_confirmed_done_once_witness :
  exists w1 w2,
    @_adapay_webhook_feedback spec_connector
      (Sample.payment "confirmed" "T1" [])
      (Sample.world (Sample.transaction Sample.polling "pending" "pending" 15 "{}"))
    = (Returned true, w1) /\
    state (self w1) = "done" /\
    transitions w1 = [ToDone] /\
    @_adapay_webhook_feedback spec_connector
      (Sample.payment "confirmed" "T1" []) w1
    = (Returned true, w2) /\
    state (self w2) = "done" /\
    transitions w2 = transitions w1 /\
    count_transition ToDone (transitions w2) = 1%nat.
Proof.
  exact (@feedback_confirmed_done_once spec_connector
           (Sample.payment "confirmed" "T1" [])
           (VFloat (Float 0 0)) (VFloat (Float 5 0)) (VStr "T1") (VStr "")
           (Sample.world (Sample.transaction Sample.polling "pending" "pending" 15 "{}"))
           eq_refl).
Defined.

(** C3 on a payment the gateway reports as [expired], for a transaction
    in [pending]: one transition to [cancel]. *)
Lemma feedback_other_status_cancels_witness :
  exists w',
    @_adapay_webhook_feedback spec_connector
      (Sample.payment "expired" "T1" [])
      (Sample.world (Sample.transaction Sample.polling "pending" "new" 15 "{}"))
    = (Returned true, w') /\
    state (self w') = "cancel" /\
    transitions w' = [ToCancel].
Proof.
  refine (@feedback_other_status_cancels spec_connector
            (Sample.payment "expired" "T1" []) (VStr "expired")
            (VFloat (Float 0 0)) (VFloat (Float 5 0)) (VStr "T1") (VStr "")
            (Sample.world (Sample.transaction Sample.polling "pending" "new" 15 "{}"))
            eq_refl _ _).
  - discriminate.
  - intros s [<- | [<- | [<- | []]]]; discriminate.
Defined.

(** *** Transaction-history merge *)

Section Merge.

Context {JSON : json.codec} {ADAPAY : Connector}.

Lemma load_ledger text w :
  try_except (eval (json.loads text))
    (fun e => match e with JSONDecodeError => true | _ => false end)
    (ret (VDict [])) w
  = match ledger_of text with
    | inr v => (Returned v, w)
    | inl e => (Raised e, w)
    end.
Proof.
  unfold try_except, eval, ledger_of.
  destruct (json.loads text) as [[] | v]; reflexivity.
Qed.

Lemma transaction_update_inv data d h ada :
  transaction_update data = Some (d, h, ada) ->
  data = VDict d /\
  dict_get "hash" d = Some (VStr h) /\
  exists amount, dict_get "amount" d = Some amount /\ lovelace_to_ada amount = inr ada.
Proof.
  destruct data as [| | | | | | d0]; try discriminate. simpl.
  destruct (dict_get "hash" d0) as [[| | | | h0 | |] |] eqn:Hh; try discriminate.
  destruct (dict_get "amount" d0) as [amount |] eqn:Ha; [| discriminate].
  destruct (lovelace_to_ada amount) as [? | ada0] eqn:Hc; [discriminate |].
  intros H. injection H as -> -> ->. eauto.
Qed.

(** The writing half of the method, once it has decided to write. *)
Lemma merge_write d h ada ledger text' (k : unit -> M bool) w :
  (exists amount, dict_get "amount" d = Some amount /\ lovelace_to_ada amount = inr ada) ->
  json.dumps (VDict (dict_set h (VDict (dict_set "amount" ada d)) ledger)) = inr text' ->
  bind
    (amount <- eval (subscript (VDict d) "amount") ;;
     ada <- eval (lovelace_to_ada amount) ;;
     data' <- eval (store (VDict d) "amount" ada) ;;
     transaction_history' <- eval (store (VDict ledger) h data') ;;
     text' <- eval (json.dumps transaction_history') ;;
     update (set_adapay_transaction_history text') ;;
     sales <- get sale_order_ids ;;
     for_each sales (fun sale => message_post sale (TransactionUpdate data')))
    k w
  = k tt (merged text' (VDict (dict_set "amount" ada d)) w).
Proof.
  intros (amount & Ha & Hc) Hd.
  unfold subscript, store. rewrite Ha. cbn [eval].
  unfold bind at 2. cbn [ret]. rewrite Hc. cbn [eval].
  unfold bind at 2. cbn [ret].
  unfold bind at 2. cbn [ret].
  unfold bind at 2. cbn [ret]. rewrite Hd. cbn [eval].
  unfold bind at 2. cbn [ret].
  unfold bind at 2. cbn [update].
  unfold bind at 2. cbn [get self].
  unfold bind. rewrite for_each_notes. reflexivity.
Qed.

(** A hash the ledger does not hold is stored. *)
Lemma merge_fresh data d h ada ledger text' w :
  transaction_update data = Some (d, h, ada) ->
  ledger_of (adapay_transaction_history (self w)) = inr (VDict ledger) ->
  dict_get h ledger = None ->
  json.dumps (VDict (dict_set h (VDict (dict_set "amount" ada d)) ledger)) = inr text' ->
  _adapay_webhook_transaction_feedback data w
  = (Returned true, merged text' (VDict (dict_set "amount" ada d)) w).
Proof.
  intros Hdata Hledger Habsent Hdumps.
  apply transaction_update_inv in Hdata. destruct Hdata as (-> & Hh & Hamount).
  unfold _adapay_webhook_transaction_feedback.
  unfold bind at 1. cbn [get].
  unfold bind at 1. rewrite load_ledger, Hledger.
  unfold bind at 1. unfold subscript at 1. rewrite Hh. cbn [eval ret].
  unfold bind at 1. unfold contains, dict_mem. rewrite Habsent. cbn [eval ret negb].
  unfold bind at 1. cbn [ret].
  rewrite (merge_write d h ada ledger text' _ w Hamount Hdumps). reflexivity.
Qed.

(** A hash the ledger holds with another update time is stored again. *)
Lemma merge_changed data d h ada ledger record updateTime stored text' w :
  transaction_update data = Some (d, h, ada) ->
  ledger_of (adapay_transaction_history (self w)) = inr (VDict ledger) ->
  dict_get h ledger = Some record ->
  dict_get "updateTime" d = Some updateTime ->
  subscript record "updateTime" = inr stored ->
  py_ne updateTime stored = true ->
  json.dumps (VDict (dict_set h (VDict (dict_set "amount" ada d)) ledger)) = inr text' ->
  _adapay_webhook_transaction_feedback data w
  = (Returned true, merged text' (VDict (dict_set "amount" ada d)) w).
Proof.
  intros Hdata Hledger Hrecord Hu Hstored Hne Hdumps.
  apply transaction_update_inv in Hdata. destruct Hdata as (-> & Hh & Hamount).
  unfold _adapay_webhook_transaction_feedback.
  unfold bind at 1. cbn [get].
  unfold bind at 1. rewrite load_ledger, Hledger.
  unfold bind at 1. unfold subscript at 1. rewrite Hh. cbn [eval ret].
  unfold bind at 1. unfold contains, dict_mem. rewrite Hrecord. cbn [eval ret negb].
  unfold bind at 1. unfold bind at 1. unfold subscript at 1. rewrite Hu. cbn [eval ret].
  unfold bind at 1. unfold subscript at 1. rewrite Hrecord. cbn [eval ret].
  unfold bind at 1. rewrite Hstored. cbn [eval ret]. rewrite Hne.
  rewrite (merge_write d h ada ledger text' _ w Hamount Hdumps). reflexivity.
Qed.

(** A hash the ledger holds with the same update time is left alone. *)
Lemma merge_replayed data d h ledger record updateTime stored w :
  data = VDict d ->
  dict_get "hash" d = Some (VStr h) ->
  ledger_of (adapay_transaction_history (self w)) = inr (VDict ledger) ->
  dict_get h ledger = Some record ->
  dict_get "updateTime" d = Some updateTime ->
  subscript record "updateTime" = inr stored ->
  py_eq updateTime stored = true ->
  _adapay_webhook_transaction_feedback data w = (Returned true, w).
Proof.
  intros -> Hh Hledger Hrecord Hu Hstored Heq.
  unfold _adapay_webhook_transaction_feedback.
  unfold bind at 1. cbn [get].
  unfold bind at 1. rewrite load_ledger, Hledger.
  unfold bind at 1. unfold subscript at 1. rewrite Hh. cbn [eval ret].
  unfold bind at 1. unfold contains, dict_mem. rewrite Hrecord. cbn [eval ret negb].
  unfold bind at 1. unfold bind at 1. unfold subscript at 1. rewrite Hu. cbn [eval ret].
  unfold bind at 1. unfold subscript at 1. rewrite Hrecord. cbn [eval ret].
  unfold bind at 1. rewrite Hstored. cbn [eval ret].
  unfold py_ne. rewrite Heq. cbn [negb].
  unfold bind. reflexivity.
Qed.

Lemma merged_same_history text text0 data w :
  merged text data (with_self (set_adapay_transaction_history text0 (self w)) w)
  = merged text data w.
Proof. reflexivity. Qed.

(** C5.  When the stored ledger decodes to a mapping that holds the hash
    of the inbound update with an update time equal to the inbound one, the
    method returns and leaves the world as it found it: the stored text is
    the same and no note is posted. *)
Theorem merge_replay_changes_nothing d h ledger record updateTime stored w :
  json.loads (adapay_transaction_history (self w)) = inr (VDict ledger) ->
  dict_get "hash" d = Some (VStr h) ->
  dict_get "updateTime" d = Some updateTime ->
  dict_get h ledger = Some record ->
  subscript record "updateTime" = inr stored ->
  py_eq updateTime stored = true ->
  _adapay_webhook_transaction_feedback (VDict d) w = (Returned true, w).
Proof.
  intros Hloads Hh Hu Hrecord Hstored Heq.
  apply (merge_replayed (VDict d) d h ledger record updateTime stored w);
    try assumption; try reflexivity.
  unfold ledger_of. rewrite Hloads. reflexivity.
Qed.

(** C6.  When the stored text does not decode, the method works on an
    empty ledger and completes the merge: it returns, stores the ledger
    that holds the inbound update alone and posts its notes, exactly as it
    does from a stored text that decodes to the empty mapping. *)
Theorem merge_into_malformed_ledger data d h ada text' w :
  json.loads (adapay_transaction_history (self w)) = inl JSONDecodeError ->
  transaction_update data = Some (d, h, ada) ->
  json.dumps (VDict [(h, VDict (dict_set "amount" ada d))]) = inr text' ->
  ledger_of (adapay_transaction_history (self w)) = inr (VDict []) /\
  _adapay_webhook_transaction_feedback data w
  = (Returned true, merged text' (VDict (dict_set "amount" ada d)) w) /\
  forall empty,
    json.loads empty = inr (VDict []) ->
    _adapay_webhook_transaction_feedback data
      (with_self (set_adapay_transaction_history empty (self w)) w)
    = _adapay_webhook_transaction_feedback data w.
Proof.
  intros Hloads Hdata Hdumps.
  assert (Hledger : ledger_of (adapay_transaction_history (self w)) = inr (VDict []))
    by (unfold ledger_of; rewrite Hloads; reflexivity).
  assert (Hrun : _adapay_webhook_transaction_feedback data w
                 = (Returned true, merged text' (VDict (dict_set "amount" ada d)) w))
    by (apply (merge_fresh data d h ada [] text' w Hdata Hledger eq_refl Hdumps)).
  split; [exact Hledger | split; [exact Hrun |]].
  intros empty Hempty. rewrite Hrun.
  rewrite (merge_fresh data d h ada [] text' _ Hdata); try assumption; try reflexivity.
  cbn [self with_self set_adapay_transaction_history adapay_transaction_history].
  unfold ledger_of. rewrite Hempty. reflexivity.
Qed.

End Merge.

(** C5 on the spec's example replayed: the ledger already holds [h1] at
    [T1], and the update comes in again. *)
Lemma merge_replay_changes_nothing_witness :
  @_adapay_webhook_transaction_feedback PyJson.python spec_connector
    Sample.update_h1
    (Sample.world
       (Sample.transaction Sample.polling "pending" "new" 15
          (PyJson.encode (VDict [("h1", Sample.record_h1)]))))
  = (Returned true,
     Sample.world
       (Sample.transaction Sample.polling "pending" "new" 15
          (PyJson.encode (VDict [("h1", Sample.record_h1)])))).
Proof.
  refine (@merge_replay_changes_nothing PyJson.python spec_connector
            [("hash", VStr "h1"); ("amount", VInt 5000000); ("updateTime", VStr "T1")]
            "h1" [("h1", Sample.record_h1)] Sample.record_h1 (VStr "T1") (VStr "T1")
            _ _ _ _ _ _ _); reflexivity.
Defined.

(** C6 on a stored text that is not JSON. *)
Lemma merge_into_malformed_ledger_witness :
  @ledger_of PyJson.python "{oops" = inr (VDict []) /\
  @_adapay_webhook_transaction_feedback PyJson.python spec_connector
    Sample.update_h1
    (Sample.world (Sample.transaction Sample.polling "pending" "new" 15 "{oops"))
  = (Returned true,
     merged (PyJson.encode (VDict [("h1", Sample.record_h1)])) Sample.record_h1
       (Sample.world (Sample.transaction Sample.polling "pending" "new" 15 "{oops"))) /\
  forall empty,
    PyJson.decode empty = inr (VDict []) ->
    @_adapay_webhook_transaction_feedback PyJson.python spec_connector
      Sample.update_h1
      (with_self
         (set_adapay_transaction_history empty
            (Sample.transaction Sample.polling "pending" "new" 15 "{oops"))
         (Sample.world (Sample.transaction Sample.polling "pending" "new" 15 "{oops")))
    = @_adapay_webhook_transaction_feedback PyJson.python spec_connector
        Sample.update_h1
        (Sample.world (Sample.transaction Sample.polling "pending" "new" 15 "{oops")).
Proof.
  refine (@merge_into_malformed_ledger PyJson.python spec_connector
            Sample.update_h1
            [("hash", VStr "h1"); ("amount", VInt 5000000); ("updateTime", VStr "T1")]
            "h1" (VFloat (Float 5 0))
            (PyJson.encode (VDict [("h1", Sample.record_h1)]))
            (Sample.world (Sample.transaction Sample.polling "pending" "new" 15 "{oops"))
            _ _ _); reflexivity.
Defined.

(** *** The spec's example of a merge *)

Section Example.

Context {JSON : json.codec}.

(** C7.  With the ledger stored as [{}] and the inbound update
    [{hash: h1, amount: 5000000, updateTime: T1}], the method stores the
    serialisation of [{h1: {hash: h1, amount: 5.0, updateTime: T1}}]: the
    record under its hash, its amount divided by a million. *)
Theorem merge_example text' w :
  adapay_transaction_history (self w) = "{}" ->
  json.loads "{}" = inr (VDict []) ->
  json.dumps (VDict [("h1", Sample.record_h1)]) = inr text' ->
  @_adapay_webhook_transaction_feedback JSON spec_connector Sample.update_h1 w
  = (Returned true, merged text' Sample.record_h1 w) /\
  adapay_transaction_history (self (merged text' Sample.record_h1 w)) = text'.
Proof.
  intros Htext Hloads Hdumps. split; [| reflexivity].
  apply (@merge_fresh JSON spec_connector Sample.update_h1
           [("hash", VStr "h1"); ("amount", VInt 5000000); ("updateTime", VStr "T1")]
           "h1" (VFloat (Float 5 0)) [] text' w).
  - reflexivity.
  - unfold ledger_of. rewrite Htext, Hloads. reflexivity.
  - reflexivity.
  - exact Hdumps.
Qed.

End Example.

(** C7 with the reference reader and writer: the text stored is the one
    that decodes to the expected ledger. *)
Lemma merge_example_witness :
  @_adapay_webhook_transaction_feedback PyJson.python spec_connector
    Sample.update_h1
    (Sample.world (Sample.transaction Sample.polling "pending" "new" 15 "{}"))
  = (Returned true,
     merged (PyJson.encode (VDict [("h1", Sample.record_h1)])) Sample.record_h1
       (Sample.world (Sample.transaction Sample.polling "pending" "new" 15 "{}"))) /\
  adapay_transaction_history
    (self (merged (PyJson.encode (VDict [("h1", Sample.record_h1)])) Sample.record_h1
             (Sample.world (Sample.transaction Sample.polling "pending" "new" 15 "{}"))))
  = PyJson.encode (VDict [("h1", Sample.record_h1)]).
Proof.
  exact (@merge_example PyJson.python
           (PyJson.encode (VDict [("h1", Sample.record_h1)]))
           (Sample.world (Sample.transaction Sample.polling "pending" "new" 15 "{}"))
           eq_refl eq_refl eq_refl).
Defined.

(** The text of that ledger, character for character:
    [{"h1": {"hash": "h1", "amount": 5.0, "updateTime": "T1"}}]. *)
Example ledger_text_h1 :
  let q := PyJson.dquote in
  PyJson.encode (VDict [("h1", Sample.record_h1)])
  = "{" ++ q ++ "h1" ++ q ++ ": {" ++ q ++ "hash" ++ q ++ ": " ++ q ++ "h1" ++ q
        ++ ", " ++ q ++ "amount" ++ q ++ ": 5.0, " ++ q ++ "updateTime" ++ q
        ++ ": " ++ q ++ "T1" ++ q ++ "}}"
  /\ PyJson.decode (PyJson.encode (VDict [("h1", Sample.record_h1)]))
     = inr (VDict [("h1", Sample.record_h1)]).
Proof. split; reflexivity. Qed.

(** *** Status refresh *)

Section Polling.

Context {JSON : json.codec} {ADAPAY : Connector}.

(** The loop over the transactions returns exactly when every merge does,
    one after the other. *)
Lemma for_each_merged transactions :
  forall w w',
    for_each transactions _adapay_webhook_transaction_feedback w = (Returned tt, w')
    <-> merged_in_turn transactions w w'.
Proof.
  induction transactions as [| transaction rest IH]; intros w w'.
  - simpl. unfold ret. split.
    + intros H. injection H as <-. constructor.
    + intros H. inversion H. reflexivity.
  - simpl. unfold bind. split.
    + intros H.
      destruct (_adapay_webhook_transaction_feedback transaction w)
        as [[b | e] w1] eqn:E; [| discriminate].
      apply (merged_next transaction rest b w w1 w' E). now apply IH.
    + intros H. inversion H as [| ? ? b ? w1 ? E Hrest]; subst.
      rewrite E. now apply IH.
Qed.

Lemma merge_keeps_reconciled data :
  keeps reconciled (_adapay_webhook_transaction_feedback data).
Proof. unfold _adapay_webhook_transaction_feedback. keep. Qed.

(** The merges leave status reconciliation's part of the world alone. *)
Lemma merged_in_turn_reconciled transactions w w' :
  merged_in_turn transactions w w' -> reconciled w' = reconciled w.
Proof.
  induction 1 as [| transaction rest b w w1 w2 Hstep _ IH]; [reflexivity |].
  rewrite IH. pose proof (merge_keeps_reconciled transaction w) as K.
  rewrite Hstep in K. exact K.
Qed.

Lemma settled_mirror t target w :
  adapay_status (self (settled t target w)) = adapay_status (self w) /\
  adapay_last_updated (self (settled t target w)) = adapay_last_updated (self w) /\
  chatter (settled t target w) = chatter w.
Proof.
  unfold settled. destruct (String.eqb (state (self w)) target); auto.
Qed.

Lemma payment_notes_noted sales data w :
  payment_notes (noted sales (PaymentUpdate data) w)
  = (payment_notes w ++ map (fun sale => (sale, PaymentUpdate data)) sales)%list.
Proof.
  unfold payment_notes, noted. simpl. rewrite filter_app. f_equal.
  induction sales as [| sale rest IH]; simpl; [reflexivity | now rewrite IH].
Qed.

Lemma process_payment_data_unfold d updateTime transactions w w' :
  dict_get "updateTime" d = Some updateTime ->
  dict_get "transactions" d = Some (VList transactions) ->
  _process_payment_data (VDict d) w = (Returned tt, w')
  <-> exists w1,
        (if py_ne updateTime (adapay_last_updated (self w))
         then exists b, _adapay_webhook_feedback (VDict d) w = (Returned b, w1)
         else w1 = w) /\
        merged_in_turn transactions w1 w'.
Proof.
  intros Hu Ht. unfold _process_payment_data.
  unfold bind at 1. unfold subscript at 1. rewrite Hu. cbn [eval ret].
  unfold bind at 1. cbn [get].
  unfold bind at 1.
  destruct (py_ne updateTime (adapay_last_updated (self w))).
  - unfold bind at 1.
    destruct (_adapay_webhook_feedback (VDict d) w) as [[b | e] w1] eqn:E.
    + cbn [ret]. unfold bind at 1. unfold subscript. rewrite Ht. cbn [eval ret].
      unfold bind. cbn [py_iter eval ret]. rewrite for_each_merged. split.
      * intros H. exists w1. split; [exists b; reflexivity | exact H].
      * intros (w2 & (b' & Hb) & H). injection Hb as <- <-. exact H.
    + split; [discriminate |]. intros (w2 & (b' & Hb) & _). discriminate.
  - cbn [ret]. unfold bind at 1. unfold subscript. rewrite Ht. cbn [eval ret].
    unfold bind. cbn [py_iter eval ret]. rewrite for_each_merged. split.
    + intros H. exists w. split; [reflexivity | exact H].
    + intros (w2 & -> & H). exact H.
Qed.

(** C4.  On a polled payment with an update time and a list of
    transactions, the method returns exactly when the following ran and
    returned: the status reconciliation if the payload's update time
    differs from the stored [adapay_last_updated], and nothing in its place
    if it does not; then, in both cases, the merge of every entry of the
    list, in order.  When it returns, accordingly: if the update times
    differ, the status and the update time stored are the payload's and
    every linked sales order has one more note of the reconciliation; if
    they do not, the local status, the mirrored fields, the transitions
    and the notes of reconciliation are as they were. *)
Theorem process_payment_data_steps d updateTime transactions w w' :
  dict_get "updateTime" d = Some updateTime ->
  dict_get "transactions" d = Some (VList transactions) ->
  (_process_payment_data (VDict d) w = (Returned tt, w')
   <-> exists w1,
         (if py_ne updateTime (adapay_last_updated (self w))
          then exists b, _adapay_webhook_feedback (VDict d) w = (Returned b, w1)
          else w1 = w) /\
         merged_in_turn transactions w1 w') /\
  (_process_payment_data (VDict d) w = (Returned tt, w') ->
   if py_ne updateTime (adapay_last_updated (self w))
   then forall status sent owed u subStatus,
       status_payload (VDict d) = Some (status, sent, owed, u, subStatus) ->
       adapay_status (self w') = status /\
       adapay_last_updated (self w') = updateTime /\
       payment_notes w'
       = (payment_notes w
          ++ map (fun sale => (sale, PaymentUpdate (VDict d)))
               (sale_order_ids (self w)))%list
   else reconciled w' = reconciled w).
Proof.
  intros Hu Ht.
  pose proof (process_payment_data_unfold d updateTime transactions w w' Hu Ht)
    as Hsteps.
  split; [exact Hsteps |].
  intros Hrun. apply Hsteps in Hrun. destruct Hrun as (w1 & Hfirst & Hrest).
  apply merged_in_turn_reconciled in Hrest.
  destruct (py_ne updateTime (adapay_last_updated (self w))).
  - intros status sent owed u subStatus Hpayload.
    destruct Hfirst as (b & Hfeedback).
    rewrite (feedback_run _ _ _ _ _ _ w Hpayload) in Hfeedback.
    injection Hfeedback as _ Hw1.
    assert (u = updateTime) as ->.
    { pose proof (status_payload_update_time _ _ _ _ _ _ Hpayload) as Hu'.
      rewrite Hu in Hu'. now injection Hu' as <-. }
    unfold reconciled in Hrest.
    injection Hrest as _ _ _ Hlast Hstatus _ _ Hnotes.
    rewrite Hstatus, Hlast, Hnotes. subst w1.
    destruct (settled_mirror (fst (local_status status)) (snd (local_status status))
                (noted (sale_order_ids (self w)) (PaymentUpdate (VDict d))
                   (with_self
                      (write_feedback sent owed updateTime status subStatus (self w)) w)))
      as (Hs & Hl & Hc).
    rewrite Hs, Hl. unfold payment_notes at 1. rewrite Hc.
    fold (payment_notes
            (noted (sale_order_ids (self w)) (PaymentUpdate (VDict d))
               (with_self
                  (write_feedback sent owed updateTime status subStatus (self w)) w))).
    rewrite payment_notes_noted. auto.
  - subst w1. exact Hrest.
Qed.

End Polling.

(** C4 on a payment whose update time is new and that lists two
    transactions: the status is reconciled, then both are merged, and the
    status stored at the end is the payment's. *)
Lemma process_payment_data_steps_witness :
  (exists w1,
     (exists b,
        @_adapay_webhook_feedback spec_connector
          (Sample.payment "payment-sent" "T1" [Sample.update_h1; Sample.update_h2])
          (Sample.world (Sample.transaction Sample.polling "pending" "new" 15 "{}"))
        = (Returned b, w1)) /\
     @merged_in_turn PyJson.python spec_connector
       [Sample.update_h1; Sample.update_h2] w1
       (snd (@_process_payment_data PyJson.python spec_connector
               (Sample.payment "payment-sent" "T1" [Sample.update_h1; Sample.update_h2])
               (Sample.world (Sample.transaction Sample.polling "pending" "new" 15 "{}"))))) /\
  adapay_status
    (self (snd (@_process_payment_data PyJson.python spec_connector
                  (Sample.payment "payment-sent" "T1" [Sample.update_h1; Sample.update_h2])
                  (Sample.world (Sample.transaction Sample.polling "pending" "new" 15 "{}")))))
  = VStr "payment-sent".
Proof.
  pose (steps :=
          @process_payment_data_steps PyJson.python spec_connector
            [("status", VStr "payment-sent"); ("confirmedAmount", VInt 0);
             ("pendingAmount", VInt 5000000); ("updateTime", VStr "T1");
             ("subStatus", VStr "");
             ("transactions", VList [Sample.update_h1; Sample.update_h2])]
            (VStr "T1") [Sample.update_h1; Sample.update_h2]
            (Sample.world (Sample.transaction Sample.polling "pending" "new" 15 "{}"))
            (snd (@_process_payment_data PyJson.python spec_connector
                    (Sample.payment "payment-sent" "T1"
                       [Sample.update_h1; Sample.update_h2])
                    (Sample.world
                       (Sample.transaction Sample.polling "pending" "new" 15 "{}"))))
            eq_refl eq_refl).
  split.
  - exact (proj1 (proj1 steps) eq_refl).
  - exact (proj1 (proj2 steps eq_refl (VStr "payment-sent")
                    (VFloat (Float 0 0)) (VFloat (Float 5 0)) (VStr "T1") (VStr "")
                    eq_refl)).
Defined.

Section Frame.

Context {JSON : json.codec} {ADAPAY : Connector}.

Lemma feedback_keeps data : keeps frame (_adapay_webhook_feedback data).
Proof.
  unfold _adapay_webhook_feedback, _set_transaction_done,
    _set_transaction_pending, _set_transaction_cancel.
  keep.
Qed.

Lemma merge_keeps data : keeps frame (_adapay_webhook_transaction_feedback data).
Proof. unfold _adapay_webhook_transaction_feedback. keep. Qed.

Lemma process_keeps payment_data :
  keeps frame (_process_payment_data payment_data).
Proof.
  unfold _process_payment_data. keep; [apply feedback_keeps | apply merge_keeps].
Qed.

Lemma update_status_keeps gateway : keeps frame (update_status gateway).
Proof. unfold update_status. keep. apply process_keeps. Qed.

(** The refresh leaves the expiration time, the acquirer and the
    address where they were. *)
Lemma update_status_frame gateway w r w1 :
  update_status gateway w = (r, w1) ->
  expiration (self w1) = expiration (self w) /\
  acquirer_id (self w1) = acquirer_id (self w) /\
  adapay_address (self w1) = adapay_address (self w).
Proof.
  intros H. pose proof (update_status_keeps gateway w) as K.
  rewrite H in K. simpl in K. unfold frame in K. unfold expiration.
  injection K as _ Hc _ Ha _ _ Hm _ _ Hd.
  rewrite Hc, Hm, Ha, Hd. auto.
Qed.

(** [try: ... except Exception: ...] lets no Python exception through. *)
Lemma try_except_Exception (body : M unit) w :
  exists w1,
    try_except body is_Exception (ret tt) w = (Returned tt, w1) \/
    try_except body is_Exception (ret tt) w = (Raised OutsideModel, w1).
Proof.
  unfold try_except. destruct (body w) as [o w1]. destruct o as [[] | e].
  - exists w1. left. reflexivity.
  - exists w1. destruct e; cbn [is_Exception]; auto.
Qed.

Lemma update_status_unfold gateway w :
  update_status gateway w
  = if adapay_use_webhook (acquirer_id (self w)) then (Returned tt, w)
    else try_except
           (payment_data <- eval gateway ;; _process_payment_data payment_data)
           is_Exception (ret tt) w.
Proof.
  unfold update_status. unfold bind at 1. cbn [get].
  destruct (adapay_use_webhook (acquirer_id (self w))); reflexivity.
Qed.

(** In webhook mode, and when the gateway call fails, the refresh changes
    nothing. *)
Lemma update_status_webhook gateway w :
  adapay_use_webhook (acquirer_id (self w)) = true ->
  update_status gateway w = (Returned tt, w).
Proof. intros H. rewrite update_status_unfold, H. reflexivity. Qed.

Lemma update_status_failed e w :
  is_Exception e = true ->
  update_status (inl e) w = (Returned tt, w).
Proof.
  intros H. rewrite update_status_unfold.
  destruct (adapay_use_webhook (acquirer_id (self w))); [reflexivity |].
  unfold try_except, bind, eval, raise. rewrite H. reflexivity.
Qed.

(** Polling lets no Python exception through. *)
Lemma update_status_outcome gateway w :
  exists w1,
    update_status gateway w = (Returned tt, w1) \/
    update_status gateway w = (Raised OutsideModel, w1).
Proof.
  rewrite update_status_unfold.
  destruct (adapay_use_webhook (acquirer_id (self w))).
  - exists w. left. reflexivity.
  - apply try_except_Exception.
Qed.

End Frame.

(** *** Processing information *)

Lemma with_self_same w : with_self (self w) w = w.
Proof. destruct w; reflexivity. Qed.

Lemma dict_get_set_same k v d : dict_get k (dict_set k v d) = Some v.
Proof.
  induction d as [| [k' v'] rest IH]; simpl.
  - now rewrite String.eqb_refl.
  - destruct (String.eqb k k') eqn:E; simpl; rewrite E; [reflexivity | exact IH].
Qed.

Lemma dict_get_set_other k k' v d :
  String.eqb k k' = false -> dict_get k (dict_set k' v d) = dict_get k d.
Proof.
  intros Hk. induction d as [| [k0 v0] rest IH]; simpl.
  - now rewrite Hk.
  - destruct (String.eqb k' k0) eqn:E; simpl.
    + apply String.eqb_eq in E. subst k0. now rewrite Hk.
    + destruct (String.eqb k k0); [reflexivity | exact IH].
Qed.

Section Info.

Context {JSON : json.codec} {HOST : Host} {ADAPAY : Connector}.

(** For a transaction of an AdaPay acquirer, once the refresh has
    returned: the timer runs on the refreshed transaction, and the answer
    is rendered from what the timer leaves. *)
Lemma get_processing_info_run now gateway w w1 :
  provider (acquirer_id (self w)) = "adapay" ->
  update_status gateway w = (Returned tt, w1) ->
  _get_processing_info now gateway w
  = match rendered (self w) (snd (timer now (self w1))) (fst (timer now (self w1))) with
    | inr res => (Returned res, with_self (snd (timer now (self w1))) w1)
    | inl e => (Raised e, with_self (snd (timer now (self w1))) w1)
    end.
Proof.
  intros Hprovider Hupdate. unfold _get_processing_info.
  unfold bind at 1. cbn [get].
  unfold bind at 1. cbn [get].
  unfold bind at 1. cbn [get].
  rewrite Hprovider. cbn [String.eqb Ascii.eqb Bool.eqb].
  unfold bind at 1. rewrite Hupdate.
  unfold bind at 1. cbn [get].
  unfold timer, rendered, expiration.
  destruct (py_eq (adapay_status (self w1)) (VStr "new")).
  - unfold bind at 1. unfold bind at 1. cbn [get].
    unfold bind at 1. cbn [get].
    destruct (create_date (self w1)
              + datetime.minutes (adapay_expiration_minutes (self w1)) <? now).
    + unfold bind at 1. cbn [update ret fst snd].
      unfold bind at 1. cbn [get self].
      unfold bind at 1. cbn [get self].
      unfold bind at 1. unfold with_self.
      destruct (json.loads _) as [e | history]; cbn [eval raise ret]; [reflexivity |].
      unfold bind at 1.
      destruct (py_values history) as [e | records]; cbn [eval raise ret]; [reflexivity |].
      unfold bind at 1. cbn [get self].
      unfold bind at 1.
      destruct (lookup title _) as [e | heading]; cbn [eval raise ret]; reflexivity.
    + cbn [ret fst snd]. rewrite with_self_same.
      unfold bind at 1. cbn [get].
      unfold bind at 1. cbn [get].
      unfold bind at 1.
      destruct (json.loads _) as [e | history]; cbn [eval raise ret]; [reflexivity |].
      unfold bind at 1.
      destruct (py_values history) as [e | records]; cbn [eval raise ret]; [reflexivity |].
      unfold bind at 1. cbn [get].
      unfold bind at 1.
      destruct (lookup title _) as [e | heading]; cbn [eval raise ret]; reflexivity.
  - unfold bind at 1. cbn [ret fst snd]. rewrite with_self_same.
    unfold bind at 1. cbn [get].
    unfold bind at 1. cbn [get].
    unfold bind at 1.
    destruct (json.loads _) as [e | history]; cbn [eval raise ret]; [reflexivity |].
    unfold bind at 1.
    destruct (py_values history) as [e | records]; cbn [eval raise ret]; [reflexivity |].
    unfold bind at 1. cbn [get].
    unfold bind at 1.
    destruct (lookup title _) as [e | heading]; cbn [eval raise ret]; reflexivity.
Qed.

Lemma timer_expired now t :
  adapay_status t = VStr "new" ->
  expiration t < now ->
  timer now t = (0, set_adapay_status (VStr "expired") t).
Proof.
  intros Hs Hlt. unfold timer. rewrite Hs. cbn [py_eq String.eqb Ascii.eqb Bool.eqb].
  apply Z.ltb_lt in Hlt. now rewrite Hlt.
Qed.

Lemma timer_running now t :
  adapay_status t = VStr "new" ->
  now <= expiration t ->
  timer now t = (datetime.seconds (expiration t - now), t).
Proof.
  intros Hs Hle. unfold timer. rewrite Hs. cbn [py_eq String.eqb Ascii.eqb Bool.eqb].
  apply Z.ltb_ge in Hle. now rewrite Hle.
Qed.

Lemma timer_idle now t :
  adapay_status t <> VStr "new" -> timer now t = (0, t).
Proof.
  intros Hs. unfold timer.
  destruct (py_eq (adapay_status t) (VStr "new")) eqn:E; [| reflexivity].
  apply py_eq_str in E. contradiction.
Qed.

Lemma lookup_title_unknown status :
  hashable status = true ->
  (forall s, In s ["new"; "payment-sent"; "pending"; "confirmed"; "expired"] ->
             status <> VStr s) ->
  lookup title status = inl KeyError.
Proof.
  intros Hh Hno. destruct status as [| b | n | x | s | l | d]; try reflexivity;
    try discriminate.
  unfold lookup, title. cbn [dict_get].
  repeat match goal with
         | |- context [String.eqb s ?k] =>
             let E := fresh "E" in
             destruct (String.eqb s k) eqn:E;
             [ apply String.eqb_eq in E; exfalso; apply (Hno k);
               [ cbn; tauto | now subst ] | ]
         end.
  reflexivity.
Qed.

(** The answer when the ledger decodes to a mapping and the status has a
    title. *)
Lemma rendered_page before t exp_time ledger heading :
  json.loads (adapay_transaction_history t) = inr (VDict ledger) ->
  lookup title (adapay_status t) = inr heading ->
  exists res,
    rendered before t exp_time = inr res /\
    dict_get "adapay_expiration_seconds" res = Some (VInt exp_time) /\
    dict_get "message_to_display" res
    = Some (VStr (render_payment_page
                    (page_values (generate_b64_qr_image (adapay_address before))
                       t (dict_values ledger) heading))).
Proof.
  intros Hloads Hlookup. unfold rendered. rewrite Hloads. cbn [py_values].
  rewrite Hlookup. eexists. split; [reflexivity |].
  unfold dict_update.
  destruct (py_ne (adapay_status t) (VStr "confirmed")); cbn [dict_set String.eqb
    Ascii.eqb Bool.eqb fold_left fst snd].
  - split.
    + rewrite dict_get_set_other by reflexivity. apply dict_get_set_same.
    + rewrite dict_get_set_other by reflexivity.
      rewrite dict_get_set_other by reflexivity. apply dict_get_set_same.
  - split.
    + apply dict_get_set_same.
    + rewrite dict_get_set_other by reflexivity. apply dict_get_set_same.
Qed.

(** C8, as amended.  For a transaction of an AdaPay acquirer whose
    [adapay_status] is [new] once the refresh has run, a call made
    strictly after creation time plus [adapay_expiration_minutes] leaves
    [adapay_status] at [expired]; and when the stored ledger decodes to a
    mapping, the call returns, with no seconds left and a page rendered
    from values that carry the status [expired] and its title. *)
Theorem read_past_window_expires now gateway w w1 :
  provider (acquirer_id (self w)) = "adapay" ->
  update_status gateway w = (Returned tt, w1) ->
  adapay_status (self w1) = VStr "new" ->
  expiration (self w) < now ->
  adapay_status (self (snd (_get_processing_info now gateway w))) = VStr "expired" /\
  forall ledger,
    json.loads (adapay_transaction_history (self w1)) = inr (VDict ledger) ->
    exists res values,
      _get_processing_info now gateway w
      = (Returned res, with_self (set_adapay_status (VStr "expired") (self w1)) w1) /\
      dict_get "adapay_expiration_seconds" res = Some (VInt 0) /\
      dict_get "message_to_display" res = Some (VStr (render_payment_page values)) /\
      dict_get "adapay_status" values = Some (VStr "expired") /\
      dict_get "title" values = dict_get "expired" title.
Proof.
  intros Hprovider Hupdate Hnew Hlate.
  destruct (update_status_frame gateway w _ w1 Hupdate) as (Hexp & _ & _).
  rewrite <- Hexp in Hlate.
  rewrite (get_processing_info_run now gateway w w1 Hprovider Hupdate).
  rewrite (timer_expired now (self w1) Hnew Hlate). cbn [fst snd].
  split.
  - destruct (rendered _ _ _); reflexivity.
  - intros ledger Hloads.
    destruct (rendered_page (self w) (set_adapay_status (VStr "expired") (self w1))
                0 ledger
                (VStr "The payment request is expired. Please back to payment selection.")
                Hloads eq_refl)
      as (res & Hres & Hseconds & Hpage).
    rewrite Hres. exists res. eexists.
    split; [reflexivity |]. split; [exact Hseconds |]. split; [exact Hpage |].
    split; reflexivity.
Qed.

(** What the timer exposes while it runs, whatever the window: the
    [.seconds] of the time left. *)
Lemma seconds_exposed now gateway w w1 ledger :
  provider (acquirer_id (self w)) = "adapay" ->
  update_status gateway w = (Returned tt, w1) ->
  adapay_status (self w1) = VStr "new" ->
  now <= expiration (self w) ->
  json.loads (adapay_transaction_history (self w1)) = inr (VDict ledger) ->
  exists res,
    _get_processing_info now gateway w = (Returned res, w1) /\
    dict_get "adapay_expiration_seconds" res
    = Some (VInt (datetime.seconds (expiration (self w) - now))).
Proof.
  intros Hprovider Hupdate Hnew Hearly Hloads.
  destruct (update_status_frame gateway w _ w1 Hupdate) as (Hexp & _ & _).
  rewrite <- Hexp in Hearly. rewrite <- Hexp.
  rewrite (get_processing_info_run now gateway w w1 Hprovider Hupdate).
  rewrite (timer_running now (self w1) Hnew Hearly). cbn [fst snd].
  rewrite with_self_same.
  destruct (rendered_page (self w) (self w1)
              (datetime.seconds (expiration (self w1) - now)) ledger
              (VStr "To complete your payment, please send ADA to the address below.")
              Hloads)
    as (res & Hres & Hseconds & _).
  { rewrite Hnew. reflexivity. }
  rewrite Hres. exists res. split; [reflexivity | exact Hseconds].
Qed.

(** C9, as amended.  For a transaction of an AdaPay acquirer whose
    [adapay_status] is [new] once the refresh has run, whose expiration
    time has not passed and lies less than a day ahead, and whose stored
    ledger decodes to a mapping, the call returns with
    [adapay_expiration_seconds] equal to the whole seconds left until the
    expiration time. *)
Theorem seconds_left_within_a_day now gateway w w1 ledger :
  provider (acquirer_id (self w)) = "adapay" ->
  update_status gateway w = (Returned tt, w1) ->
  adapay_status (self w1) = VStr "new" ->
  now <= expiration (self w) ->
  expiration (self w) - now < datetime.microseconds_per_day ->
  json.loads (adapay_transaction_history (self w1)) = inr (VDict ledger) ->
  exists res,
    _get_processing_info now gateway w = (Returned res, w1) /\
    dict_get "adapay_expiration_seconds" res
    = Some (VInt (datetime.whole_seconds (expiration (self w) - now))).
Proof.
  intros Hprovider Hupdate Hnew Hearly Hday Hloads.
  destruct (seconds_exposed now gateway w w1 ledger
              Hprovider Hupdate Hnew Hearly Hloads)
    as (res & Hrun & Hseconds).
  exists res. split; [exact Hrun |].
  rewrite Hseconds, seconds_within_a_day by lia. reflexivity.
Qed.

(** C10, as amended.  For a transaction of an AdaPay acquirer whose
    [adapay_status], once the refresh has run, is a hashable value other
    than [new], [payment-sent], [pending], [confirmed] and [expired], and
    whose stored ledger decodes to a mapping, the call raises [KeyError]
    (a [LookupError]) at the title and returns no answer. *)
Theorem unknown_status_raises_key_error now gateway w w1 ledger :
  provider (acquirer_id (self w)) = "adapay" ->
  update_status gateway w = (Returned tt, w1) ->
  hashable (adapay_status (self w1)) = true ->
  (forall s, In s ["new"; "payment-sent"; "pending"; "confirmed"; "expired"] ->
             adapay_status (self w1) <> VStr s) ->
  json.loads (adapay_transaction_history (self w1)) = inr (VDict ledger) ->
  _get_processing_info now gateway w = (Raised KeyError, w1) /\
  is_LookupError KeyError = true.
Proof.
  intros Hprovider Hupdate Hhash Hunknown Hloads. split; [| reflexivity].
  rewrite (get_processing_info_run now gateway w w1 Hprovider Hupdate).
  rewrite timer_idle by (apply Hunknown; cbn; tauto). cbn [fst snd].
  rewrite with_self_same. unfold rendered. rewrite Hloads. cbn [py_values].
  rewrite (lookup_title_unknown _ Hhash Hunknown). reflexivity.
Qed.

End Info.

(** C8 on the spec's example: created at time zero with a window of
    fifteen minutes, status [new], read sixteen minutes later while the
    gateway still reports [new]. *)
Lemma read_past_window_expires_witness :
  adapay_status
    (self (snd (@_get_processing_info PyJson.python Sample.host spec_connector
                  (16 * Sample.minute)
                  (inr (Sample.payment "new" "T0" []))
                  (Sample.world (Sample.transaction Sample.polling "pending" "new" 15 "{}")))))
  = VStr "expired".
Proof.
  exact (proj1
           (@read_past_window_expires PyJson.python Sample.host spec_connector
              (16 * Sample.minute)
              (inr (Sample.payment "new" "T0" []))
              (Sample.world (Sample.transaction Sample.polling "pending" "new" 15 "{}"))
              (Sample.world (Sample.transaction Sample.polling "pending" "new" 15 "{}"))
              eq_refl eq_refl eq_refl eq_refl)).
Defined.

(** C8 as stated fails when the refresh itself moves the status on: the
    stored status is [new] and the window has passed, but the gateway now
    reports [payment-sent], and that, not [expired], is what the read
    leaves. *)
Lemma read_past_window_counterexample :
  adapay_status (Sample.transaction Sample.polling "pending" "new" 15 "{}")
  = VStr "new" /\
  expiration (Sample.transaction Sample.polling "pending" "new" 15 "{}")
  < 16 * Sample.minute /\
  adapay_status
    (self (snd (@_get_processing_info PyJson.python Sample.host spec_connector
                  (16 * Sample.minute)
                  (inr (Sample.payment "payment-sent" "T1" []))
                  (Sample.world (Sample.transaction Sample.polling "pending" "new" 15 "{}")))))
  = VStr "payment-sent".
Proof. repeat split. Qed.

(** C9 one minute and a half second after creation: 839 whole seconds
    are left of the fifteen minutes. *)
Lemma seconds_left_within_a_day_witness :
  exists res,
    @_get_processing_info PyJson.python Sample.host spec_connector
      (Sample.minute + 500000)
      (inr (Sample.payment "new" "T0" []))
      (Sample.world (Sample.transaction Sample.polling "pending" "new" 15 "{}"))
    = (Returned res,
       Sample.world (Sample.transaction Sample.polling "pending" "new" 15 "{}")) /\
    dict_get "adapay_expiration_seconds" res = Some (VInt 839).
Proof.
  refine (@seconds_left_within_a_day PyJson.python Sample.host spec_connector
            (Sample.minute + 500000)
            (inr (Sample.payment "new" "T0" []))
            (Sample.world (Sample.transaction Sample.polling "pending" "new" 15 "{}"))
            (Sample.world (Sample.transaction Sample.polling "pending" "new" 15 "{}"))
            [] eq_refl eq_refl eq_refl _ eq_refl eq_refl).
  discriminate.
Defined.

(** C9 as stated fails when the refresh moves the status on: the stored
    status is [new] and 840 seconds are left, but the gateway reports
    [payment-sent] and the answer exposes no seconds. *)
Lemma seconds_left_counterexample :
  adapay_status (Sample.transaction Sample.polling "pending" "new" 15 "{}")
  = VStr "new" /\
  datetime.whole_seconds
    (expiration (Sample.transaction Sample.polling "pending" "new" 15 "{}")
     - Sample.minute) = 840 /\
  answer_seconds
    (@_get_processing_info PyJson.python Sample.host spec_connector
       Sample.minute
       (inr (Sample.payment "payment-sent" "T1" []))
       (Sample.world (Sample.transaction Sample.polling "pending" "new" 15 "{}")))
  = Some (VInt 0).
Proof. repeat split. Qed.

(** With a window of two days, one minute after creation: 172740 seconds
    are left, and the answer exposes 86340, the seconds of the last,
    incomplete day ([.seconds] leaves the whole days out). *)
Example seconds_leave_out_whole_days :
  datetime.whole_seconds
    (expiration (Sample.transaction Sample.webhook "pending" "new" 2880 "{}")
     - Sample.minute) = 172740 /\
  answer_seconds
    (@_get_processing_info PyJson.python Sample.host spec_connector
       Sample.minute (inl GatewayError)
       (Sample.world (Sample.transaction Sample.webhook "pending" "new" 2880 "{}")))
  = Some (VInt 86340).
Proof. split; reflexivity. Qed.

(** C10 on a transaction the gateway cancelled, in webhook mode. *)
Lemma unknown_status_raises_key_error_witness :
  @_get_processing_info PyJson.python Sample.host spec_connector
    Sample.minute (inl GatewayError)
    (Sample.world (Sample.transaction Sample.webhook "cancel" "cancelled" 15 "{}"))
  = (Raised KeyError,
     Sample.world (Sample.transaction Sample.webhook "cancel" "cancelled" 15 "{}")) /\
  is_LookupError KeyError = true.
Proof.
  refine (@unknown_status_raises_key_error PyJson.python Sample.host spec_connector
            Sample.minute (inl GatewayError)
            (Sample.world (Sample.transaction Sample.webhook "cancel" "cancelled" 15 "{}"))
            (Sample.world (Sample.transaction Sample.webhook "cancel" "cancelled" 15 "{}"))
            [] eq_refl eq_refl eq_refl _ eq_refl).
  intros s [<- | [<- | [<- | [<- | [<- | []]]]]]; discriminate.
Defined.

(** C10 as stated fails when the refresh replaces the status: the stored
    status is [cancelled], the gateway reports [pending], and the read
    returns its answer. *)
Lemma unknown_status_counterexample :
  adapay_status (Sample.transaction Sample.polling "cancel" "cancelled" 15 "{}")
  = VStr "cancelled" /\
  returns
    (@_get_processing_info PyJson.python Sample.host spec_connector
       Sample.minute
       (inr (Sample.payment "pending" "T1" []))
       (Sample.world (Sample.transaction Sample.polling "cancel" "cancelled" 15 "{}")))
  = true.
Proof. split; reflexivity. Qed.

(** ** Further properties of the methods *)

(** *** Status reconciliation: malformed payloads, mirroring, redelivery *)

Section FeedbackMore.

Context {ADAPAY : Connector}.

(** A payload that is not well formed makes the method raise before it
    has written anything: every key is read, and every amount converted,
    ahead of the call to [write]. *)
Lemma feedback_raises data w :
  status_payload data = None ->
  exists e, _adapay_webhook_feedback data w = (Raised e, w).
Proof.
  intros H. unfold _adapay_webhook_feedback.
  destruct data as [| | | | | | d]; try (eexists; reflexivity).
  simpl in H. unfold subscript.
  destruct (dict_get "status" d) as [st |]; [| eexists; reflexivity].
  cbn [eval]. unfold bind at 1. cbn [ret].
  destruct (dict_get "confirmedAmount" d) as [c |]; [| eexists; reflexivity].
  cbn [eval]. unfold bind at 1. cbn [ret].
  destruct (lovelace_to_ada c) as [e | sent]; [eexists; reflexivity |].
  cbn [eval]. unfold bind at 1. cbn [ret].
  destruct (dict_get "pendingAmount" d) as [p |]; [| eexists; reflexivity].
  cbn [eval]. unfold bind at 1. cbn [ret].
  destruct (lovelace_to_ada p) as [e | owed]; [eexists; reflexivity |].
  cbn [eval]. unfold bind at 1. cbn [ret].
  destruct (dict_get "updateTime" d) as [u |]; [| eexists; reflexivity].
  cbn [eval]. unfold bind at 1. cbn [ret].
  destruct (dict_get "subStatus" d) as [sb |]; [| eexists; reflexivity].
  discriminate.
Qed.

(** X1.  [_adapay_webhook_feedback] raises exactly on the payloads that
    are not well formed (not a dict, a key missing, an amount that does
    not convert), and when it raises the world is as it was: no field is
    written, no note posted, no transition performed.  A dict without
    [status] raises [KeyError]. *)
Theorem feedback_all_or_nothing data w :
  ((exists e, _adapay_webhook_feedback data w = (Raised e, w))
   <-> status_payload data = None) /\
  (forall e w',
      _adapay_webhook_feedback data w = (Raised e, w') -> w' = w) /\
  (forall d,
      data = VDict d -> dict_get "status" d = None ->
      _adapay_webhook_feedback data w = (Raised KeyError, w)).
Proof.
  assert (Hraised : forall e w',
             _adapay_webhook_feedback data w = (Raised e, w') ->
             status_payload data = None /\ w' = w).
  { intros e w' H.
    destruct (status_payload data) as [[[[[status sent] owed] u] sub] |] eqn:E.
    - rewrite (feedback_run _ _ _ _ _ _ w E) in H. discriminate.
    - destruct (feedback_raises data w E) as (e0 & H0).
      rewrite H0 in H. injection H as _ <-. auto. }
  split; [split |].
  - intros (e & H). now apply (Hraised e w).
  - apply feedback_raises.
  - split.
    + intros e w' H. now apply (Hraised e w').
    + intros d -> Hs. unfold _adapay_webhook_feedback, subscript.
      rewrite Hs. reflexivity.
Qed.

(** X2.  On a well-formed payload the method stores the status, the
    sub-status and the update time exactly as they came, whatever they
    are, and the two amounts converted; it leaves the ledger text and the
    fields it does not mirror alone; and it posts one note on each linked
    sales order, whether or not anything changed. *)
Theorem feedback_mirrors_payload data status sent owed updateTime subStatus w :
  status_payload data = Some (status, sent, owed, updateTime, subStatus) ->
  exists w',
    _adapay_webhook_feedback data w = (Returned true, w') /\
    adapay_status (self w') = status /\
    adapay_substatus (self w') = subStatus /\
    adapay_last_updated (self w') = updateTime /\
    adapay_total_amount_sent (self w') = sent /\
    adapay_total_amount_left (self w') = owed /\
    adapay_transaction_history (self w') = adapay_transaction_history (self w) /\
    frame w' = frame w /\
    chatter w'
    = (chatter w
       ++ map (fun sale => (sale, PaymentUpdate data)) (sale_order_ids (self w)))%list.
Proof.
  intros H. eexists. split; [apply (feedback_run _ _ _ _ _ _ w H) |].
  unfold settled, noted, with_self, frame.
  destruct (String.eqb _ _); cbn; repeat split; reflexivity.
Qed.

(** X3.  Delivering the same well-formed payload a second time changes no
    field of the transaction and performs no transition; the notes on the
    sales orders are posted again. *)
Theorem feedback_redelivered data status sent owed updateTime subStatus w :
  status_payload data = Some (status, sent, owed, updateTime, subStatus) ->
  exists w1 w2,
    _adapay_webhook_feedback data w = (Returned true, w1) /\
    _adapay_webhook_feedback data w1 = (Returned true, w2) /\
    self w2 = self w1 /\
    transitions w2 = transitions w1 /\
    chatter w2
    = (chatter w1
       ++ map (fun sale => (sale, PaymentUpdate data)) (sale_order_ids (self w)))%list.
Proof.
  intros H.
  pose proof (feedback_run _ _ _ _ _ _ w H) as H1.
  remember (settled _ _ _) as w1 eqn:Ew1 in H1.
  pose proof (feedback_run _ _ _ _ _ _ w1 H) as H2.
  exists w1. eexists. split; [exact H1 |]. split; [exact H2 |].
  assert (Hstate : state (self w1) = snd (local_status status))
    by (subst w1; apply settled_state).
  unfold settled at 1 2 3.
  cbn [noted with_self self write_feedback state]. rewrite Hstate, String.eqb_refl.
  cbn [self chatter transitions].
  split; [| split; [reflexivity |]].
  - subst w1. unfold settled, noted, with_self.
    destruct (String.eqb _ _); reflexivity.
  - f_equal. subst w1. unfold settled, noted, with_self.
    destruct (String.eqb _ _); reflexivity.
Qed.

End FeedbackMore.

(** X2 and X3 on a payment the gateway reports as [payment-sent]. *)
Lemma feedback_mirrors_payload_witness :
  exists w',
    @_adapay_webhook_feedback spec_connector
      (Sample.payment "payment-sent" "T1" [])
      (Sample.world (Sample.transaction Sample.polling "draft" "new" 15 "{}"))
    = (Returned true, w') /\
    adapay_status (self w') = VStr "payment-sent" /\
    adapay_substatus (self w') = VStr "" /\
    adapay_last_updated (self w') = VStr "T1" /\
    adapay_total_amount_sent (self w') = VFloat (Float 0 0) /\
    adapay_total_amount_left (self w') = VFloat (Float 5 0) /\
    adapay_transaction_history (self w') = "{}" /\
    frame w'
    = frame (Sample.world (Sample.transaction Sample.polling "draft" "new" 15 "{}")) /\
    chatter w' = [(1%nat, PaymentUpdate (Sample.payment "payment-sent" "T1" []))].
Proof.
  exact (@feedback_mirrors_payload spec_connector
           (Sample.payment "payment-sent" "T1" []) (VStr "payment-sent")
           (VFloat (Float 0 0)) (VFloat (Float 5 0)) (VStr "T1") (VStr "")
           (Sample.world (Sample.transaction Sample.polling "draft" "new" 15 "{}"))
           eq_refl).
Defined.

Lemma feedback_redelivered_witness :
  exists w1 w2,
    @_adapay_webhook_feedback spec_connector
      (Sample.payment "payment-sent" "T1" [])
      (Sample.world (Sample.transaction Sample.polling "draft" "new" 15 "{}"))
    = (Returned true, w1) /\
    @_adapay_webhook_feedback spec_connector
      (Sample.payment "payment-sent" "T1" []) w1
    = (Returned true, w2) /\
    self w2 = self w1 /\
    transitions w2 = transitions w1 /\
    chatter w2
    = (chatter w1 ++ [(1%nat, PaymentUpdate (Sample.payment "payment-sent" "T1" []))])%list.
Proof.
  exact (@feedback_redelivered spec_connector
           (Sample.payment "payment-sent" "T1" []) (VStr "payment-sent")
           (VFloat (Float 0 0)) (VFloat (Float 5 0)) (VStr "T1") (VStr "")
           (Sample.world (Sample.transaction Sample.polling "draft" "new" 15 "{}"))
           eq_refl).
Defined.

(** *** Merge: failures, what is stored, replays *)

Section MergeMore.
Context {JSON : json.codec} {ADAPAY : Connector}.

(** The writing half either raises before it has written anything, or has
    all it needs to write. *)
Lemma merge_write_outcome data history h (k : unit -> M bool) w :
  (exists e,
      bind
        (amount <- eval (subscript data "amount") ;;
         ada <- eval (lovelace_to_ada amount) ;;
         data' <- eval (store data "amount" ada) ;;
         transaction_history' <- eval (store history h data') ;;
         text' <- eval (json.dumps transaction_history') ;;
         update (set_adapay_transaction_history text') ;;
         sales <- get sale_order_ids ;;
         for_each sales (fun sale => message_post sale (TransactionUpdate data')))
        k w = (Raised e, w)) \/
  (exists d ada ledger text',
      data = VDict d /\ history = VDict ledger /\
      (exists amount,
          dict_get "amount" d = Some amount /\ lovelace_to_ada amount = inr ada) /\
      json.dumps (VDict (dict_set h (VDict (dict_set "amount" ada d)) ledger))
      = inr text').
Proof.
  destruct data as [| | | | | | d]; try (left; eexists; reflexivity).
  destruct (dict_get "amount" d) as [amount |] eqn:Ha.
  2:{ left. exists KeyError. unfold bind, subscript. rewrite Ha. reflexivity. }
  destruct (lovelace_to_ada amount) as [e | ada] eqn:Hc.
  { left. exists e. unfold bind, subscript. rewrite Ha. cbn [eval ret]. rewrite Hc.
    reflexivity. }
  destruct history as [| | | | | | ledger];
    try (left; exists TypeError; unfold bind, subscript; rewrite Ha; cbn [eval ret];
         rewrite Hc; reflexivity).
  destruct (json.dumps (VDict (dict_set h (VDict (dict_set "amount" ada d)) ledger)))
    as [e | text'] eqn:Hd.
  { left. exists e. unfold bind, subscript. rewrite Ha. cbn [eval ret]. rewrite Hc.
    cbn [eval ret store]. rewrite Hd. reflexivity. }
  right. exists d, ada, ledger, text'. eauto 6.
Qed.


(** Every outcome of the merge: the world untouched, or the update stored
    under its hash and noted on every sales order, with [True] returned. *)
Lemma merge_outcome data w :
  snd (_adapay_webhook_transaction_feedback data w) = w \/
  exists d h ada ledger text',
    transaction_update data = Some (d, h, ada) /\
    ledger_of (adapay_transaction_history (self w)) = inr (VDict ledger) /\
    json.dumps (VDict (dict_set h (VDict (dict_set "amount" ada d)) ledger))
    = inr text' /\
    _adapay_webhook_transaction_feedback data w
    = (Returned true, merged text' (VDict (dict_set "amount" ada d)) w).
Proof.
  remember (_adapay_webhook_transaction_feedback data w) as r eqn:Hr.
  unfold _adapay_webhook_transaction_feedback in Hr.
  unfold bind at 1 in Hr. cbn [get] in Hr.
  unfold bind at 1 in Hr. rewrite load_ledger in Hr.
  destruct (ledger_of (adapay_transaction_history (self w))) as [e0 | history] eqn:Hl;
    [left; now subst r |].
  unfold bind at 1 in Hr.
  destruct (subscript data "hash") as [e0 | hash] eqn:Hh; cbn [eval raise ret] in Hr;
    [left; now subst r |].
  destruct hash as [| | | | key | |]; try (left; now subst r).
  assert (Hwrite :
            r = bind
                  (amount <- eval (subscript data "amount") ;;
                   ada <- eval (lovelace_to_ada amount) ;;
                   data' <- eval (store data "amount" ada) ;;
                   transaction_history' <- eval (store history key data') ;;
                   text' <- eval (json.dumps transaction_history') ;;
                   update (set_adapay_transaction_history text') ;;
                   sales <- get sale_order_ids ;;
                   for_each sales
                     (fun sale => message_post sale (TransactionUpdate data')))
                  (fun _ => ret true) w ->
            snd r = w \/
            exists d h ada ledger text',
              transaction_update data = Some (d, h, ada) /\
              @inr exn value history = inr (VDict ledger) /\
              json.dumps (VDict (dict_set h (VDict (dict_set "amount" ada d)) ledger))
              = inr text' /\
              r = (Returned true, merged text' (VDict (dict_set "amount" ada d)) w)).
  { intros Hw.
    destruct (merge_write_outcome data history key (fun _ => ret true) w)
      as [(e & He) | (d & ada & ledger & text' & -> & -> & Hamount & Hdumps)].
    - left. rewrite Hw, He. reflexivity.
    - right. exists d, key, ada, ledger, text'.
      assert (Hhash : dict_get "hash" d = Some (VStr key)).
      { unfold subscript in Hh. destruct (dict_get "hash" d); [| discriminate].
        now injection Hh as ->. }
      split; [| split; [reflexivity | split; [exact Hdumps |]]].
      + destruct Hamount as (amount & Ha & Hc).
        unfold transaction_update. rewrite Hhash, Ha, Hc. reflexivity.
      + rewrite Hw. now rewrite (merge_write d key ada ledger text' _ w Hamount Hdumps). }
  unfold bind at 1 in Hr.
  destruct (contains history key) as [e0 | present] eqn:Hc; cbn [eval raise ret] in Hr;
    [left; now subst r |].
  unfold bind at 1 in Hr.
  destruct present; cbn [negb] in Hr.
  - unfold bind at 1 in Hr. unfold bind at 1 in Hr.
    destruct (subscript data "updateTime") as [e0 | u]; cbn [eval raise ret] in Hr;
      [left; now subst r |].
    unfold bind at 1 in Hr.
    destruct (subscript history key) as [e0 | record]; cbn [eval raise ret] in Hr;
      [left; now subst r |].
    unfold bind at 1 in Hr.
    destruct (subscript record "updateTime") as [e0 | stored];
      cbn [eval raise ret] in Hr; [left; now subst r |].
    destruct (py_ne u stored).
    + apply Hwrite. exact Hr.
    + left. subst r. reflexivity.
  - cbn [ret] in Hr. apply Hwrite. exact Hr.
Qed.



(** X5.  A stored ledger that is valid JSON but not an object (a list, a
    string, a number, [null]) is not treated like an undecodable one: for a
    well-formed update that carries an update time, the method raises
    [TypeError] and changes nothing. *)
Theorem merge_into_non_mapping_ledger data d h ada u ledger w :
  json.loads (adapay_transaction_history (self w)) = inr ledger ->
  (forall entries, ledger <> VDict entries) ->
  transaction_update data = Some (d, h, ada) ->
  dict_get "updateTime" d = Some u ->
  _adapay_webhook_transaction_feedback data w = (Raised TypeError, w).
Proof.
  intros Hloads Hnot Hdata Hu.
  apply transaction_update_inv in Hdata.
  destruct Hdata as (-> & Hh & amount & Ha & Hc).
  assert (Hl : ledger_of (adapay_transaction_history (self w)) = inr ledger)
    by (unfold ledger_of; now rewrite Hloads).
  unfold _adapay_webhook_transaction_feedback.
  unfold bind at 1. cbn [get].
  unfold bind at 1. rewrite load_ledger, Hl.
  unfold bind at 1. unfold subscript at 1. rewrite Hh. cbn [eval ret].
  unfold bind at 1.
  destruct ledger as [| b | n | x | s | l | entries];
    try reflexivity; [| | now destruct (Hnot entries)]; cbn [contains eval ret].
  - unfold bind at 1.
    destruct (is_substring h s); cbn [negb].
    + unfold bind, subscript. rewrite Hu. reflexivity.
    + unfold bind, subscript. rewrite Ha. cbn [eval ret]. rewrite Hc. reflexivity.
  - unfold bind at 1.
    destruct (existsb (py_eq (VStr h)) l); cbn [negb].
    + unfold bind, subscript. rewrite Hu. reflexivity.
    + unfold bind, subscript. rewrite Ha. cbn [eval ret]. rewrite Hc. reflexivity.
Qed.

(** X6.  Redelivery after a merge.  When the update has been merged, and
    the text stored reads back as the ledger that was written, delivering
    the same update again returns [True] and changes nothing: no second
    note, the same text.  (An update time equal to itself rules out nothing
    but a NaN.) *)
Theorem merge_then_redelivery data d h ada u ledger text' w w1 :
  transaction_update data = Some (d, h, ada) ->
  dict_get "updateTime" d = Some u ->
  py_eq u u = true ->
  ledger_of (adapay_transaction_history (self w)) = inr (VDict ledger) ->
  json.dumps (VDict (dict_set h (VDict (dict_set "amount" ada d)) ledger))
  = inr text' ->
  json.loads text'
  = inr (VDict (dict_set h (VDict (dict_set "amount" ada d)) ledger)) ->
  _adapay_webhook_transaction_feedback data w = (Returned true, w1) ->
  _adapay_webhook_transaction_feedback data w1 = (Returned true, w1).
Proof.
  intros Hdata Hu Hrefl Hl Hdumps Hloads Hrun.
  destruct (merge_outcome data w)
    as [Hsame | (d' & h' & ada' & ledger' & text'' & Hdata' & Hl' & Hdumps' & Hrun')].
  - rewrite Hrun in Hsame. cbn [snd] in Hsame. subst w1. exact Hrun.
  - rewrite Hdata in Hdata'. injection Hdata' as <- <- <-.
    rewrite Hl in Hl'. injection Hl' as <-.
    rewrite Hdumps in Hdumps'. injection Hdumps' as <-.
    rewrite Hrun in Hrun'. injection Hrun' as ->.
    apply transaction_update_inv in Hdata. destruct Hdata as (-> & Hh & _).
    apply (merge_replayed (VDict d) d h
             (dict_set h (VDict (dict_set "amount" ada d)) ledger)
             (VDict (dict_set "amount" ada d)) u u); try reflexivity; try assumption.
    + cbn [merged noted with_self self set_adapay_transaction_history
             adapay_transaction_history].
      unfold ledger_of. now rewrite Hloads.
    + apply dict_get_set_same.
    + unfold subscript. rewrite dict_get_set_other by reflexivity. now rewrite Hu.
Qed.

End MergeMore.

(** X5 on a ledger stored as [[]]. *)
Lemma merge_into_non_mapping_ledger_witness :
  @_adapay_webhook_transaction_feedback PyJson.python spec_connector
    Sample.update_h1
    (Sample.world (Sample.transaction Sample.polling "pending" "new" 15 "[]"))
  = (Raised TypeError,
     Sample.world (Sample.transaction Sample.polling "pending" "new" 15 "[]")).
Proof.
  refine (@merge_into_non_mapping_ledger PyJson.python spec_connector
            Sample.update_h1
            [("hash", VStr "h1"); ("amount", VInt 5000000); ("updateTime", VStr "T1")]
            "h1" (VFloat (Float 5 0)) (VStr "T1") (VList [])
            (Sample.world (Sample.transaction Sample.polling "pending" "new" 15 "[]"))
            _ _ _ _); try reflexivity.
  intros entries H. discriminate H.
Defined.

(** X6 on the spec's example: [h1] merged into [{}], then delivered again. *)
Lemma merge_then_redelivery_witness :
  @_adapay_webhook_transaction_feedback PyJson.python spec_connector
    Sample.update_h1
    (merged (PyJson.encode (VDict [("h1", Sample.record_h1)])) Sample.record_h1
       (Sample.world (Sample.transaction Sample.polling "pending" "new" 15 "{}")))
  = (Returned true,
     merged (PyJson.encode (VDict [("h1", Sample.record_h1)])) Sample.record_h1
       (Sample.world (Sample.transaction Sample.polling "pending" "new" 15 "{}"))).
Proof.
  refine (@merge_then_redelivery PyJson.python spec_connector
            Sample.update_h1
            [("hash", VStr "h1"); ("amount", VInt 5000000); ("updateTime", VStr "T1")]
            "h1" (VFloat (Float 5 0)) (VStr "T1") []
            (PyJson.encode (VDict [("h1", Sample.record_h1)]))
            (Sample.world (Sample.transaction Sample.polling "pending" "new" 15 "{}"))
            _ _ _ _ _ _ _ _); reflexivity.
Defined.

(** *** Polling: half-applied payments, repeated polls, the silent refresh *)

Section PollingMore.
Context {JSON : json.codec} {ADAPAY : Connector}.

(** [_process_payment_data], step by step. *)
Lemma process_run payment_data w :
  _process_payment_data payment_data w
  = match subscript payment_data "updateTime" with
    | inl e => (Raised e, w)
    | inr update_date =>
        match (if py_ne update_date (adapay_last_updated (self w))
               then _adapay_webhook_feedback payment_data w
               else (Returned true, w)) with
        | (Raised e, w1) => (Raised e, w1)
        | (Returned _, w1) =>
            match subscript payment_data "transactions" with
            | inl e => (Raised e, w1)
            | inr transactions =>
                match py_iter transactions with
                | inl e => (Raised e, w1)
                | inr items =>
                    for_each items _adapay_webhook_transaction_feedback w1
                end
            end
        end
    end.
Proof.
  unfold _process_payment_data.
  unfold bind at 1.
  destruct (subscript payment_data "updateTime") as [e | update_date];
    cbn [eval raise ret]; [reflexivity |].
  unfold bind at 1. cbn [get].
  unfold bind at 1.
  destruct (py_ne update_date (adapay_last_updated (self w))).
  - unfold bind at 1.
    destruct (_adapay_webhook_feedback payment_data w) as [[b | e] w1];
      [| reflexivity].
    cbn [ret]. unfold bind at 1.
    destruct (subscript payment_data "transactions") as [e | transactions];
      cbn [eval raise ret]; [reflexivity |].
    unfold bind at 1.
    destruct (py_iter transactions) as [e | items]; reflexivity.
  - cbn [ret]. unfold bind at 1.
    destruct (subscript payment_data "transactions") as [e | transactions];
      cbn [eval raise ret]; [reflexivity |].
    unfold bind at 1.
    destruct (py_iter transactions) as [e | items]; reflexivity.
Qed.

Lemma merges_keep_reconciled items :
  keeps reconciled (for_each items _adapay_webhook_transaction_feedback).
Proof. apply keeps_for_each. intros data. apply merge_keeps_reconciled. Qed.

(** X7.  A payment without its [transactions] is half applied: when the
    update time differs from the stored one, the status reconciliation
    runs to the end (fields mirrored, notes posted, local status settled)
    and only then does the method raise [KeyError]; nothing is rolled
    back.  Under polling the refresh swallows that error, so the caller
    sees a normal return and the reconciled transaction. *)
Theorem process_without_transactions d status sent owed u subStatus w :
  status_payload (VDict d) = Some (status, sent, owed, u, subStatus) ->
  py_ne u (adapay_last_updated (self w)) = true ->
  dict_get "transactions" d = None ->
  exists w1,
    _adapay_webhook_feedback (VDict d) w = (Returned true, w1) /\
    adapay_status (self w1) = status /\
    adapay_last_updated (self w1) = u /\
    _process_payment_data (VDict d) w = (Raised KeyError, w1) /\
    (adapay_use_webhook (acquirer_id (self w)) = false ->
     update_status (inr (VDict d)) w = (Returned tt, w1)).
Proof.
  intros Hpayload Hne Ht.
  pose proof (feedback_run _ _ _ _ _ _ w Hpayload) as Hrun.
  pose proof (status_payload_update_time _ _ _ _ _ _ Hpayload) as Hu.
  eexists. split; [exact Hrun |].
  destruct (settled_mirror (fst (local_status status)) (snd (local_status status))
              (noted (sale_order_ids (self w)) (PaymentUpdate (VDict d))
                 (with_self (write_feedback sent owed u status subStatus (self w)) w)))
    as (Hs & Hl & _).
  split; [rewrite Hs; reflexivity |]. split; [rewrite Hl; reflexivity |].
  assert (Hp : _process_payment_data (VDict d) w
               = (Raised KeyError,
                  settled (fst (local_status status)) (snd (local_status status))
                    (noted (sale_order_ids (self w)) (PaymentUpdate (VDict d))
                       (with_self
                          (write_feedback sent owed u status subStatus (self w)) w)))).
  { rewrite process_run. unfold subscript. rewrite Hu, Hne, Hrun, Ht. reflexivity. }
  split; [exact Hp |].
  intros Hpoll. rewrite update_status_unfold, Hpoll.
  unfold try_except. unfold bind at 1. cbn [eval ret]. rewrite Hp. reflexivity.
Qed.

(** X8.  A payment is reconciled once.  After [_process_payment_data] has
    returned on a payload, processing the same payload again (as the next
    poll does while the gateway reports nothing new) skips the status
    reconciliation: the local status, the mirrored fields, the transitions
    and the reconciliation notes stay as the first run left them, however
    the second run ends. *)
Theorem polled_twice_reconciled_once d u w w1 :
  dict_get "updateTime" d = Some u ->
  py_eq u u = true ->
  _process_payment_data (VDict d) w = (Returned tt, w1) ->
  reconciled (snd (_process_payment_data (VDict d) w1)) = reconciled w1.
Proof.
  intros Hu Hrefl Hrun.
  assert (Hlast : py_ne u (adapay_last_updated (self w1)) = false).
  { rewrite process_run in Hrun. unfold subscript at 1 in Hrun. rewrite Hu in Hrun.
    destruct (py_ne u (adapay_last_updated (self w))) eqn:Hne.
    - destruct (status_payload (VDict d)) as [[[[[status sent] owed] u'] subStatus] |]
        eqn:Hpayload.
      + rewrite (feedback_run _ _ _ _ _ _ w Hpayload) in Hrun.
        pose proof (status_payload_update_time _ _ _ _ _ _ Hpayload) as Hu'.
        rewrite Hu in Hu'. injection Hu' as <-.
        destruct (subscript (VDict d) "transactions") as [e | transactions];
          [discriminate |].
        destruct (py_iter transactions) as [e | items]; [discriminate |].
        pose proof (merges_keep_reconciled items
                      (settled (fst (local_status status)) (snd (local_status status))
                         (noted (sale_order_ids (self w)) (PaymentUpdate (VDict d))
                            (with_self
                               (write_feedback sent owed u status subStatus (self w))
                               w)))) as K.
        rewrite Hrun in K. cbn [snd] in K. unfold reconciled in K.
        injection K as _ _ _ Hl _ _ _ _.
        rewrite Hl.
        destruct (settled_mirror (fst (local_status status)) (snd (local_status status))
                    (noted (sale_order_ids (self w)) (PaymentUpdate (VDict d))
                       (with_self
                          (write_feedback sent owed u status subStatus (self w)) w)))
          as (_ & Hl' & _).
        rewrite Hl'. cbn. unfold py_ne. now rewrite Hrefl.
      + destruct (feedback_raises (VDict d) w Hpayload) as (e & He).
        rewrite He in Hrun. discriminate.
    - destruct (subscript (VDict d) "transactions") as [e | transactions];
        [discriminate |].
      destruct (py_iter transactions) as [e | items]; [discriminate |].
      pose proof (merges_keep_reconciled items w) as K.
      rewrite Hrun in K. cbn [snd] in K. unfold reconciled in K.
      injection K as _ _ _ Hl _ _ _ _. now rewrite Hl. }
  rewrite process_run. unfold subscript at 1. rewrite Hu, Hlast.
  destruct (subscript (VDict d) "transactions") as [e | transactions];
    [reflexivity |].
  destruct (py_iter transactions) as [e | items]; [reflexivity |].
  apply merges_keep_reconciled.
Qed.

(** X9.  The refresh under polling is silent and stays in its lane: no
    Python exception leaves it, whatever the gateway answers and however
    the processing ends; the fields outside the reconciliation and the
    ledger are as before; and it changes nothing at all in webhook mode,
    or when the gateway call itself fails. *)
Theorem refresh_is_silent gateway w :
  exists w1,
    (update_status gateway w = (Returned tt, w1) \/
     update_status gateway w = (Raised OutsideModel, w1)) /\
    frame w1 = frame w /\
    (adapay_use_webhook (acquirer_id (self w)) = true -> w1 = w) /\
    (forall e, gateway = inl e -> is_Exception e = true -> w1 = w).
Proof.
  destruct (update_status_outcome gateway w) as (w1 & H).
  exists w1. split; [exact H |].
  assert (Hsnd : snd (update_status gateway w) = w1)
    by (destruct H as [H | H]; now rewrite H).
  split; [| split].
  - rewrite <- Hsnd. apply update_status_keeps.
  - intros Hweb. rewrite (update_status_webhook gateway w Hweb) in Hsnd.
    now symmetry.
  - intros e -> He. rewrite (update_status_failed e w He) in Hsnd. now symmetry.
Qed.

End PollingMore.

(** X7 on a payment reported [payment-sent] at [T1], without its list of
    transactions. *)
Lemma process_without_transactions_witness :
  exists w1,
    @_adapay_webhook_feedback spec_connector
      (VDict [("status", VStr "payment-sent"); ("confirmedAmount", VInt 0);
              ("pendingAmount", VInt 5000000); ("updateTime", VStr "T1");
              ("subStatus", VStr "")])
      (Sample.world (Sample.transaction Sample.polling "draft" "new" 15 "{}"))
    = (Returned true, w1) /\
    adapay_status (self w1) = VStr "payment-sent" /\
    adapay_last_updated (self w1) = VStr "T1" /\
    @_process_payment_data PyJson.python spec_connector
      (VDict [("status", VStr "payment-sent"); ("confirmedAmount", VInt 0);
              ("pendingAmount", VInt 5000000); ("updateTime", VStr "T1");
              ("subStatus", VStr "")])
      (Sample.world (Sample.transaction Sample.polling "draft" "new" 15 "{}"))
    = (Raised KeyError, w1) /\
    (adapay_use_webhook
       (acquirer_id
          (self (Sample.world (Sample.transaction Sample.polling "draft" "new" 15 "{}"))))
     = false ->
     @update_status PyJson.python spec_connector
       (inr (VDict [("status", VStr "payment-sent"); ("confirmedAmount", VInt 0);
                    ("pendingAmount", VInt 5000000); ("updateTime", VStr "T1");
                    ("subStatus", VStr "")]))
       (Sample.world (Sample.transaction Sample.polling "draft" "new" 15 "{}"))
     = (Returned tt, w1)).
Proof.
  exact (@process_without_transactions PyJson.python spec_connector
           [("status", VStr "payment-sent"); ("confirmedAmount", VInt 0);
            ("pendingAmount", VInt 5000000); ("updateTime", VStr "T1");
            ("subStatus", VStr "")]
           (VStr "payment-sent") (VFloat (Float 0 0)) (VFloat (Float 5 0))
           (VStr "T1") (VStr "")
           (Sample.world (Sample.transaction Sample.polling "draft" "new" 15 "{}"))
           eq_refl eq_refl eq_refl).
Defined.

(** X8 on a payment reported [payment-sent] at [T1] with the update [h1]:
    the world the first run leaves is the one the second run starts from. *)
Lemma polled_twice_reconciled_once_witness :
  reconciled
    (snd (@_process_payment_data PyJson.python spec_connector
            (Sample.payment "payment-sent" "T1" [Sample.update_h1])
            (snd (@_process_payment_data PyJson.python spec_connector
                    (Sample.payment "payment-sent" "T1" [Sample.update_h1])
                    (Sample.world
                       (Sample.transaction Sample.polling "draft" "new" 15 "{}"))))))
  = reconciled
      (snd (@_process_payment_data PyJson.python spec_connector
              (Sample.payment "payment-sent" "T1" [Sample.update_h1])
              (Sample.world
                 (Sample.transaction Sample.polling "draft" "new" 15 "{}")))).
Proof.
  refine (@polled_twice_reconciled_once PyJson.python spec_connector
            [("status", VStr "payment-sent"); ("confirmedAmount", VInt 0);
             ("pendingAmount", VInt 5000000); ("updateTime", VStr "T1");
             ("subStatus", VStr ""); ("transactions", VList [Sample.update_h1])]
            (VStr "T1")
            (Sample.world (Sample.transaction Sample.polling "draft" "new" 15 "{}"))
            (snd (@_process_payment_data PyJson.python spec_connector
                    (Sample.payment "payment-sent" "T1" [Sample.update_h1])
                    (Sample.world
                       (Sample.transaction Sample.polling "draft" "new" 15 "{}"))))
            _ _ _); vm_compute; reflexivity.
Defined.

(** *** Processing information: guards, what a read writes, what it answers *)

(** Writing a key: where the value goes among the values. *)
Lemma dict_values_set k v d :
  dict_values (dict_set k v d)
  = if dict_mem k d then dict_values (dict_set k v d)
    else (dict_values d ++ [v])%list.
Proof.
  unfold dict_mem, dict_values.
  induction d as [| [k' v'] rest IH]; cbn [dict_get dict_set map app]; [reflexivity |].
  destruct (String.eqb k k'); [reflexivity |].
  cbn [map]. destruct (dict_get k rest); [reflexivity |]. now rewrite IH.
Qed.

Lemma dict_set_length k v d :
  List.length (dict_set k v d)
  = if dict_mem k d then List.length d else S (List.length d).
Proof.
  unfold dict_mem.
  induction d as [| [k' v'] rest IH]; cbn [dict_get dict_set List.length]; [reflexivity |].
  destruct (String.eqb k k'); [reflexivity |].
  cbn [List.length]. rewrite IH. now destruct (dict_get k rest).
Qed.

Lemma dict_values_In k v d : In v (dict_values (dict_set k v d)).
Proof.
  unfold dict_values.
  induction d as [| [k' v'] rest IH]; cbn [dict_set map]; [now left |].
  destruct (String.eqb k k'); cbn [map]; [now left | now right].
Qed.

Section InfoMore.
Context {JSON : json.codec} {HOST : Host} {ADAPAY : Connector}.

Lemma get_processing_info_refresh_raised now gateway w e w1 :
  provider (acquirer_id (self w)) = "adapay" ->
  update_status gateway w = (Raised e, w1) ->
  _get_processing_info now gateway w = (Raised e, w1).
Proof.
  intros Hprovider Hupdate. unfold _get_processing_info.
  unfold bind at 1. cbn [get].
  unfold bind at 1. cbn [get].
  unfold bind at 1. cbn [get].
  rewrite Hprovider. cbn [String.eqb Ascii.eqb Bool.eqb].
  unfold bind at 1. rewrite Hupdate. reflexivity.
Qed.

(** What a call that returns went through. *)
Lemma get_processing_info_returned now gateway w res w' :
  provider (acquirer_id (self w)) = "adapay" ->
  _get_processing_info now gateway w = (Returned res, w') ->
  exists w1,
    update_status gateway w = (Returned tt, w1) /\
    w' = with_self (snd (timer now (self w1))) w1 /\
    rendered (self w) (snd (timer now (self w1))) (fst (timer now (self w1)))
    = inr res.
Proof.
  intros Hprovider Hrun.
  destruct (update_status_outcome gateway w) as (w1 & [Hu | Hu]).
  - exists w1. split; [exact Hu |].
    rewrite (get_processing_info_run now gateway w w1 Hprovider Hu) in Hrun.
    destruct (rendered _ _ _) as [e | res']; [discriminate |].
    injection Hrun as -> <-. auto.
  - rewrite (get_processing_info_refresh_raised now gateway w _ w1 Hprovider Hu) in Hrun.
    discriminate.
Qed.

Lemma timer_seconds now t :
  0 <= fst (timer now t) < 86400 /\
  (adapay_status (snd (timer now t)) <> VStr "new" -> fst (timer now t) = 0).
Proof.
  unfold timer.
  destruct (py_eq (adapay_status t) (VStr "new")) eqn:E; cbn [fst snd];
    [| split; [lia | reflexivity]].
  destruct (expiration t <? now); cbn [fst snd]; [split; [lia | reflexivity] |].
  split.
  - unfold datetime.seconds, datetime.microseconds_per_day,
      datetime.microseconds_per_second.
    pose proof (Z.mod_pos_bound (expiration t - now) (86400 * 1000000) ltac:(lia)) as Hm.
    split.
    + apply Z.div_pos; lia.
    + apply Z.div_lt_upper_bound; lia.
  - intros Hs. apply py_eq_str in E. contradiction.
Qed.

Lemma timer_leaves now t :
  snd (timer now t) = t \/
  (adapay_status t = VStr "new" /\ expiration t < now /\
   snd (timer now t) = set_adapay_status (VStr "expired") t).
Proof.
  unfold timer.
  destruct (py_eq (adapay_status t) (VStr "new")) eqn:E; cbn [snd]; [| now left].
  destruct (expiration t <? now) eqn:L; cbn [snd]; [| now left].
  right. apply py_eq_str in E. apply Z.ltb_lt in L. auto.
Qed.

(** X10.  For a transaction of any other provider the method is the
    inherited one: it returns what the host's method returns, consults no
    gateway and changes nothing, whatever the [adapay_] fields hold (a
    status without a title, a ledger that does not decode). *)
Theorem other_provider_is_left_alone now gateway w :
  provider (acquirer_id (self w)) <> "adapay" ->
  _get_processing_info now gateway w
  = (Returned (super_get_processing_info (self w)), w).
Proof.
  intros Hprovider. unfold _get_processing_info.
  unfold bind at 1. cbn [get].
  unfold bind at 1. cbn [get].
  unfold bind at 1. cbn [get].
  destruct (String.eqb (provider (acquirer_id (self w))) "adapay") eqn:E.
  - apply String.eqb_eq in E. contradiction.
  - reflexivity.
Qed.

(** X11.  In webhook mode a read consults no gateway (its answer and the
    world it leaves are the same for any two gateway answers) and the only
    thing it can write is the expiry: no note, no transition, and the
    transaction as it was unless its status was [new] and the window had
    passed, in which case the status alone becomes [expired]. *)
Theorem webhook_mode_read now w :
  provider (acquirer_id (self w)) = "adapay" ->
  adapay_use_webhook (acquirer_id (self w)) = true ->
  (forall gateway gateway',
      _get_processing_info now gateway w = _get_processing_info now gateway' w) /\
  (forall gateway,
      let w' := snd (_get_processing_info now gateway w) in
      chatter w' = chatter w /\
      transitions w' = transitions w /\
      (self w' = self w \/
       (adapay_status (self w) = VStr "new" /\ expiration (self w) < now /\
        self w' = set_adapay_status (VStr "expired") (self w)))).
Proof.
  intros Hprovider Hweb.
  assert (Hrun : forall gateway,
             _get_processing_info now gateway w
             = match rendered (self w) (snd (timer now (self w)))
                       (fst (timer now (self w))) with
               | inr res => (Returned res, with_self (snd (timer now (self w))) w)
               | inl e => (Raised e, with_self (snd (timer now (self w))) w)
               end).
  { intros gateway.
    apply (get_processing_info_run now gateway w w Hprovider
             (update_status_webhook gateway w Hweb)). }
  split.
  - intros gateway gateway'. now rewrite !Hrun.
  - intros gateway w'. subst w'. rewrite Hrun.
    assert (Hsnd : snd (match rendered (self w) (snd (timer now (self w)))
                              (fst (timer now (self w))) with
                        | inr res => (Returned res, with_self (snd (timer now (self w))) w)
                        | inl e => (Raised e, with_self (snd (timer now (self w))) w)
                        end)
                   = with_self (snd (timer now (self w))) w)
      by (destruct (rendered _ _ _); reflexivity).
    rewrite Hsnd. cbn [with_self chatter transitions self].
    split; [reflexivity |]. split; [reflexivity |]. apply timer_leaves.
Qed.

(** X12.  A read, in any mode and however it ends, writes none of the
    fields outside the reconciliation and the ledger: reference, creation
    date, linked sales orders, acquirer, payment UUID, amount, expiration
    minutes and date, update time and address are as before. *)
Theorem read_keeps_frame now gateway w :
  frame (snd (_get_processing_info now gateway w)) = frame w.
Proof.
  revert w. change (keeps frame (_get_processing_info now gateway)).
  unfold _get_processing_info. keep. apply update_status_keeps.
Qed.

(** X13.  The answer for an AdaPay transaction carries an empty
    [return_url] unless the status the page was rendered for is
    [confirmed]; for a confirmed payment it carries the host's
    [return_url], untouched. *)
Theorem return_url_blank_unless_confirmed now gateway w res w' :
  provider (acquirer_id (self w)) = "adapay" ->
  _get_processing_info now gateway w = (Returned res, w') ->
  dict_get "return_url" res
  = if py_eq (adapay_status (self w')) (VStr "confirmed")
    then dict_get "return_url" (super_get_processing_info (self w))
    else Some (VStr "").
Proof.
  intros Hprovider Hrun.
  destruct (get_processing_info_returned now gateway w res w' Hprovider Hrun)
    as (w1 & _ & -> & Hres).
  cbn [with_self self]. unfold rendered in Hres.
  destruct (json.loads _) as [e | history]; [discriminate |].
  destruct (py_values history) as [e | records]; [discriminate |].
  destruct (lookup title _) as [e | heading]; [discriminate |].
  injection Hres as <-. unfold py_ne, dict_update.
  destruct (py_eq (adapay_status (snd (timer now (self w1)))) (VStr "confirmed"));
    cbn [negb dict_set String.eqb Ascii.eqb Bool.eqb fold_left fst snd].
  - rewrite dict_get_set_other by reflexivity.
    now rewrite dict_get_set_other by reflexivity.
  - apply dict_get_set_same.
Qed.

(** X14.  Whenever the method answers for an AdaPay transaction, the
    answer carries [adapay_expiration_seconds], an integer from 0 to 86399,
    and it is 0 unless the transaction is left with the status [new]. *)
Theorem seconds_exposed_bounds now gateway w res w' :
  provider (acquirer_id (self w)) = "adapay" ->
  _get_processing_info now gateway w = (Returned res, w') ->
  exists s,
    dict_get "adapay_expiration_seconds" res = Some (VInt s) /\
    0 <= s < 86400 /\
    (adapay_status (self w') <> VStr "new" -> s = 0).
Proof.
  intros Hprovider Hrun.
  destruct (get_processing_info_returned now gateway w res w' Hprovider Hrun)
    as (w1 & _ & -> & Hres).
  cbn [with_self self]. exists (fst (timer now (self w1))).
  split; [| apply timer_seconds].
  unfold rendered in Hres.
  destruct (json.loads _) as [e | history]; [discriminate |].
  destruct (py_values history) as [e | records]; [discriminate |].
  destruct (lookup title _) as [e | heading]; [discriminate |].
  injection Hres as <-. unfold dict_update.
  destruct (py_ne _ _);
    cbn [dict_set String.eqb Ascii.eqb Bool.eqb fold_left fst snd].
  - rewrite dict_get_set_other by reflexivity. apply dict_get_set_same.
  - apply dict_get_set_same.
Qed.

(** X15.  The read needs a ledger that decodes to a mapping.  Where the
    merge takes an undecodable text for an empty ledger, the read lets the
    decoder's exception through; and a text that decodes to anything but a
    mapping makes it raise [AttributeError].  Either way the expiry, if
    due, has been written by then. *)
Theorem read_needs_a_mapping now gateway w w1 e :
  provider (acquirer_id (self w)) = "adapay" ->
  update_status gateway w = (Returned tt, w1) ->
  json.loads (adapay_transaction_history (self w1)) = inl e \/
  (e = AttributeError /\
   exists ledger,
     json.loads (adapay_transaction_history (self w1)) = inr ledger /\
     forall entries, ledger <> VDict entries) ->
  _get_processing_info now gateway w
  = (Raised e, with_self (snd (timer now (self w1))) w1).
Proof.
  intros Hprovider Hupdate Hledger.
  assert (Htext : adapay_transaction_history (snd (timer now (self w1)))
                  = adapay_transaction_history (self w1)).
  { destruct (timer_leaves now (self w1)) as [-> | (_ & _ & ->)]; reflexivity. }
  rewrite (get_processing_info_run now gateway w w1 Hprovider Hupdate).
  unfold rendered. rewrite Htext.
  destruct Hledger as [-> | (-> & ledger & -> & Hnot)]; [reflexivity |].
  destruct ledger as [| | | | | | entries]; try reflexivity.
  now destruct (Hnot entries).
Qed.

(** X16.  What the merge writes is what the page shows.  After an update
    has been merged, if the stored text reads back as the ledger written,
    a read in webhook mode of a transaction whose status has a title
    returns a page rendered from values whose
    [adapay_transaction_history] is the list of the ledger's records: the
    merged record (its amount in ADA) is among them, a hash the ledger did
    not hold goes last, and one it held takes no new place. *)
Theorem merged_update_is_shown now gateway data d h ada ledger text' heading w :
  provider (acquirer_id (self w)) = "adapay" ->
  adapay_use_webhook (acquirer_id (self w)) = true ->
  transaction_update data = Some (d, h, ada) ->
  _adapay_webhook_transaction_feedback data w
  = (Returned true, merged text' (VDict (dict_set "amount" ada d)) w) ->
  json.loads text'
  = inr (VDict (dict_set h (VDict (dict_set "amount" ada d)) ledger)) ->
  lookup title (adapay_status (snd (timer now (self w)))) = inr heading ->
  let record := VDict (dict_set "amount" ada d) in
  let w1 := merged text' record w in
  exists res records,
    fst (_get_processing_info now gateway w1) = Returned res /\
    dict_get "message_to_display" res
    = Some (VStr (render_payment_page
                    (page_values (generate_b64_qr_image (adapay_address (self w)))
                       (snd (timer now (self w1))) records heading))) /\
    dict_get "adapay_transaction_history"
      (page_values (generate_b64_qr_image (adapay_address (self w)))
         (snd (timer now (self w1))) records heading)
    = Some (VList records) /\
    records = dict_values (dict_set h record ledger) /\
    In record records /\
    (dict_get h ledger = None -> records = (dict_values ledger ++ [record])%list) /\
    (dict_get h ledger <> None ->
     List.length records = List.length (dict_values ledger)).
Proof.
  intros Hprovider Hweb Hdata Hrun Hloads Htitle record w1.
  assert (Hprovider1 : provider (acquirer_id (self w1)) = "adapay") by exact Hprovider.
  assert (Hweb1 : adapay_use_webhook (acquirer_id (self w1)) = true) by exact Hweb.
  rewrite (get_processing_info_run now gateway w1 w1 Hprovider1
             (update_status_webhook gateway w1 Hweb1)).
  assert (Htext : adapay_transaction_history (snd (timer now (self w1))) = text').
  { destruct (timer_leaves now (self w1)) as [-> | (_ & _ & ->)]; reflexivity. }
  assert (Hstatus : adapay_status (snd (timer now (self w1)))
                    = adapay_status (snd (timer now (self w)))).
  { unfold timer, expiration. subst w1. cbn [merged noted with_self self
      set_adapay_transaction_history adapay_status create_date
      adapay_expiration_minutes].
    destruct (py_eq (adapay_status (self w)) (VStr "new")); [| reflexivity].
    destruct (_ <? now); reflexivity. }
  destruct (rendered_page (self w1) (snd (timer now (self w1)))
              (fst (timer now (self w1)))
              (dict_set h record ledger) heading)
    as (res & Hres & _ & Hpage).
  { rewrite Htext. exact Hloads. }
  { rewrite Hstatus. exact Htitle. }
  rewrite Hres. exists res, (dict_values (dict_set h record ledger)).
  split; [reflexivity |]. split; [exact Hpage |].
  split.
  { unfold page_values. rewrite dict_get_set_other by reflexivity.
    apply dict_get_set_same. }
  split; [reflexivity |]. split; [apply dict_values_In |]. split.
  - intros Hfresh. rewrite dict_values_set. unfold dict_mem. now rewrite Hfresh.
  - intros Hheld. unfold dict_values. rewrite !length_map, dict_set_length.
    unfold dict_mem. destruct (dict_get h ledger); [reflexivity | contradiction].
Qed.

End InfoMore.

(** X10 on a transaction paid by wire transfer, whose [adapay_] fields
    hold a ledger that does not decode. *)
Lemma other_provider_is_left_alone_witness :
  @_get_processing_info PyJson.python Sample.host spec_connector
    (16 * Sample.minute) (inl GatewayError)
    (Sample.world
       (Sample.transaction {| provider := "transfer"; adapay_use_webhook := false |}
          "draft" "new" 15 "{oops"))
  = (Returned
       (@super_get_processing_info Sample.host
          (Sample.transaction {| provider := "transfer"; adapay_use_webhook := false |}
             "draft" "new" 15 "{oops")),
     Sample.world
       (Sample.transaction {| provider := "transfer"; adapay_use_webhook := false |}
          "draft" "new" 15 "{oops")).
Proof.
  refine (@other_provider_is_left_alone PyJson.python Sample.host spec_connector
            (16 * Sample.minute) (inl GatewayError)
            (Sample.world
               (Sample.transaction
                  {| provider := "transfer"; adapay_use_webhook := false |}
                  "draft" "new" 15 "{oops"))
            _).
  intros H. discriminate H.
Defined.

(** X11 on a new transaction read after its window, in webhook mode. *)
Lemma webhook_mode_read_witness :
  (forall gateway gateway',
      @_get_processing_info PyJson.python Sample.host spec_connector
        (16 * Sample.minute) gateway
        (Sample.world (Sample.transaction Sample.webhook "pending" "new" 15 "{}"))
      = @_get_processing_info PyJson.python Sample.host spec_connector
          (16 * Sample.minute) gateway'
          (Sample.world (Sample.transaction Sample.webhook "pending" "new" 15 "{}"))) /\
  (forall gateway,
      let w' :=
        snd (@_get_processing_info PyJson.python Sample.host spec_connector
               (16 * Sample.minute) gateway
               (Sample.world (Sample.transaction Sample.webhook "pending" "new" 15 "{}")))
      in
      chatter w' = [] /\
      transitions w' = [] /\
      (self w' = Sample.transaction Sample.webhook "pending" "new" 15 "{}" \/
       (VStr "new" = VStr "new" /\
        expiration (Sample.transaction Sample.webhook "pending" "new" 15 "{}")
        < 16 * Sample.minute /\
        self w'
        = set_adapay_status (VStr "expired")
            (Sample.transaction Sample.webhook "pending" "new" 15 "{}")))).
Proof.
  exact (@webhook_mode_read PyJson.python Sample.host spec_connector
           (16 * Sample.minute)
           (Sample.world (Sample.transaction Sample.webhook "pending" "new" 15 "{}"))
           eq_refl eq_refl).
Defined.

(** X13 on a pending payment: the host's [return_url] is blanked. *)
Lemma return_url_blank_unless_confirmed_witness :
  dict_get "return_url"
    [("return_url", VStr ""); ("message_to_display", VStr "<page>");
     ("adapay_expiration_seconds", VInt 0)]
  = Some (VStr "").
Proof.
  exact (@return_url_blank_unless_confirmed PyJson.python Sample.host spec_connector
           Sample.minute (inl GatewayError)
           (Sample.world (Sample.transaction Sample.webhook "pending" "pending" 15 "{}"))
           [("return_url", VStr ""); ("message_to_display", VStr "<page>");
            ("adapay_expiration_seconds", VInt 0)]
           (Sample.world (Sample.transaction Sample.webhook "pending" "pending" 15 "{}"))
           eq_refl eq_refl).
Defined.

(** X14 on a new payment read one minute after creation: 840 seconds. *)
Lemma seconds_exposed_bounds_witness :
  exists s,
    dict_get "adapay_expiration_seconds"
      [("return_url", VStr ""); ("message_to_display", VStr "<page>");
       ("adapay_expiration_seconds", VInt 840)]
    = Some (VInt s) /\
    0 <= s < 86400 /\
    (VStr "new" <> VStr "new" -> s = 0).
Proof.
  exact (@seconds_exposed_bounds PyJson.python Sample.host spec_connector
           Sample.minute (inl GatewayError)
           (Sample.world (Sample.transaction Sample.webhook "pending" "new" 15 "{}"))
           [("return_url", VStr ""); ("message_to_display", VStr "<page>");
            ("adapay_expiration_seconds", VInt 840)]
           (Sample.world (Sample.transaction Sample.webhook "pending" "new" 15 "{}"))
           eq_refl eq_refl).
Defined.

(** X15 on a ledger that is not JSON, read after the window. *)
Lemma read_needs_a_mapping_witness :
  @_get_processing_info PyJson.python Sample.host spec_connector
    (16 * Sample.minute) (inl GatewayError)
    (Sample.world (Sample.transaction Sample.webhook "pending" "new" 15 "{oops"))
  = (Raised JSONDecodeError,
     Sample.world (Sample.transaction Sample.webhook "pending" "expired" 15 "{oops")).
Proof.
  refine (@read_needs_a_mapping PyJson.python Sample.host spec_connector
            (16 * Sample.minute) (inl GatewayError)
            (Sample.world (Sample.transaction Sample.webhook "pending" "new" 15 "{oops"))
            (Sample.world (Sample.transaction Sample.webhook "pending" "new" 15 "{oops"))
            JSONDecodeError eq_refl eq_refl _).
  left. reflexivity.
Defined.

(** X16 on the spec's example, merged into [{}] and then read. *)
Lemma merged_update_is_shown_witness :
  exists res records,
    fst (@_get_processing_info PyJson.python Sample.host spec_connector
           Sample.minute (inl GatewayError)
           (merged (PyJson.encode (VDict [("h1", Sample.record_h1)])) Sample.record_h1
              (Sample.world
                 (Sample.transaction Sample.webhook "pending" "pending" 15 "{}"))))
    = Returned res /\
    dict_get "message_to_display" res = Some (VStr "<page>") /\
    dict_get "adapay_transaction_history"
      (page_values "QR"
         (Sample.transaction Sample.webhook "pending" "pending" 15
            (PyJson.encode (VDict [("h1", Sample.record_h1)])))
         records (VStr "The transaction is in the process of being confirmed."))
    = Some (VList records) /\
    records = [Sample.record_h1] /\
    In Sample.record_h1 records /\
    (@None value = None -> records = [Sample.record_h1]) /\
    (@None value <> None -> List.length records = 0%nat).
Proof.
  exact (@merged_update_is_shown PyJson.python Sample.host spec_connector
           Sample.minute (inl GatewayError) Sample.update_h1
           [("hash", VStr "h1"); ("amount", VInt 5000000); ("updateTime", VStr "T1")]
           "h1" (VFloat (Float 5 0)) []
           (PyJson.encode (VDict [("h1", Sample.record_h1)]))
           (VStr "The transaction is in the process of being confirmed.")
           (Sample.world (Sample.transaction Sample.webhook "pending" "pending" 15 "{}"))
           eq_refl eq_refl eq_refl eq_refl eq_refl eq_refl).
Defined.

(** ** The table of transactions: lookup, webhook, synchronisation *)

(** *** Lists of records *)

Lemma set_nth_length {A : Type} i (x : A) l :
  List.length (set_nth i x l) = List.length l.
Proof.
  revert i. induction l as [| y rest IH]; intros [| i]; cbn; auto.
Qed.

Lemma nth_error_set_nth_same {A : Type} i (x y : A) l :
  nth_error l i = Some y -> nth_error (set_nth i x l) i = Some x.
Proof.
  revert i. induction l as [| z rest IH]; intros [| i]; cbn; try discriminate; auto.
Qed.

Lemma nth_error_set_nth_other {A : Type} i j (x : A) l :
  j <> i -> nth_error (set_nth i x l) j = nth_error l j.
Proof.
  revert i j. induction l as [| z rest IH]; intros [| i] [| j] H; cbn;
    try reflexivity.
  - now destruct H.
  - apply IH. intros ->. now apply H.
Qed.

Lemma ids_from_In k holds rows i :
  In i (ids_from k holds rows)
  <-> (k <= i)%nat /\
      exists t, nth_error rows (i - k) = Some t /\ holds t = true.
Proof.
  revert k. induction rows as [| t rest IH]; intros k; cbn [ids_from].
  - split; [intros [] |]. intros (_ & t & H & _). now destruct (i - k)%nat.
  - assert (Hrest : In i (ids_from (S k) holds rest)
                    <-> (k < i)%nat /\
                        exists t', nth_error (t :: rest) (i - k) = Some t' /\
                                   holds t' = true).
    { rewrite IH. split.
      - intros (Hle & t' & Hn & Hh). split; [lia |]. exists t'. split; [| exact Hh].
        replace (i - k)%nat with (S (i - S k)) by lia. exact Hn.
      - intros (Hlt & t' & Hn & Hh). split; [lia |]. exists t'. split; [| exact Hh].
        replace (i - k)%nat with (S (i - S k)) in Hn by lia. exact Hn. }
    destruct (holds t) eqn:Ht.
    + cbn [In]. rewrite Hrest. split.
      * intros [<- | (Hlt & H)].
        -- split; [lia |]. exists t. rewrite Nat.sub_diag. auto.
        -- split; [lia | exact H].
      * intros (Hle & t' & Hn & Hh).
        destruct (Nat.eq_dec k i) as [-> | Hne]; [now left | right].
        split; [lia |]. eauto.
    + rewrite Hrest. split.
      * intros (Hlt & H). split; [lia | exact H].
      * intros (Hle & t' & Hn & Hh).
        destruct (Nat.eq_dec k i) as [-> | Hne].
        -- rewrite Nat.sub_diag in Hn. cbn in Hn. injection Hn as <-. congruence.
        -- split; [lia |]. eauto.
Qed.

(** A search finds a record when its id is in the table and the record
    satisfies the domain. *)
Lemma ids_from_0_In holds rows i :
  In i (ids_from 0 holds rows)
  <-> exists t, nth_error rows i = Some t /\ holds t = true.
Proof.
  rewrite ids_from_In, Nat.sub_0_r. split.
  - intros (_ & H). exact H.
  - intros H. split; [lia | exact H].
Qed.

Lemma ids_from_NoDup k holds rows : NoDup (ids_from k holds rows).
Proof.
  revert k. induction rows as [| t rest IH]; intros k; cbn [ids_from];
    [constructor |].
  destruct (holds t); [| apply IH].
  constructor; [| apply IH].
  rewrite ids_from_In. intros (Hle & _). lia.
Qed.

(** *** The lookup, the webhook and the scheduled synchronisation *)

Section TableMore.

Context {JSON : json.codec} {ADAPAY : Connector} {DB : ORM}.

Lemma get_tx_run data field col sought db :
  column field = Some col ->
  py_get data "reference" VNone = inr sought ->
  _adapay_form_get_tx_from_data data field db
  = (match ids_from 0 (fun t => field_equals (col t) sought) (records db) with
     | [] => Failed (ValidationError sought NoOrderFound)
     | [odoo_tx] => Done odoo_tx
     | _ :: _ :: _ => Failed (ValidationError sought MultipleOrderFound)
     end, db).
Proof.
  intros Hcol Hget. unfold _adapay_form_get_tx_from_data.
  unfold table.bind at 1. rewrite Hget. cbn [table.eval table.ret].
  unfold table.bind, search. rewrite Hcol.
  destruct (ids_from 0 _ (records db)) as [| i [| j rest]]; reflexivity.
Qed.

(** X17.  The lookup returns a record exactly when one record, and no
    other, holds the reference sought in the field searched: the record
    returned does hold it and is the only one that does.  Otherwise it
    raises [ValidationError], for no record when none holds it and for
    several when two different records do.  It raises nothing else and
    changes nothing. *)
Theorem lookup_finds_the_only_match data field col sought db :
  column field = Some col ->
  py_get data "reference" VNone = inr sought ->
  let holds := fun t => field_equals (col t) sought in
  match _adapay_form_get_tx_from_data data field db with
  | (Done odoo_tx, db') =>
      db' = db /\
      (exists t, nth_error (records db) odoo_tx = Some t /\ holds t = true) /\
      (forall j t, nth_error (records db) j = Some t -> holds t = true ->
                   j = odoo_tx)
  | (Failed (ValidationError reference NoOrderFound), db') =>
      db' = db /\ reference = sought /\
      (forall j t, nth_error (records db) j = Some t -> holds t = false)
  | (Failed (ValidationError reference MultipleOrderFound), db') =>
      db' = db /\ reference = sought /\
      (exists i j t t',
          i <> j /\
          nth_error (records db) i = Some t /\ holds t = true /\
          nth_error (records db) j = Some t' /\ holds t' = true)
  | (Failed (Python _), _) => False
  end.
Proof.
  intros Hcol Hget holds.
  rewrite (get_tx_run data field col sought db Hcol Hget).
  fold holds.
  pose proof (ids_from_0_In holds (records db)) as HIn.
  pose proof (ids_from_NoDup 0 holds (records db)) as Hnodup.
  destruct (ids_from 0 holds (records db)) as [| i [| j rest]].
  - split; [reflexivity |]. split; [reflexivity |].
    intros j t Hj. destruct (holds t) eqn:Ht; [| reflexivity].
    exfalso. apply (proj2 (HIn j)). eauto.
  - split; [reflexivity |]. split.
    + apply HIn. now left.
    + intros j t Hj Ht.
      assert (H : In j [i]) by (apply HIn; eauto).
      destruct H as [-> | []]. reflexivity.
  - split; [reflexivity |]. split; [reflexivity |].
    destruct (proj1 (HIn i) (or_introl eq_refl)) as (t & Hi & Ht).
    destruct (proj1 (HIn j) (or_intror (or_introl eq_refl))) as (t' & Hj & Ht').
    exists i, j, t, t'. split; [| auto].
    inversion Hnodup as [| ? ? Hnotin _]. intros ->. apply Hnotin. now left.
Qed.

Lemma found_or_refused_run data field col sought db :
  column field = Some col ->
  py_get data "reference" VNone = inr sought ->
  found_or_refused (_adapay_form_get_tx_from_data data field) db
  = (match ids_from 0 (fun t => field_equals (col t) sought) (records db) with
     | [odoo_tx] => Done (Some odoo_tx)
     | _ => Done None
     end, db).
Proof.
  intros Hcol Hget. unfold found_or_refused, table.try_except, table.bind.
  rewrite (get_tx_run data field col sought db Hcol Hget).
  destruct (ids_from 0 _ (records db)) as [| i [| j rest]]; reflexivity.
Qed.

Lemma py_eq_str_false v s : v <> VStr s -> py_eq v (VStr s) = false.
Proof.
  intros H. destruct (py_eq v (VStr s)) eqn:E; [| reflexivity].
  apply py_eq_str in E. contradiction.
Qed.

(** X18.  An event that is neither [paymentRequestUpdate] nor
    [paymentRequestTransactionsUpdate] (or no event at all) is
    acknowledged with [True] and nothing changes, whatever comes with
    it. *)
Theorem unknown_event_is_acknowledged d db :
  (forall s, In s ["paymentRequestUpdate"; "paymentRequestTransactionsUpdate"] ->
             dict_get "event" d <> Some (VStr s)) ->
  _handle_adapay_webhook (VDict d) db = (Done true, db).
Proof.
  intros Hevent. unfold _handle_adapay_webhook.
  unfold table.bind at 1. cbn [py_get].
  assert (Hne : forall s,
             In s ["paymentRequestUpdate"; "paymentRequestTransactionsUpdate"] ->
             py_eq (match dict_get "event" d with Some v => v | None => VNone end)
               (VStr s) = false).
  { intros s Hs. apply py_eq_str_false. specialize (Hevent s Hs).
    destruct (dict_get "event" d); [congruence | discriminate]. }
  destruct (dict_get "event" d) as [event |]; cbn [table.eval table.ret];
    unfold table.bind at 1;
    destruct (dict_get "data" d); cbn [table.eval table.ret];
    rewrite !Hne by (cbn; tauto); reflexivity.
Qed.

(** The webhook on a status update that names its order. *)
Lemma handle_update_run d inner ref db :
  dict_get "event" d = Some (VStr "paymentRequestUpdate") ->
  py_get (VDict d) "data" (VDict []) = inr (VDict inner) ->
  dict_get "orderId" inner = Some ref ->
  _handle_adapay_webhook (VDict d) db
  = match ids_from 0 (fun t => field_equals (VStr (reference t)) ref) (records db) with
    | [odoo_tx] =>
        match on_record odoo_tx (_adapay_webhook_feedback (VDict inner)) db with
        | (Done _, db') => (Done true, db')
        | (Failed f, db') => (Failed f, db')
        end
    | _ => (Done false, db)
    end.
Proof.
  intros Hevent Hdata Horder. unfold _handle_adapay_webhook.
  unfold table.bind at 1. unfold py_get at 1. rewrite Hevent.
  cbn [table.eval table.ret].
  unfold table.bind at 1. rewrite Hdata. cbn [table.eval table.ret].
  cbn [py_eq String.eqb Ascii.eqb Bool.eqb].
  unfold table.bind at 1. unfold subscript. rewrite Horder. cbn [table.eval table.ret].
  unfold table.bind at 1. cbn [py_get]. rewrite Horder. cbn [table.eval table.ret].
  unfold table.bind at 1.
  rewrite (found_or_refused_run (VDict [("reference", ref)]) "reference"
             (fun t => VStr (reference t)) ref db eq_refl eq_refl).
  destruct (ids_from 0 _ (records db)) as [| i [| j rest]]; reflexivity.
Qed.

(** The webhook on a transaction update that names its payment and its
    hash. *)
Lemma handle_transactions_run d inner ref hash db :
  dict_get "event" d = Some (VStr "paymentRequestTransactionsUpdate") ->
  py_get (VDict d) "data" (VDict []) = inr (VDict inner) ->
  dict_get "paymentRequestUuid" inner = Some ref ->
  dict_get "hash" inner = Some hash ->
  _handle_adapay_webhook (VDict d) db
  = match ids_from 0 (fun t => field_equals (adapay_uuid t) ref) (records db) with
    | [odoo_tx] =>
        match on_record odoo_tx
                (_adapay_webhook_transaction_feedback (VDict inner)) db with
        | (Done _, db') => (Done true, db')
        | (Failed f, db') => (Failed f, db')
        end
    | _ => (Done false, db)
    end.
Proof.
  intros Hevent Hdata Huuid Hhash. unfold _handle_adapay_webhook.
  unfold table.bind at 1. unfold py_get at 1. rewrite Hevent.
  cbn [table.eval table.ret].
  unfold table.bind at 1. rewrite Hdata. cbn [table.eval table.ret].
  cbn [py_eq String.eqb Ascii.eqb Bool.eqb].
  unfold table.bind at 1. unfold subscript. rewrite Huuid. cbn [table.eval table.ret].
  unfold table.bind at 1. rewrite Hhash. cbn [table.eval table.ret].
  unfold table.bind at 1. cbn [py_get]. rewrite Huuid. cbn [table.eval table.ret].
  unfold table.bind at 1.
  rewrite (found_or_refused_run (VDict [("reference", ref)]) "adapay_uuid"
             adapay_uuid ref db eq_refl eq_refl).
  destruct (ids_from 0 _ (records db)) as [| i [| j rest]]; reflexivity.
Qed.

Lemma search_run field col sought db :
  column field = Some col ->
  search field sought db
  = (Done (ids_from 0 (fun t => field_equals (col t) sought) (records db)), db).
Proof. intros H. unfold search. now rewrite H. Qed.

(** X19.  A notification whose reference is held by no transaction, or
    by several, is refused: the webhook returns [False] and nothing
    changes.  This holds for both events, the order id being sought among
    the references and the payment UUID among the [adapay_uuid]. *)
Theorem unmatched_webhook_is_refused d inner event key field ref found db :
  (event, key, field) = ("paymentRequestUpdate", "orderId", "reference") \/
  ((event, key, field)
   = ("paymentRequestTransactionsUpdate", "paymentRequestUuid", "adapay_uuid") /\
   dict_get "hash" inner <> None) ->
  dict_get "event" d = Some (VStr event) ->
  py_get (VDict d) "data" (VDict []) = inr (VDict inner) ->
  dict_get key inner = Some ref ->
  search field ref db = (Done found, db) ->
  List.length found <> 1%nat ->
  _handle_adapay_webhook (VDict d) db = (Done false, db).
Proof.
  intros [Hcase | (Hcase & Hhash)] Hevent Hdata Hkey Hsearch Hcount;
    injection Hcase as -> -> ->.
  - rewrite (search_run "reference" (fun t => VStr (reference t)) ref db eq_refl)
      in Hsearch.
    injection Hsearch as <-.
    rewrite (handle_update_run d inner ref db Hevent Hdata Hkey).
    destruct (ids_from 0 _ (records db)) as [| i [| j rest]]; try reflexivity.
    now destruct Hcount.
  - rewrite (search_run "adapay_uuid" adapay_uuid ref db eq_refl) in Hsearch.
    injection Hsearch as <-.
    destruct (dict_get "hash" inner) as [hash |] eqn:Hh; [| now destruct Hhash].
    rewrite (handle_transactions_run d inner ref hash db Hevent Hdata Hkey Hh).
    destruct (ids_from 0 _ (records db)) as [| i [| j rest]]; try reflexivity.
    now destruct Hcount.
Qed.

(** X20.  The log line comes first.  A recognised event whose data lacks
    the key its log line prints ([orderId]; [paymentRequestUuid] or
    [hash]) makes the webhook raise [KeyError], before any lookup: it is
    not answered with [False], although the lookup that follows reads the
    same key with [get].  Nothing changes. *)
Theorem webhook_log_line_raises d inner event db :
  dict_get "event" d = Some (VStr event) ->
  py_get (VDict d) "data" (VDict []) = inr (VDict inner) ->
  (event = "paymentRequestUpdate" /\ dict_get "orderId" inner = None) \/
  (event = "paymentRequestTransactionsUpdate" /\
   (dict_get "paymentRequestUuid" inner = None \/ dict_get "hash" inner = None)) ->
  _handle_adapay_webhook (VDict d) db = (Failed (Python KeyError), db).
Proof.
  intros Hevent Hdata Hmissing. unfold _handle_adapay_webhook.
  unfold table.bind at 1. unfold py_get at 1. rewrite Hevent.
  cbn [table.eval table.ret].
  unfold table.bind at 1. rewrite Hdata. cbn [table.eval table.ret].
  destruct Hmissing as [(-> & Horder) | (-> & Hkeys)];
    cbn [py_eq String.eqb Ascii.eqb Bool.eqb].
  - unfold table.bind at 1. unfold subscript. rewrite Horder. reflexivity.
  - unfold table.bind at 1. unfold subscript.
    destruct (dict_get "paymentRequestUuid" inner) as [uuid |] eqn:Hu;
      [| reflexivity].
    destruct Hkeys as [Hk | Hk]; [discriminate |].
    cbn [table.eval table.ret]. unfold table.bind at 1. rewrite Hk. reflexivity.
Qed.

(** A call on a record leaves the other records alone. *)
Lemma on_record_rest {A : Type} i (method : M A) db :
  List.length (records (snd (on_record i method db))) = List.length (records db) /\
  forall j, j <> i ->
            nth_error (records (snd (on_record i method db))) j
            = nth_error (records db) j.
Proof.
  unfold on_record. destruct (nth_error (records db) i) as [t |]; [| now split].
  destruct (method _) as [o w]. cbn [snd records]. split.
  - apply set_nth_length.
  - intros j Hj. now apply nth_error_set_nth_other.
Qed.

Lemma on_record_run {A : Type} i (method : M A) db t o w :
  nth_error (records db) i = Some t ->
  method {| self := t; chatter := posted db; transitions := performed db |} = (o, w) ->
  on_record i method db
  = (match o with
     | Returned a => Done a
     | Raised e => Failed (Python e)
     end,
     {| records := set_nth i (self w) (records db);
        posted := chatter w; performed := transitions w |}).
Proof. intros Ht Hm. unfold on_record. now rewrite Ht, Hm. Qed.

(** X21.  Whatever the notification and however the webhook ends, the
    table keeps its records and at most one of them has changed. *)
Theorem webhook_touches_one_record data db :
  List.length (records (snd (_handle_adapay_webhook data db)))
  = List.length (records db) /\
  exists i, forall j,
      j <> i ->
      nth_error (records (snd (_handle_adapay_webhook data db))) j
      = nth_error (records db) j.
Proof.
  assert (Hsame : forall r : result bool,
             List.length (records (snd (r, db))) = List.length (records db) /\
             exists i, forall j,
                 j <> i ->
                 nth_error (records (snd (r, db))) j = nth_error (records db) j)
    by (intros r; split; [reflexivity | exists 0%nat; reflexivity]).
  assert (Hone : forall i (method : M bool),
             List.length
               (records (snd ((on_record i method ;; table.ret true)%table db)))
             = List.length (records db) /\
             exists i0, forall j,
                 j <> i0 ->
                 nth_error
                   (records (snd ((on_record i method ;; table.ret true)%table db))) j
                 = nth_error (records db) j).
  { intros i method. unfold table.bind.
    destruct (on_record_rest i method db) as (Hlen & Hrest).
    destruct (on_record i method db) as [[b | f] db']; cbn [snd table.ret] in *;
      (split; [exact Hlen | exists i; exact Hrest]). }
  remember (_handle_adapay_webhook data db) as r eqn:Hr.
  unfold _handle_adapay_webhook in Hr.
  unfold table.bind at 1 in Hr.
  destruct (py_get data "event" VNone) as [e | event_type];
    cbn [table.eval table.raise table.ret] in Hr; [subst r; apply Hsame |].
  unfold table.bind at 1 in Hr.
  destruct (py_get data "data" (VDict [])) as [e | inner];
    cbn [table.eval table.raise table.ret] in Hr; [subst r; apply Hsame |].
  destruct (py_eq event_type (VStr "paymentRequestUpdate")).
  - unfold table.bind at 1 in Hr.
    destruct (subscript inner "orderId") as [e | v];
      cbn [table.eval table.raise table.ret] in Hr; [subst r; apply Hsame |].
    unfold table.bind at 1 in Hr.
    destruct (py_get inner "orderId" VNone) as [e | ref];
      cbn [table.eval table.raise table.ret] in Hr; [subst r; apply Hsame |].
    unfold table.bind at 1 in Hr.
    rewrite (found_or_refused_run (VDict [("reference", ref)]) "reference"
               (fun t => VStr (reference t)) ref db eq_refl eq_refl) in Hr.
    destruct (ids_from 0 _ (records db)) as [| i [| j rest]]; subst r;
      [apply Hsame | apply Hone | apply Hsame].
  - destruct (py_eq event_type (VStr "paymentRequestTransactionsUpdate"));
      [| subst r; apply Hsame].
    unfold table.bind at 1 in Hr.
    destruct (subscript inner "paymentRequestUuid") as [e | v];
      cbn [table.eval table.raise table.ret] in Hr; [subst r; apply Hsame |].
    unfold table.bind at 1 in Hr.
    destruct (subscript inner "hash") as [e | v'];
      cbn [table.eval table.raise table.ret] in Hr; [subst r; apply Hsame |].
    unfold table.bind at 1 in Hr.
    destruct (py_get inner "paymentRequestUuid" VNone) as [e | ref];
      cbn [table.eval table.raise table.ret] in Hr; [subst r; apply Hsame |].
    unfold table.bind at 1 in Hr.
    rewrite (found_or_refused_run (VDict [("reference", ref)]) "adapay_uuid"
               adapay_uuid ref db eq_refl eq_refl) in Hr.
    destruct (ids_from 0 _ (records db)) as [| i [| j rest]]; subst r;
      [apply Hsame | apply Hone | apply Hsame].
Qed.

(** X22.  A status update reaches its transaction.  When exactly one
    transaction has the order id of a well-formed [paymentRequestUpdate]
    as its reference, the webhook returns [True]; that transaction carries
    the status reported and the local status it maps to; its linked sales
    orders have one more note each; every other transaction is as it
    was. *)
Theorem webhook_update_reaches_its_transaction
  d inner ref odoo_tx t status sent owed updateTime subStatus db :
  dict_get "event" d = Some (VStr "paymentRequestUpdate") ->
  py_get (VDict d) "data" (VDict []) = inr (VDict inner) ->
  dict_get "orderId" inner = Some ref ->
  search "reference" ref db = (Done [odoo_tx], db) ->
  nth_error (records db) odoo_tx = Some t ->
  status_payload (VDict inner) = Some (status, sent, owed, updateTime, subStatus) ->
  exists db' t',
    _handle_adapay_webhook (VDict d) db = (Done true, db') /\
    nth_error (records db') odoo_tx = Some t' /\
    adapay_status t' = status /\
    state t' = snd (local_status status) /\
    adapay_transaction_history t' = adapay_transaction_history t /\
    (forall j, j <> odoo_tx -> nth_error (records db') j = nth_error (records db) j) /\
    posted db'
    = (posted db
       ++ map (fun sale => (sale, PaymentUpdate (VDict inner))) (sale_order_ids t))%list.
Proof.
  intros Hevent Hdata Horder Hsearch Ht Hpayload.
  rewrite (search_run "reference" (fun t => VStr (reference t)) ref db eq_refl)
    in Hsearch.
  injection Hsearch as Hids.
  rewrite (handle_update_run d inner ref db Hevent Hdata Horder), Hids.
  rewrite (on_record_run odoo_tx _ db t _ _ Ht
             (feedback_run _ _ _ _ _ _ _ Hpayload)).
  eexists. eexists. split; [reflexivity |]. cbn [records posted].
  split; [apply (nth_error_set_nth_same _ _ t); exact Ht |].
  match goal with
  | |- context [settled ?a ?b ?w0] =>
      destruct (settled_mirror a b w0) as (Hs & _ & Hc);
      pose proof (settled_state a b w0) as Hst;
      assert (Hh : adapay_transaction_history (self (settled a b w0))
                   = adapay_transaction_history (self w0))
        by (unfold settled; destruct (String.eqb _ _); reflexivity)
  end.
  split; [rewrite Hs; reflexivity |].
  split; [exact Hst |].
  split; [rewrite Hh; reflexivity |].
  split; [intros j Hj; now apply nth_error_set_nth_other |].
  rewrite Hc. reflexivity.
Qed.

(** X23.  A transaction update reaches its ledger.  When exactly one
    transaction has the payment UUID of a
    [paymentRequestTransactionsUpdate] as its [adapay_uuid], and the hash
    is new to its ledger, the webhook returns [True] and that
    transaction's ledger text is the serialisation of the ledger with one
    more record: the data of the notification as a whole, payment UUID
    included, its amount in ADA.  Its sales orders are noted; no other
    field, record or transition changes. *)
Theorem webhook_transaction_reaches_its_ledger
  d inner ref h ada odoo_tx t ledger text' db :
  dict_get "event" d = Some (VStr "paymentRequestTransactionsUpdate") ->
  py_get (VDict d) "data" (VDict []) = inr (VDict inner) ->
  dict_get "paymentRequestUuid" inner = Some ref ->
  transaction_update (VDict inner) = Some (inner, h, ada) ->
  search "adapay_uuid" ref db = (Done [odoo_tx], db) ->
  nth_error (records db) odoo_tx = Some t ->
  ledger_of (adapay_transaction_history t) = inr (VDict ledger) ->
  dict_get h ledger = None ->
  json.dumps (VDict (dict_set h (VDict (dict_set "amount" ada inner)) ledger))
  = inr text' ->
  _handle_adapay_webhook (VDict d) db
  = (Done true,
     {| records := set_nth odoo_tx (set_adapay_transaction_history text' t) (records db);
        posted := (posted db
                   ++ map (fun sale =>
                             (sale, TransactionUpdate (VDict (dict_set "amount" ada inner))))
                        (sale_order_ids t))%list;
        performed := performed db |}) /\
  dict_get "paymentRequestUuid" (dict_set "amount" ada inner) = Some ref.
Proof.
  intros Hevent Hdata Huuid Hupdate Hsearch Ht Hledger Hfresh Hdumps.
  split; [| now rewrite dict_get_set_other by reflexivity].
  rewrite (search_run "adapay_uuid" adapay_uuid ref db eq_refl) in Hsearch.
  injection Hsearch as Hids.
  destruct (transaction_update_inv _ _ _ _ Hupdate) as (_ & Hh & _).
  rewrite (handle_transactions_run d inner ref (VStr h) db Hevent Hdata Huuid Hh), Hids.
  rewrite (on_record_run odoo_tx _ db t _ _ Ht
             (merge_fresh (VDict inner) inner h ada ledger text'
                {| self := t; chatter := posted db; transitions := performed db |}
                Hupdate Hledger Hfresh Hdumps)).
  reflexivity.
Qed.

(** A loop keeps what each of its rounds keeps. *)
Lemma table_for_each_keeps {A B : Type} (kept : Table -> Table -> Prop)
  (l : list A) (body : A -> table.T B) :
  (forall db, kept db db) ->
  (forall db1 db2 db3, kept db1 db2 -> kept db2 db3 -> kept db1 db3) ->
  (forall x db r, r = body x db -> kept db (snd r)) ->
  forall db, kept db (snd (table.for_each l body db)).
Proof.
  intros Hrefl Htrans Hbody.
  induction l as [| x rest IH]; intros db; cbn [table.for_each].
  - apply Hrefl.
  - unfold table.bind. specialize (Hbody x db _ eq_refl).
    destruct (body x db) as [[b | f] db1]; cbn [snd] in *.
    + apply (Htrans _ db1); [exact Hbody | apply IH].
    + exact Hbody.
Qed.

Lemma table_for_each_app {A B : Type} (before after : list A) (x : A)
  (body : A -> table.T B) db :
  table.for_each (before ++ x :: after) body db
  = match table.for_each before body db with
    | (Done _, db1) =>
        match body x db1 with
        | (Done _, db2) => table.for_each after body db2
        | (Failed f, db2) => (Failed f, db2)
        end
    | (Failed f, db1) => (Failed f, db1)
    end.
Proof.
  revert db. induction before as [| y rest IH]; intros db; cbn [app table.for_each].
  - reflexivity.
  - unfold table.bind. destruct (body y db) as [[b | f] db1]; [apply IH | reflexivity].
Qed.

(** X24.  The scheduled synchronisation never touches a finished
    payment: however the gateway answers and however the run ends, the
    table keeps its records, and every transaction whose local status was
    [done] when the run started is exactly as it was.  With the acquirer
    in webhook mode the run changes nothing at all. *)
Theorem schedule_spares_finished_payments adapay_acquirer gateway db :
  List.length
    (records (snd (_adapay_update_payment_schedule adapay_acquirer gateway db)))
  = List.length (records db) /\
  (forall i t,
      nth_error (records db) i = Some t ->
      state t = "done" ->
      nth_error
        (records (snd (_adapay_update_payment_schedule adapay_acquirer gateway db))) i
      = Some t) /\
  (adapay_use_webhook adapay_acquirer = true ->
   _adapay_update_payment_schedule adapay_acquirer gateway db = (Done tt, db)).
Proof.
  assert (Hkept :
            forall r,
              r = _adapay_update_payment_schedule adapay_acquirer gateway db ->
              List.length (records (snd r)) = List.length (records db) /\
              forall i t,
                nth_error (records db) i = Some t ->
                state t = "done" ->
                nth_error (records (snd r)) i = Some t).
  { intros r Hr. unfold _adapay_update_payment_schedule in Hr.
    destruct (adapay_use_webhook adapay_acquirer); cbn [negb] in Hr;
      [subst r; now split |].
    unfold table.bind at 1 in Hr.
    destruct gateway as [e | payments_data];
      cbn [table.eval table.raise table.ret] in Hr; [subst r; now split |].
    unfold table.bind at 1 in Hr.
    destruct (subscript payments_data "data") as [e | payments];
      cbn [table.eval table.raise table.ret] in Hr; [subst r; now split |].
    unfold table.bind at 1 in Hr.
    destruct (py_iter payments) as [e | items];
      cbn [table.eval table.raise table.ret] in Hr; [subst r; now split |].
    subst r.
    apply (table_for_each_keeps
             (fun db1 db2 =>
                List.length (records db2) = List.length (records db1) /\
                forall i t,
                  nth_error (records db1) i = Some t ->
                  state t = "done" ->
                  nth_error (records db2) i = Some t)).
    - intros db0. now split.
    - intros db1 db2 db3 (Hl12 & H12) (Hl23 & H23). split; [congruence |].
      intros i t Hi Hdone. apply H23; [now apply H12 | exact Hdone].
    - intros payment db0 r Hr. cbv beta in Hr.
      unfold table.bind at 1 in Hr.
      destruct (subscript payment "uuid") as [e | uuid];
        cbn [table.eval table.raise table.ret] in Hr; [subst r; now split |].
      unfold table.bind at 1 in Hr.
      rewrite (search_run "adapay_uuid" adapay_uuid uuid db0 eq_refl) in Hr.
      destruct (ids_from 0 _ (records db0)) as [| j [| j' rest]];
        [subst r; now split | | subst r; now split].
      unfold table.bind, read in Hr.
      destruct (nth_error (records db0) j) as [tj |] eqn:Hj; [| subst r; now split].
      destruct (String.eqb (state tj) "done") eqn:Hst; cbn [negb] in Hr;
        [subst r; now split |].
      destruct (on_record_rest j (_process_payment_data payment) db0) as (Hlen & Hrest).
      subst r. split; [exact Hlen |].
      intros i t Hi Hdone. rewrite Hrest; [exact Hi |].
      intros ->. rewrite Hj in Hi. injection Hi as ->.
      rewrite Hdone in Hst. discriminate. }
  destruct (Hkept _ eq_refl) as (Hlen & Hdone).
  split; [exact Hlen |]. split; [exact Hdone |].
  intros Hweb. unfold _adapay_update_payment_schedule. now rewrite Hweb.
Qed.

(** Under polling, the run is the loop over the gateway's list. *)
Lemma schedule_run adapay_acquirer payments_data items db :
  adapay_use_webhook adapay_acquirer = false ->
  subscript payments_data "data" = inr (VList items) ->
  _adapay_update_payment_schedule adapay_acquirer (inr payments_data) db
  = table.for_each items
      (fun payment =>
         uuid <- table.eval (subscript payment "uuid") ;;
         transaction <- search "adapay_uuid" uuid ;;
         match transaction with
         | [] => table.ret tt
         | [odoo_tx] =>
             st <- read odoo_tx state ;;
             if negb (String.eqb st "done")
             then on_record odoo_tx (_process_payment_data payment)
             else table.ret tt
         | _ :: _ :: _ => table.raise (Python ValueError)
         end)%table db.
Proof.
  intros Hpoll Hdata. unfold _adapay_update_payment_schedule.
  rewrite Hpoll. cbn [negb].
  unfold table.bind at 1. cbn [table.eval table.ret].
  unfold table.bind at 1. rewrite Hdata. cbn [table.eval table.ret].
  unfold table.bind at 1. reflexivity.
Qed.

(** X25.  One bad payment stops the synchronisation.  When an entry of
    the gateway's list has no [uuid] to read, the run raises there: the
    payments before it have been processed, the ones after it are not
    looked at, whatever they are. *)
Theorem schedule_stops_at_a_bad_payment
  adapay_acquirer payments_data before bad after e db :
  adapay_use_webhook adapay_acquirer = false ->
  subscript payments_data "data" = inr (VList (before ++ bad :: after)) ->
  subscript bad "uuid" = inl e ->
  _adapay_update_payment_schedule adapay_acquirer (inr payments_data) db
  = match _adapay_update_payment_schedule adapay_acquirer
            (inr (VDict [("data", VList before)])) db with
    | (Done _, db1) => (Failed (Python e), db1)
    | (Failed f, db1) => (Failed f, db1)
    end.
Proof.
  intros Hpoll Hdata Hbad.
  rewrite (schedule_run adapay_acquirer payments_data _ db Hpoll Hdata).
  rewrite (schedule_run adapay_acquirer (VDict [("data", VList before)]) before db
             Hpoll eq_refl).
  rewrite table_for_each_app.
  destruct (table.for_each before _ db) as [[[] | f] db1]; [| reflexivity].
  unfold table.bind at 1. rewrite Hbad. reflexivity.
Qed.

(** X27.  A payment of the gateway's list whose UUID is that of exactly
    one transaction, not yet [done], is processed on that transaction as
    a poll would process it, and the run goes on with the rest of the list
    from what that leaves.  Unlike the refresh of a read, the run does not
    swallow a failure of the processing: it ends there, with what was
    written before the failure in place. *)
Theorem schedule_processes_an_open_payment
  adapay_acquirer payments_data payment rest uuid odoo_tx t db :
  adapay_use_webhook adapay_acquirer = false ->
  subscript payments_data "data" = inr (VList (payment :: rest)) ->
  subscript payment "uuid" = inr uuid ->
  search "adapay_uuid" uuid db = (Done [odoo_tx], db) ->
  nth_error (records db) odoo_tx = Some t ->
  state t <> "done" ->
  _adapay_update_payment_schedule adapay_acquirer (inr payments_data) db
  = match on_record odoo_tx (_process_payment_data payment) db with
    | (Done _, db1) =>
        _adapay_update_payment_schedule adapay_acquirer
          (inr (VDict [("data", VList rest)])) db1
    | (Failed f, db1) => (Failed f, db1)
    end.
Proof.
  intros Hpoll Hdata Huuid Hsearch Ht Hopen.
  rewrite (search_run "adapay_uuid" adapay_uuid uuid db eq_refl) in Hsearch.
  injection Hsearch as Hids.
  rewrite (schedule_run adapay_acquirer payments_data _ db Hpoll Hdata).
  assert (Hrest : forall db1,
             _adapay_update_payment_schedule adapay_acquirer
               (inr (VDict [("data", VList rest)])) db1
             = table.for_each rest
                 (fun payment =>
                    uuid <- table.eval (subscript payment "uuid") ;;
                    transaction <- search "adapay_uuid" uuid ;;
                    match transaction with
                    | [] => table.ret tt
                    | [odoo_tx] =>
                        st <- read odoo_tx state ;;
                        if negb (String.eqb st "done")
                        then on_record odoo_tx (_process_payment_data payment)
                        else table.ret tt
                    | _ :: _ :: _ => table.raise (Python ValueError)
                    end)%table db1)
    by (intros db1;
        apply (schedule_run adapay_acquirer (VDict [("data", VList rest)]) rest db1
                 Hpoll eq_refl)).
  cbn [table.for_each]. unfold table.bind at 1.
  unfold table.bind at 1. rewrite Huuid. cbn [table.eval table.ret].
  unfold table.bind at 1.
  rewrite (search_run "adapay_uuid" adapay_uuid uuid db eq_refl), Hids.
  unfold table.bind at 1. unfold read. rewrite Ht.
  assert (Hst : String.eqb (state t) "done" = false).
  { destruct (String.eqb (state t) "done") eqn:E; [| reflexivity].
    apply String.eqb_eq in E. contradiction. }
  rewrite Hst. cbn [negb].
  destruct (on_record odoo_tx (_process_payment_data payment) db) as [[[] | f] db1];
    [| reflexivity].
  symmetry. apply Hrest.
Qed.

End TableMore.


(** X17 on a table of two transactions, sought by the first one's
    reference. *)
Lemma lookup_finds_the_only_match_witness :
  let db := SampleTable.holding
              [Sample.transaction Sample.polling "draft" "new" 15 "{}";
               SampleTable.other] in
  let holds := fun t => py_eq (VStr (reference t)) (VStr "S00001") in
  db = db /\
  (exists t, nth_error (records db) 0 = Some t /\ holds t = true) /\
  (forall j t, nth_error (records db) j = Some t -> holds t = true -> j = 0%nat).
Proof.
  exact (lookup_finds_the_only_match (DB := SampleTable.orm)
           (VDict [("reference", VStr "S00001")]) "reference"
           (fun t => VStr (reference t)) (VStr "S00001")
           (SampleTable.holding
              [Sample.transaction Sample.polling "draft" "new" 15 "{}";
               SampleTable.other])
           eq_refl eq_refl).
Defined.

(** X18 on an event the module does not know. *)
Lemma unknown_event_is_acknowledged_witness :
  _handle_adapay_webhook (JSON := PyJson.python) (ADAPAY := spec_connector)
    (DB := SampleTable.orm)
    (VDict [("event", VStr "paymentRequestCreated")])
    (SampleTable.holding [Sample.transaction Sample.webhook "draft" "new" 15 "{}"])
  = (Done true,
     SampleTable.holding [Sample.transaction Sample.webhook "draft" "new" 15 "{}"]).
Proof.
  refine (unknown_event_is_acknowledged (JSON := PyJson.python)
            (ADAPAY := spec_connector) (DB := SampleTable.orm)
            [("event", VStr "paymentRequestCreated")]
            (SampleTable.holding [Sample.transaction Sample.webhook "draft" "new" 15 "{}"])
            _).
  intros s [<- | [<- | []]] H; discriminate H.
Defined.

(** X19 on a status update for an order no transaction has. *)
Lemma unmatched_webhook_is_refused_witness :
  _handle_adapay_webhook (JSON := PyJson.python) (ADAPAY := spec_connector)
    (DB := SampleTable.orm)
    (VDict [("event", VStr "paymentRequestUpdate");
            ("data", VDict [("orderId", VStr "S99999"); ("status", VStr "confirmed")])])
    (SampleTable.holding [Sample.transaction Sample.webhook "draft" "new" 15 "{}"])
  = (Done false,
     SampleTable.holding [Sample.transaction Sample.webhook "draft" "new" 15 "{}"]).
Proof.
  refine (unmatched_webhook_is_refused (JSON := PyJson.python)
            (ADAPAY := spec_connector) (DB := SampleTable.orm)
            [("event", VStr "paymentRequestUpdate");
             ("data", VDict [("orderId", VStr "S99999"); ("status", VStr "confirmed")])]
            [("orderId", VStr "S99999"); ("status", VStr "confirmed")]
            "paymentRequestUpdate" "orderId" "reference" (VStr "S99999") []
            (SampleTable.holding [Sample.transaction Sample.webhook "draft" "new" 15 "{}"])
            (or_introl eq_refl) eq_refl eq_refl eq_refl eq_refl _).
  intros H. discriminate H.
Defined.

(** X20 on a status update without its order id, for a table where the
    lookup would have found nothing. *)
Lemma webhook_log_line_raises_witness :
  _handle_adapay_webhook (JSON := PyJson.python) (ADAPAY := spec_connector)
    (DB := SampleTable.orm)
    (VDict [("event", VStr "paymentRequestUpdate");
            ("data", VDict [("status", VStr "confirmed")])])
    (SampleTable.holding [Sample.transaction Sample.webhook "draft" "new" 15 "{}"])
  = (Failed (Python KeyError),
     SampleTable.holding [Sample.transaction Sample.webhook "draft" "new" 15 "{}"]).
Proof.
  exact (webhook_log_line_raises (JSON := PyJson.python)
           (ADAPAY := spec_connector) (DB := SampleTable.orm)
           [("event", VStr "paymentRequestUpdate");
            ("data", VDict [("status", VStr "confirmed")])]
           [("status", VStr "confirmed")] "paymentRequestUpdate"
           (SampleTable.holding [Sample.transaction Sample.webhook "draft" "new" 15 "{}"])
           eq_refl eq_refl (or_introl (conj eq_refl eq_refl))).
Defined.

(** X22 on a confirmation for the first of two transactions. *)
Lemma webhook_update_reaches_its_transaction_witness :
  let inner :=
    [("orderId", VStr "S00001"); ("status", VStr "confirmed");
     ("confirmedAmount", VInt 5000000); ("pendingAmount", VInt 0);
     ("updateTime", VStr "T1"); ("subStatus", VStr "")] in
  let t := Sample.transaction Sample.webhook "pending" "pending" 15 "{}" in
  let db := SampleTable.holding [t; SampleTable.other] in
  exists db' t',
    _handle_adapay_webhook (JSON := PyJson.python) (ADAPAY := spec_connector)
      (DB := SampleTable.orm)
      (VDict [("event", VStr "paymentRequestUpdate"); ("data", VDict inner)]) db
    = (Done true, db') /\
    nth_error (records db') 0 = Some t' /\
    adapay_status t' = VStr "confirmed" /\
    state t' = "done" /\
    adapay_transaction_history t' = "{}" /\
    (forall j, j <> 0%nat -> nth_error (records db') j = nth_error (records db) j) /\
    posted db' = [(1%nat, PaymentUpdate (VDict inner))].
Proof.
  exact (webhook_update_reaches_its_transaction (JSON := PyJson.python)
           (ADAPAY := spec_connector) (DB := SampleTable.orm)
           [("event", VStr "paymentRequestUpdate");
            ("data",
             VDict [("orderId", VStr "S00001"); ("status", VStr "confirmed");
                    ("confirmedAmount", VInt 5000000); ("pendingAmount", VInt 0);
                    ("updateTime", VStr "T1"); ("subStatus", VStr "")])]
           [("orderId", VStr "S00001"); ("status", VStr "confirmed");
            ("confirmedAmount", VInt 5000000); ("pendingAmount", VInt 0);
            ("updateTime", VStr "T1"); ("subStatus", VStr "")]
           (VStr "S00001") 0%nat
           (Sample.transaction Sample.webhook "pending" "pending" 15 "{}")
           (VStr "confirmed") (VFloat (Float 5 0)) (VFloat (Float 0 0))
           (VStr "T1") (VStr "")
           (SampleTable.holding
              [Sample.transaction Sample.webhook "pending" "pending" 15 "{}";
               SampleTable.other])
           eq_refl eq_refl eq_refl eq_refl eq_refl eq_refl).
Defined.

(** X23 on the update [h1] for the payment [uuid-1]. *)
Lemma webhook_transaction_reaches_its_ledger_witness :
  let inner :=
    [("paymentRequestUuid", VStr "uuid-1"); ("hash", VStr "h1");
     ("amount", VInt 5000000); ("updateTime", VStr "T1")] in
  let stored :=
    [("paymentRequestUuid", VStr "uuid-1"); ("hash", VStr "h1");
     ("amount", VFloat (Float 5 0)); ("updateTime", VStr "T1")] in
  let t := Sample.transaction Sample.webhook "pending" "pending" 15 "{}" in
  _handle_adapay_webhook (JSON := PyJson.python) (ADAPAY := spec_connector)
    (DB := SampleTable.orm)
    (VDict [("event", VStr "paymentRequestTransactionsUpdate"); ("data", VDict inner)])
    (SampleTable.holding [t; SampleTable.other])
  = (Done true,
     {| records :=
          [set_adapay_transaction_history
             (PyJson.encode (VDict [("h1", VDict stored)])) t;
           SampleTable.other];
        posted := [(1%nat, TransactionUpdate (VDict stored))];
        performed := [] |}) /\
  dict_get "paymentRequestUuid" stored = Some (VStr "uuid-1").
Proof.
  exact (webhook_transaction_reaches_its_ledger (JSON := PyJson.python)
           (ADAPAY := spec_connector) (DB := SampleTable.orm)
           [("event", VStr "paymentRequestTransactionsUpdate");
            ("data",
             VDict [("paymentRequestUuid", VStr "uuid-1"); ("hash", VStr "h1");
                    ("amount", VInt 5000000); ("updateTime", VStr "T1")])]
           [("paymentRequestUuid", VStr "uuid-1"); ("hash", VStr "h1");
            ("amount", VInt 5000000); ("updateTime", VStr "T1")]
           (VStr "uuid-1") "h1" (VFloat (Float 5 0)) 0%nat
           (Sample.transaction Sample.webhook "pending" "pending" 15 "{}")
           []
           (PyJson.encode
              (VDict [("h1",
                       VDict [("paymentRequestUuid", VStr "uuid-1"); ("hash", VStr "h1");
                              ("amount", VFloat (Float 5 0));
                              ("updateTime", VStr "T1")])]))
           (SampleTable.holding
              [Sample.transaction Sample.webhook "pending" "pending" 15 "{}";
               SampleTable.other])
           eq_refl eq_refl eq_refl eq_refl eq_refl eq_refl eq_refl eq_refl eq_refl).
Defined.

(** X25 on a list whose first entry has no [uuid]: the payment after it,
    though well formed, is not processed. *)
Lemma schedule_stops_at_a_bad_payment_witness :
  _adapay_update_payment_schedule (JSON := PyJson.python) (ADAPAY := spec_connector)
    (DB := SampleTable.orm) Sample.polling
    (inr (VDict [("data",
                  VList [VDict [("status", VStr "confirmed")];
                         VDict (("uuid", VStr "uuid-1")
                                :: match Sample.payment "confirmed" "T1" [] with
                                   | VDict entries => entries
                                   | _ => []
                                   end)])]))
    (SampleTable.holding [Sample.transaction Sample.polling "pending" "pending" 15 "{}"])
  = (Failed (Python KeyError),
     SampleTable.holding [Sample.transaction Sample.polling "pending" "pending" 15 "{}"]).
Proof.
  exact (schedule_stops_at_a_bad_payment (JSON := PyJson.python)
           (ADAPAY := spec_connector) (DB := SampleTable.orm) Sample.polling
           (VDict [("data",
                    VList [VDict [("status", VStr "confirmed")];
                           VDict (("uuid", VStr "uuid-1")
                                  :: match Sample.payment "confirmed" "T1" [] with
                                     | VDict entries => entries
                                     | _ => []
                                     end)])])
           [] (VDict [("status", VStr "confirmed")])
           [VDict (("uuid", VStr "uuid-1")
                   :: match Sample.payment "confirmed" "T1" [] with
                      | VDict entries => entries
                      | _ => []
                      end)]
           KeyError
           (SampleTable.holding
              [Sample.transaction Sample.polling "pending" "pending" 15 "{}"])
           eq_refl eq_refl eq_refl).
Defined.

(** X27 on a confirmation polled for the payment [uuid-1]: the run is
    the processing of that payment on its transaction. *)
Lemma schedule_processes_an_open_payment_witness :
  let payment :=
    VDict [("uuid", VStr "uuid-1"); ("status", VStr "confirmed");
           ("confirmedAmount", VInt 5000000); ("pendingAmount", VInt 0);
           ("updateTime", VStr "T1"); ("subStatus", VStr "");
           ("transactions", VList [Sample.update_h1])] in
  let db := SampleTable.holding
              [Sample.transaction Sample.polling "pending" "pending" 15 "{}";
               SampleTable.other] in
  _adapay_update_payment_schedule (JSON := PyJson.python) (ADAPAY := spec_connector)
    (DB := SampleTable.orm) Sample.polling
    (inr (VDict [("data", VList [payment])])) db
  = match on_record 0
            (_process_payment_data (JSON := PyJson.python) (ADAPAY := spec_connector)
               payment) db with
    | (Done _, db1) =>
        _adapay_update_payment_schedule (JSON := PyJson.python)
          (ADAPAY := spec_connector) (DB := SampleTable.orm) Sample.polling
          (inr (VDict [("data", VList [])])) db1
    | (Failed f, db1) => (Failed f, db1)
    end.
Proof.
  refine (schedule_processes_an_open_payment (JSON := PyJson.python)
            (ADAPAY := spec_connector) (DB := SampleTable.orm) Sample.polling
            (VDict [("data",
                     VList [VDict [("uuid", VStr "uuid-1"); ("status", VStr "confirmed");
                                   ("confirmedAmount", VInt 5000000);
                                   ("pendingAmount", VInt 0);
                                   ("updateTime", VStr "T1"); ("subStatus", VStr "");
                                   ("transactions", VList [Sample.update_h1])]])])
            (VDict [("uuid", VStr "uuid-1"); ("status", VStr "confirmed");
                    ("confirmedAmount", VInt 5000000); ("pendingAmount", VInt 0);
                    ("updateTime", VStr "T1"); ("subStatus", VStr "");
                    ("transactions", VList [Sample.update_h1])])
            [] (VStr "uuid-1") 0%nat
            (Sample.transaction Sample.polling "pending" "pending" 15 "{}")
            (SampleTable.holding
               [Sample.transaction Sample.polling "pending" "pending" 15 "{}";
                SampleTable.other])
            eq_refl eq_refl eq_refl eq_refl eq_refl _).
  intros H. discriminate H.
Defined.

(** *** Form validation *)

(** X26.  The only parameter checked is the currency: the answer is empty
    exactly when the currency in the data equals the transaction's, holds
    otherwise the one entry for the currency with both values, and is the
    same whatever else the data holds, its amount included. *)
Theorem invalid_parameters_checks_the_currency_only currency_name d :
  (exists currency,
      py_get (VDict d) "currency" VNone = inr currency /\
      _adapay_form_get_invalid_parameters currency_name (VDict d)
      = inr (if py_eq currency currency_name then []
             else [("currency", currency, currency_name)])) /\
  (forall key v,
      key <> "currency" ->
      _adapay_form_get_invalid_parameters currency_name (VDict (dict_set key v d))
      = _adapay_form_get_invalid_parameters currency_name (VDict d)).
Proof.
  split.
  - unfold _adapay_form_get_invalid_parameters, py_ne. cbn [py_get].
    destruct (dict_get "currency" d) as [currency |]; eexists; (split; [reflexivity |]);
      destruct (py_eq _ currency_name); reflexivity.
  - intros key v Hkey. unfold _adapay_form_get_invalid_parameters. cbn [py_get].
    rewrite dict_get_set_other; [reflexivity |].
    destruct (String.eqb "currency" key) eqn:E; [| reflexivity].
    apply String.eqb_eq in E. now destruct Hkey.
Qed.

(** *** End to end *)

Section EndToEnd.

Context {JSON : json.codec} {HOST : Host} {ADAPAY : Connector} {DB : ORM}.

Lemma rendered_return_url before t exp_time res :
  rendered before t exp_time = inr res ->
  dict_get "return_url" res
  = if py_eq (adapay_status t) (VStr "confirmed")
    then dict_get "return_url" (super_get_processing_info before)
    else Some (VStr "").
Proof.
  unfold rendered.
  destruct (json.loads _) as [e | history]; [discriminate |].
  destruct (py_values history) as [e | records]; [discriminate |].
  destruct (lookup title _) as [e | heading]; [discriminate |].
  intros H. injection H as <-. unfold py_ne, dict_update.
  destruct (py_eq (adapay_status t) (VStr "confirmed"));
    cbn [negb dict_set String.eqb Ascii.eqb Bool.eqb fold_left fst snd].
  - rewrite dict_get_set_other by reflexivity.
    now rewrite dict_get_set_other by reflexivity.
  - apply dict_get_set_same.
Qed.

(** X28.  A read that learns of the confirmation.  Under polling, when
    the gateway reports the payment [confirmed] at a new update time and
    the processing of that report returns, the read returns too: the
    transaction is left [done] with the status [confirmed]; the transition
    to [done] has been performed unless the transaction was there already;
    no seconds are left on the timer; and the answer keeps the host's
    [return_url], so the customer is let through. *)
Theorem read_learns_of_confirmation now d sent owed u subStatus ledger w w2 :
  provider (acquirer_id (self w)) = "adapay" ->
  adapay_use_webhook (acquirer_id (self w)) = false ->
  status_payload (VDict d) = Some (VStr "confirmed", sent, owed, u, subStatus) ->
  py_ne u (adapay_last_updated (self w)) = true ->
  _process_payment_data (VDict d) w = (Returned tt, w2) ->
  json.loads (adapay_transaction_history (self w2)) = inr (VDict ledger) ->
  exists res,
    _get_processing_info now (inr (VDict d)) w = (Returned res, w2) /\
    state (self w2) = "done" /\
    adapay_status (self w2) = VStr "confirmed" /\
    transitions w2
    = (transitions w
       ++ (if String.eqb (state (self w)) "done" then [] else [ToDone]))%list /\
    dict_get "adapay_expiration_seconds" res = Some (VInt 0) /\
    dict_get "return_url" res
    = dict_get "return_url" (super_get_processing_info (self w)).
Proof.
  intros Hprovider Hpoll Hpayload Hne Hprocess Hloads.
  assert (Hupdate : update_status (inr (VDict d)) w = (Returned tt, w2)).
  { rewrite update_status_unfold, Hpoll.
    unfold try_except. unfold bind at 1. cbn [eval ret]. now rewrite Hprocess. }
  pose proof (status_payload_update_time _ _ _ _ _ _ Hpayload) as Hu.
  pose proof (feedback_run _ _ _ _ _ _ w Hpayload) as Hfeedback.
  rewrite local_status_confirmed in Hfeedback. cbn [fst snd] in Hfeedback.
  assert (Hreconciled :
            reconciled w2
            = reconciled
                (settled ToDone "done"
                   (noted (sale_order_ids (self w)) (PaymentUpdate (VDict d))
                      (with_self
                         (write_feedback sent owed u (VStr "confirmed") subStatus (self w))
                         w)))).
  { rewrite process_run in Hprocess. unfold subscript at 1 in Hprocess.
    rewrite Hu, Hne, Hfeedback in Hprocess.
    destruct (subscript (VDict d) "transactions") as [e | transactions];
      [discriminate |].
    destruct (py_iter transactions) as [e | items]; [discriminate |].
    match type of Hprocess with
    | for_each items _ ?w1 = _ =>
        pose proof (merges_keep_reconciled items w1) as K
    end.
    rewrite Hprocess in K. exact K. }
  match type of Hreconciled with
  | _ = reconciled (settled ?a ?b ?w0) =>
      pose proof (settled_state a b w0) as Hstate;
      pose proof (settled_transitions a b w0) as Htransitions;
      destruct (settled_mirror a b w0) as (Hstatus & _ & _)
  end.
  unfold reconciled in Hreconciled.
  injection Hreconciled as Hst _ _ _ Hs _ Htr _.
  rewrite Hstate in Hst. rewrite Hstatus in Hs. rewrite Htransitions in Htr.
  cbn [noted with_self self write_feedback adapay_status state transitions] in Hs, Htr.
  rewrite (get_processing_info_run now (inr (VDict d)) w w2 Hprovider Hupdate).
  rewrite timer_idle by (rewrite Hs; discriminate). cbn [fst snd].
  rewrite with_self_same.
  destruct (rendered_page (self w) (self w2) 0 ledger (VStr "The transaction is confirmed!")
              Hloads)
    as (res & Hres & Hseconds & _).
  { rewrite Hs. reflexivity. }
  rewrite Hres. exists res.
  split; [reflexivity |]. split; [exact Hst |]. split; [exact Hs |].
  split; [exact Htr |]. split; [exact Hseconds |].
  rewrite (rendered_return_url _ _ _ _ Hres), Hs. reflexivity.
Qed.

Lemma set_nth_same {A : Type} i (x : A) l :
  nth_error l i = Some x -> set_nth i x l = l.
Proof.
  revert i. induction l as [| y rest IH]; intros [| i]; cbn; try discriminate.
  - intros H. now injection H as ->.
  - intros H. now rewrite IH.
Qed.

(** X29.  A notification that reaches its transaction but is not well
    formed (a key missing, an amount that does not convert) is not
    refused with [False]: the exception of the reconciliation leaves the
    webhook, and the table, the notes and the transitions are as they
    were. *)
Theorem malformed_update_changes_nothing d inner ref odoo_tx db :
  dict_get "event" d = Some (VStr "paymentRequestUpdate") ->
  py_get (VDict d) "data" (VDict []) = inr (VDict inner) ->
  dict_get "orderId" inner = Some ref ->
  search "reference" ref db = (Done [odoo_tx], db) ->
  status_payload (VDict inner) = None ->
  exists e, _handle_adapay_webhook (VDict d) db = (Failed (Python e), db).
Proof.
  intros Hevent Hdata Horder Hsearch Hpayload.
  rewrite (search_run "reference" (fun t => VStr (reference t)) ref db eq_refl)
    in Hsearch.
  injection Hsearch as Hids.
  assert (Hin : In odoo_tx
                  (ids_from 0 (fun t => field_equals (VStr (reference t)) ref)
                     (records db)))
    by (rewrite Hids; now left).
  apply ids_from_0_In in Hin. destruct Hin as (t & Ht & _).
  destruct (feedback_raises (VDict inner)
              {| self := t; chatter := posted db; transitions := performed db |}
              Hpayload) as (e & He).
  exists e.
  rewrite (handle_update_run d inner ref db Hevent Hdata Horder), Hids.
  rewrite (on_record_run odoo_tx _ db t _ _ Ht He).
  cbn [self chatter transitions]. rewrite (set_nth_same _ _ _ Ht).
  now destruct db.
Qed.

End EndToEnd.

(** X28 on a confirmation polled by the read of a pending payment. *)
Lemma read_learns_of_confirmation_witness :
  let d :=
    [("status", VStr "confirmed"); ("confirmedAmount", VInt 5000000);
     ("pendingAmount", VInt 0); ("updateTime", VStr "T1");
     ("subStatus", VStr ""); ("transactions", VList [])] in
  let w := Sample.world (Sample.transaction Sample.polling "pending" "pending" 15 "{}") in
  let w2 :=
    snd (_process_payment_data (JSON := PyJson.python) (ADAPAY := spec_connector)
           (VDict d) w) in
  exists res,
    _get_processing_info (JSON := PyJson.python) (HOST := Sample.host)
      (ADAPAY := spec_connector) Sample.minute (inr (VDict d)) w
    = (Returned res, w2) /\
    state (self w2) = "done" /\
    adapay_status (self w2) = VStr "confirmed" /\
    transitions w2 = [ToDone] /\
    dict_get "adapay_expiration_seconds" res = Some (VInt 0) /\
    dict_get "return_url" res = Some (VStr "/payment/process").
Proof.
  exact (read_learns_of_confirmation (JSON := PyJson.python) (HOST := Sample.host)
           (ADAPAY := spec_connector) Sample.minute
           [("status", VStr "confirmed"); ("confirmedAmount", VInt 5000000);
            ("pendingAmount", VInt 0); ("updateTime", VStr "T1");
            ("subStatus", VStr ""); ("transactions", VList [])]
           (VFloat (Float 5 0)) (VFloat (Float 0 0)) (VStr "T1") (VStr "") []
           (Sample.world (Sample.transaction Sample.polling "pending" "pending" 15 "{}"))
           (snd (_process_payment_data (JSON := PyJson.python)
                   (ADAPAY := spec_connector)
                   (VDict [("status", VStr "confirmed");
                           ("confirmedAmount", VInt 5000000);
                           ("pendingAmount", VInt 0); ("updateTime", VStr "T1");
                           ("subStatus", VStr ""); ("transactions", VList [])])
                   (Sample.world
                      (Sample.transaction Sample.polling "pending" "pending" 15 "{}"))))
           eq_refl eq_refl eq_refl eq_refl eq_refl eq_refl).
Defined.

(** X29 on a status update that lacks its amounts. *)
Lemma malformed_update_changes_nothing_witness :
  exists e,
    _handle_adapay_webhook (JSON := PyJson.python) (ADAPAY := spec_connector)
      (DB := SampleTable.orm)
      (VDict [("event", VStr "paymentRequestUpdate");
              ("data", VDict [("orderId", VStr "S00001"); ("status", VStr "confirmed")])])
      (SampleTable.holding
         [Sample.transaction Sample.webhook "pending" "pending" 15 "{}";
          SampleTable.other])
    = (Failed (Python e),
       SampleTable.holding
         [Sample.transaction Sample.webhook "pending" "pending" 15 "{}";
          SampleTable.other]).
Proof.
  exact (malformed_update_changes_nothing (JSON := PyJson.python)
           (ADAPAY := spec_connector) (DB := SampleTable.orm)
           [("event", VStr "paymentRequestUpdate");
            ("data", VDict [("orderId", VStr "S00001"); ("status", VStr "confirmed")])]
           [("orderId", VStr "S00001"); ("status", VStr "confirmed")]
           (VStr "S00001") 0%nat
           (SampleTable.holding
              [Sample.transaction Sample.webhook "pending" "pending" 15 "{}";
               SampleTable.other])
           eq_refl eq_refl eq_refl eq_refl eq_refl).
Defined.
